(** * kerastuner.engine.instance: sizes, metric schema and result records

    A shallow embedding of [kerastuner/engine/instance.py] (class
    [Instance]: [__init__], [summary], [resume_fit], [fit],
    [record_results]) together with the properties its specification
    states about it and further properties of the class.

    Python integers are [Z]; Python floats are IEEE binary64 values,
    represented by the rational they denote and rounded to nearest-even
    after every operation; Python dictionaries are association lists in
    insertion order; objects that are shared and mutated in place (the
    metric collections) live in a store and are referred to by location.
    A raised exception is a value of [exn]; the state reached when it is
    raised is kept, as it is in Python. *)

From Stdlib Require Import ZArith QArith Qround Qabs Qpower Lia Lqa.
From stdpp Require Import base decidable option list strings.

Local Open Scope string_scope.
Local Open Scope Z_scope.

#[local] Set Warnings "-register-all".

(** ** Binary64 rounding *)

Module Binary64.

Definition prec : Z := 53.
Definition emin : Z := -1074.
Definition emax : Z := 1024.

Definition pow2 (e : Z) : Q := (2 ^ e)%Q.

(** For [q > 0], the exponent [m] with [2^(m-1) <= q < 2^m]. *)
Definition mag (q : Q) : Z :=
  let k := Z.log2 (Qnum q) - Z.log2 (Zpos (Qden q)) in
  if Qle_bool (pow2 k) q then k + 1 else k.

(** Exponent of the last place: 53 significant bits, gradual underflow. *)
Definition fexp (e : Z) : Z := Z.max (e - prec) emin.

(** Nearest integer, ties to even. *)
Definition rne (q : Q) : Z :=
  let f := Qfloor q in
  match (q - inject_Z f ?= 1 # 2)%Q with
  | Lt => f
  | Gt => f + 1
  | Eq => if Z.even f then f else f + 1
  end.

Definition round_at (e : Z) (q : Q) : Q :=
  (inject_Z (rne (q / pow2 e)) * pow2 e)%Q.

Definition round_pos (q : Q) : Q := round_at (fexp (mag q)) q.

(** Round to the nearest binary64 value, exponent range unbounded above
    (overflow is detected by the caller). *)
Definition round (q : Q) : Q :=
  match (q ?= 0)%Q with
  | Eq => 0%Q
  | Gt => round_pos q
  | Lt => (- round_pos (- q))%Q
  end.

Definition overflows (r : Q) : bool := Qle_bool (pow2 emax) (Qabs r).

Definition negative (q : Q) : bool := negb (Qle_bool 0 q).

(** Truncation toward zero. *)
Definition truncate (q : Q) : Z := Z.quot (Qnum q) (Zpos (Qden q)).

End Binary64.

(** ** Python exceptions and results *)

Inductive exn : Type :=
| AttributeError (attribute : string)
| NameError (name : string)
| UnboundLocalError (name : string)
| KeyError (key : string)
| TypeError (message : string)
| ValueError (message : string)
| OverflowError (message : string)
| ConfigurationError (message : string)
| TrainingError (message : string).

Inductive result (A : Type) : Type :=
| Ok (value : A)
| Raise (e : exn).
Arguments Ok {A} value.
Arguments Raise {A} e.

Definition is_ok {A} (r : result A) : bool :=
  match r with Ok _ => true | Raise _ => false end.

(** Computations over a mutable state [S] that may raise; the state at
    the point of the raise is returned with the exception. *)
Definition M (S A : Type) : Type := S -> S * result A.

Definition ret {S A} (a : A) : M S A := fun s => (s, Ok a).
Definition raise {S A} (e : exn) : M S A := fun s => (s, Raise e).
Definition bind {S A B} (c : M S A) (k : A -> M S B) : M S B :=
  fun s => match c s with
           | (s', Ok a) => k a s'
           | (s', Raise e) => (s', Raise e)
           end.
Definition get {S} : M S S := fun s => (s, Ok s).
Definition modify {S} (f : S -> S) : M S unit := fun s => (f s, Ok tt).
Definition lift {S A} (r : result A) : M S A := fun s => (s, r).

Notation "x <- c ;; k" := (bind c (fun x => k))
  (at level 100, c at next level, right associativity).
Notation "c ;; k" := (bind c (fun _ => k))
  (at level 100, right associativity).

(** [for a in l: body a], threading an accumulator of local variables. *)
Fixpoint for_each {S A L} (l : list A) (body : A -> L -> M S L) (acc : L) : M S L :=
  match l with
  | [] => ret acc
  | a :: l' => acc' <- body a acc ;; for_each l' body acc'
  end.

(** ** Python numbers *)

(** A [float]: a finite binary64 value, given by the rational it
    denotes, an infinity or a NaN.  The sign of zero is not kept; no
    operation below depends on it. *)
Inductive pyfloat : Type :=
| FFinite (q : Q)
| FInf (neg : bool)
| FNaN.

(** An [int] or a [float]. *)
Inductive pynum : Type :=
| PInt (z : Z)
| PFloat (f : pyfloat).

Module PyNum.
Import Binary64.

(** The float an operation returns when its exact result is [q]. *)
Definition of_exact (q : Q) : pyfloat :=
  let r := round q in
  if overflows r then FInf (negative r) else FFinite r.

(** Implicit conversion of an [int] operand in mixed arithmetic. *)
Definition float_of_int (z : Z) : result pyfloat :=
  let r := round (inject_Z z) in
  if overflows r then Raise (OverflowError "int too large to convert to float")
  else Ok (FFinite r).

Definition fmul (a b : pyfloat) : pyfloat :=
  match a, b with
  | FNaN, _ | _, FNaN => FNaN
  | FFinite x, FFinite y => of_exact (x * y)
  | FInf s, FFinite y | FFinite y, FInf s =>
      if Qeq_bool y 0 then FNaN else FInf (xorb s (negative y))
  | FInf s, FInf t => FInf (xorb s t)
  end.

Definition fsub (a b : pyfloat) : pyfloat :=
  match a, b with
  | FNaN, _ | _, FNaN => FNaN
  | FFinite x, FFinite y => of_exact (x - y)
  | FInf s, FFinite _ => FInf s
  | FFinite _, FInf s => FInf (negb s)
  | FInf s, FInf t => if Bool.eqb s t then FNaN else FInf s
  end.

(** [a * b] *)
Definition mul (a b : pynum) : result pynum :=
  match a, b with
  | PInt x, PInt y => Ok (PInt (x * y))
  | PInt x, PFloat g =>
      match float_of_int x with Ok f => Ok (PFloat (fmul f g)) | Raise e => Raise e end
  | PFloat f, PInt y =>
      match float_of_int y with Ok g => Ok (PFloat (fmul f g)) | Raise e => Raise e end
  | PFloat f, PFloat g => Ok (PFloat (fmul f g))
  end.

(** [a - b] *)
Definition sub (a b : pynum) : result pynum :=
  match a, b with
  | PInt x, PInt y => Ok (PInt (x - y))
  | PInt x, PFloat g =>
      match float_of_int x with Ok f => Ok (PFloat (fsub f g)) | Raise e => Raise e end
  | PFloat f, PInt y =>
      match float_of_int y with Ok g => Ok (PFloat (fsub f g)) | Raise e => Raise e end
  | PFloat f, PFloat g => Ok (PFloat (fsub f g))
  end.

(** [int(a)] *)
Definition to_int (a : pynum) : result Z :=
  match a with
  | PInt z => Ok z
  | PFloat (FFinite q) => Ok (truncate q)
  | PFloat (FInf _) => Raise (OverflowError "cannot convert float infinity to integer")
  | PFloat FNaN => Raise (ValueError "cannot convert float NaN to integer")
  end.

(** Truth value of a number: non-zero. *)
Definition truthy (a : pynum) : bool :=
  match a with
  | PInt z => negb (z =? 0)
  | PFloat (FFinite q) => negb (Qeq_bool q 0)
  | PFloat _ => true
  end.

End PyNum.

(** ** Python values and dictionaries *)

(** The values that flow through the result record.  [VObj] stands for
    any object [json.dumps] cannot encode (a function, a class
    instance, an array). *)
Inductive pyval : Type :=
| VNone
| VBool (b : bool)
| VInt (z : Z)
| VFloat (q : Q)
| VStr (s : string)
| VList (items : list pyval)
| VDict (items : list (string * pyval))
| VObj (id : nat).

(** Whether [json.dumps v] returns, rather than raising [TypeError]. *)
Fixpoint json_serializable (v : pyval) : bool :=
  match v with
  | VObj _ => false
  | VList l =>
      (fix all (l : list pyval) : bool :=
         match l with
         | [] => true
         | x :: l' => json_serializable x && all l'
         end) l
  | VDict d =>
      (fix all (d : list (string * pyval)) : bool :=
         match d with
         | [] => true
         | (_, x) :: d' => json_serializable x && all d'
         end) d
  | _ => true
  end.

(** A [dict]: keys in insertion order, each at most once. *)
Section Dict.
Context {K V : Type} `{EqDecision K}.

Fixpoint dict_get (d : list (K * V)) (k : K) : option V :=
  match d with
  | [] => None
  | (k', v) :: d' => if decide (k = k') then Some v else dict_get d' k
  end.

(** [d[k] = v]: replaces the value in place, or appends a new key. *)
Fixpoint dict_set (d : list (K * V)) (k : K) (v : V) : list (K * V) :=
  match d with
  | [] => [(k, v)]
  | (k', v') :: d' =>
      if decide (k = k') then (k, v) :: d' else (k', v') :: dict_set d' k v
  end.

(** [k in d] *)
Definition dict_mem (d : list (K * V)) (k : K) : bool :=
  match dict_get d k with Some _ => true | None => false end.

Definition dict_keys (d : list (K * V)) : list K := map fst d.
Definition dict_values (d : list (K * V)) : list V := map snd d.
End Dict.

(** [v[k]] for a string key. *)
Definition subscript (v : pyval) (k : string) : result pyval :=
  match v with
  | VDict d =>
      match dict_get d k with
      | Some x => Ok x
      | None => Raise (KeyError k)
      end
  | _ => Raise (TypeError "object is not subscriptable")
  end.

(** [v[k] = x] for a string key. *)
Definition setitem (v : pyval) (k : string) (x : pyval) : result pyval :=
  match v with
  | VDict d => Ok (VDict (dict_set d k x))
  | _ => Raise (TypeError "object does not support item assignment")
  end.

(** Text built by [%s] formatting: literal pieces and the [str()] of
    values, kept symbolic. *)
Inductive piece : Type :=
| Lit (s : string)
| Str (v : pyval).

Definition text : Type := list piece.

(** ** Metric identifiers, metrics and the metrics collection *)

(** A Python object other than a string; [obj_name] is its [.name]
    attribute when it has one. *)
Record pyobj : Type := { obj_id : nat; obj_name : option string }.

(** What the model lists under [metrics] and [loss]: a bare name or an
    object. *)
Inductive ident : Type :=
| IdName (s : string)
| IdObj (o : pyobj).

#[global] Instance pyobj_eq_dec : EqDecision pyobj.
Proof. solve_decision. Defined.

#[global] Instance ident_eq_dec : EqDecision ident.
Proof. solve_decision. Defined.

(** [i if isinstance(i, str) else i.name] *)
Definition name_of (i : ident) : result string :=
  match i with
  | IdName s => Ok s
  | IdObj o =>
      match obj_name o with
      | Some s => Ok s
      | None => Raise (AttributeError "name")
      end
  end.

Inductive Direction : Type := Min | Max.

#[global] Instance Direction_eq_dec : EqDecision Direction.
Proof. solve_decision. Defined.

(** Modelled from the spec: class [Metric] of [engine/metric.py], which
    is not among the sources: a name with an optimisation direction,
    immutable after creation.  The source passes a loss taken from
    [model.loss] as the name, so the name is an identifier. *)
Record Metric : Type := { metric_name : ident; metric_direction : Direction }.

#[global] Instance Metric_eq_dec : EqDecision Metric.
Proof. solve_decision. Defined.

(** One entry of the serialised schema. *)
Record ConfigEntry : Type :=
  { cfg_name : ident; cfg_direction : Direction; cfg_objective : bool }.

Module MetricsCollection.

(** Modelled from the spec: class [MetricsCollection] of
    [kerastuner/collections], which is not among the sources: an
    ordered mapping from name to Metric, first-seen order, names
    unique, at most one name designated as the objective. *)
Record t : Type :=
  { objects : list (ident * Metric); objective : option ident }.

(** Modelled from the spec: [MetricsCollection()], the empty
    collection. *)
Definition new : t := {| objects := []; objective := None |}.

(** Modelled from the spec: the number of metrics of the collection. *)
Definition len (c : t) : Z := Z.of_nat (length (objects c)).

(** Modelled from the spec: the truth value of a collection, which the
    spec does not state.  It is taken to be that of a Python object with
    a length, false when empty (the source takes [len()] of the sibling
    executions collection); a collection that is always true differs
    only on an empty schema. *)
Definition truthy (c : t) : bool := negb (len c =? 0).

(** Modelled from the spec: [add] of a Metric.  The spec leaves open
    whether a second add of a name rejects or overwrites; here it
    overwrites in place, as assignment to a dictionary key does. *)
Definition add_metric (m : Metric) (c : t) : t :=
  {| objects := dict_set (objects c) (metric_name m) m;
     objective := objective c |}.

(** Modelled from the spec: [add] of a bare name, or of an object
    through its name; the direction defaults to max. *)
Definition add (i : ident) (c : t) : result t :=
  match name_of i with
  | Ok n => Ok (add_metric {| metric_name := IdName n; metric_direction := Max |} c)
  | Raise e => Raise e
  end.

(** Modelled from the spec: [set_objective] marks one metric as the
    search target and fails with a configuration error if the name is
    absent. *)
Definition set_objective (name : string) (c : t) : result t :=
  if dict_mem (objects c) (IdName name)
  then Ok {| objects := objects c; objective := Some (IdName name) |}
  else Raise (ConfigurationError "objective is not a metric of the collection").

(** Modelled from the spec: [to_config] gives the ordered list of
    name, direction and objective flag. *)
Definition to_config (c : t) : list ConfigEntry :=
  map (fun km : ident * Metric =>
         {| cfg_name := metric_name (snd km);
            cfg_direction := metric_direction (snd km);
            cfg_objective := bool_decide (objective c = Some (fst km)) |})
      (objects c).

(** Modelled from the spec: [from_config] builds a new collection from
    such a list. *)
Definition from_config (cfg : list ConfigEntry) : t :=
  {| objects :=
       fold_left
         (fun d e => dict_set d (cfg_name e)
                       {| metric_name := cfg_name e;
                          metric_direction := cfg_direction e |})
         cfg [];
     objective := cfg_name <$> head (filter (fun e => cfg_objective e = true) cfg) |}.

End MetricsCollection.

(** ** The objects [Instance] works with *)

(** A location in the store of metrics collections. *)
Abbreviation loc := nat (only parsing).

Module Model.
(** The trainable model, as far as [Instance] reads it.  [loss] is a
    single name, a mapping of named losses, a list of losses, or some
    other object (a single callable). *)
Inductive Loss : Type :=
| LossStr (s : string)
| LossDict (d : list (string * pyval))
| LossList (l : list ident)
| LossObj (o : pyobj).

Record t : Type :=
  { metrics : list ident; loss : Loss; loss_weights : pyval }.

Definition ident_value (i : ident) : pyval :=
  match i with
  | IdName s => VStr s
  | IdObj o => VObj (obj_id o)
  end.

(** [model.loss] as the value handed to [json.dumps]. *)
Definition loss_value (l : Loss) : pyval :=
  match l with
  | LossStr s => VStr s
  | LossDict d => VDict d
  | LossList l => VList (map ident_value l)
  | LossObj o => VObj (obj_id o)
  end.
End Model.

Module TunerState.
(** Modelled from the spec: the tuner state shared by all instances,
    as far as [Instance] reads and writes it. *)
Record t : Type :=
  { objective : string; agg_metrics : option loc; display_model : bool }.

Definition set_agg_metrics (v : option loc) (s : t) : t :=
  {| objective := objective s; agg_metrics := v; display_model := display_model s |}.
End TunerState.

Module InstanceState.
(** Modelled from the spec: class [InstanceState] of
    [kerastuner/states], which is not among the sources.  The sizes
    hold whatever number [fit] last assigned, an [int] once [fit] has
    converted them. *)
Record t : Type :=
  { idx : pyval;
    model : Model.t;
    hparams : pyval;
    batch_size : Z;
    training_size : pynum;
    validation_size : pynum;
    agg_metrics : option loc;
    execution_trained : Z }.

(** [InstanceState(idx, model, hparams)]: no schema yet, no execution
    trained; [fit] assigns the sizes before it reads them. *)
Definition init (idx : pyval) (model : Model.t) (hparams : pyval) : t :=
  {| idx := idx; model := model; hparams := hparams;
     batch_size := 0; training_size := PInt 0; validation_size := PInt 0;
     agg_metrics := None; execution_trained := 0 |}.

Definition set_batch_size (v : Z) (s : t) : t :=
  {| idx := idx s; model := model s; hparams := hparams s;
     batch_size := v; training_size := training_size s;
     validation_size := validation_size s;
     agg_metrics := agg_metrics s; execution_trained := execution_trained s |}.

Definition set_training_size (v : pynum) (s : t) : t :=
  {| idx := idx s; model := model s; hparams := hparams s;
     batch_size := batch_size s; training_size := v;
     validation_size := validation_size s;
     agg_metrics := agg_metrics s; execution_trained := execution_trained s |}.

Definition set_validation_size (v : pynum) (s : t) : t :=
  {| idx := idx s; model := model s; hparams := hparams s;
     batch_size := batch_size s; training_size := training_size s;
     validation_size := v;
     agg_metrics := agg_metrics s; execution_trained := execution_trained s |}.

Definition set_agg_metrics (v : option loc) (s : t) : t :=
  {| idx := idx s; model := model s; hparams := hparams s;
     batch_size := batch_size s; training_size := training_size s;
     validation_size := validation_size s;
     agg_metrics := v; execution_trained := execution_trained s |}.

Definition set_execution_trained (v : Z) (s : t) : t :=
  {| idx := idx s; model := model s; hparams := hparams s;
     batch_size := batch_size s; training_size := training_size s;
     validation_size := validation_size s;
     agg_metrics := agg_metrics s; execution_trained := v |}.
End InstanceState.

Module Execution.
(** What one execution recorded for one metric. *)
Record MetricResult : Type :=
  { metric_min : Q; metric_max : Q; metric_history : list Q }.

(** Modelled from the spec: class [Execution] of
    [engine/execution.py], which is not among the sources, as far as
    [Instance] reads it.  [model] is [None] once [del execution.model]
    has run. *)
Record t : Type :=
  { idx : Z;
    model : option Model.t;
    metrics : list (string * MetricResult);
    num_epochs : pyval;
    history : pyval;
    meta_data : pyval }.

Definition del_model (e : t) : t :=
  {| idx := idx e; model := None; metrics := metrics e;
     num_epochs := num_epochs e; history := history e; meta_data := meta_data e |}.

(** What the external training code does in one call of
    [Instance.fit]: the execution object as its constructor leaves it,
    and the same object after its own [fit], or the exception that
    [fit] raises. *)
Record Training : Type := { created : t; fitted : result t }.
End Execution.

(** What the display functions were asked to print. *)
Inductive display : Type :=
| section (title : string)
| subsection (title : string)
| state_summary (extended : option bool)
| model_summary.

(** What a file holds after an operation on it: nothing once it has
    been opened for writing, the JSON text of a value once that has been
    written. *)
Inductive content : Type :=
| Empty
| JsonOf (v : pyval).

(** Everything shared between instances: the metrics collections
    (objects mutated in place, hence addressed by location), the tuner
    state, what was printed, the operations made on files (path and
    resulting content, in order) and the records sent to the remote
    backend. *)
Record Store : Type :=
  { heap : list MetricsCollection.t;
    tuner_state : TunerState.t;
    terminal : list display;
    files : list (text * content);
    sent : list pyval }.

Module Instance.
(** An [Instance] object.  The first five fields are the attributes
    [__init__] assigns ([tuner_state] is a reference to the shared
    tuner state and lives in the store).  The remaining ones are the
    attributes [record_results] reads although no method of the class
    assigns them; each is [None] while the object has no such
    attribute. *)
Record t : Type :=
  { model : Model.t;
    cloudservice : pyval;
    executions : list (Z * Execution.t);
    state : InstanceState.t;
    metrics_config : option (list ConfigEntry);
    meta_data : option pyval;
    key_metrics : option (list (string * string));
    backend : option bool;
    results : option pyval;
    get_instance_info : option pyval;
    clear_gpu_memory : option unit }.

Definition set_state (v : InstanceState.t) (i : t) : t :=
  {| model := model i; cloudservice := cloudservice i; executions := executions i;
     state := v; metrics_config := metrics_config i;
     meta_data := meta_data i; key_metrics := key_metrics i; backend := backend i;
     results := results i; get_instance_info := get_instance_info i;
     clear_gpu_memory := clear_gpu_memory i |}.

Definition set_metrics_config (v : option (list ConfigEntry)) (i : t) : t :=
  {| model := model i; cloudservice := cloudservice i; executions := executions i;
     state := state i; metrics_config := v;
     meta_data := meta_data i; key_metrics := key_metrics i; backend := backend i;
     results := results i; get_instance_info := get_instance_info i;
     clear_gpu_memory := clear_gpu_memory i |}.

Definition set_executions (v : list (Z * Execution.t)) (i : t) : t :=
  {| model := model i; cloudservice := cloudservice i; executions := v;
     state := state i; metrics_config := metrics_config i;
     meta_data := meta_data i; key_metrics := key_metrics i; backend := backend i;
     results := results i; get_instance_info := get_instance_info i;
     clear_gpu_memory := clear_gpu_memory i |}.

Definition set_results (v : option pyval) (i : t) : t :=
  {| model := model i; cloudservice := cloudservice i; executions := executions i;
     state := state i; metrics_config := metrics_config i;
     meta_data := meta_data i; key_metrics := key_metrics i; backend := backend i;
     results := v; get_instance_info := get_instance_info i;
     clear_gpu_memory := clear_gpu_memory i |}.
End Instance.

(** The state a method of [Instance] runs in: the shared store and the
    object [self]. *)
Record Frame : Type := { store : Store; self : Instance.t }.

Definition set_self (f : Instance.t -> Instance.t) : M Frame unit :=
  modify (fun fr => {| store := store fr; self := f (self fr) |}).

Definition set_store (f : Store -> Store) : M Frame unit :=
  modify (fun fr => {| store := f (store fr); self := self fr |}).

(** [self.state.<field> = v] *)
Definition set_state (f : InstanceState.t -> InstanceState.t) : M Frame unit :=
  set_self (fun i => Instance.set_state (f (Instance.state i)) i).

Definition get_state : M Frame InstanceState.t :=
  fun fr => (fr, Ok (Instance.state (self fr))).

(** Display functions append to the terminal. *)
Definition show (d : display) : M Frame unit :=
  set_store (fun s =>
    {| heap := heap s; tuner_state := tuner_state s;
       terminal := terminal s ++ [d]; files := files s; sent := sent s |}).

(** Creating a metrics collection object: a new location. *)
Definition alloc (c : MetricsCollection.t) : M Frame loc :=
  fun fr =>
    let s := store fr in
    ({| store := {| heap := heap s ++ [c]; tuner_state := tuner_state s;
                    terminal := terminal s; files := files s; sent := sent s |};
        self := self fr |},
     Ok (length (heap s))).

(** The truth value of an attribute that is [None] or refers to a
    metrics collection. *)
Definition schema_truthy (h : list MetricsCollection.t) (r : option loc) : bool :=
  match r with
  | None => false
  | Some l =>
      match h !! l with
      | Some c => MetricsCollection.truthy c
      | None => false
      end
  end.

(** A method call on [self.state.agg_metrics] that updates the object
    in place. *)
Definition on_agg_metrics (method : string)
    (f : MetricsCollection.t -> result MetricsCollection.t) : M Frame unit :=
  fun fr =>
    let s := store fr in
    match InstanceState.agg_metrics (Instance.state (self fr)) with
    | None => (fr, Raise (AttributeError method))
    | Some l =>
        match heap s !! l with
        | None => (fr, Raise (AttributeError method))
        | Some c =>
            match f c with
            | Raise e => (fr, Raise e)
            | Ok c' =>
                ({| store := {| heap := <[l := c']> (heap s);
                                tuner_state := tuner_state s;
                                terminal := terminal s; files := files s;
                                sent := sent s |};
                    self := self fr |}, Ok tt)
            end
        end
    end.

(** ** [Instance.__init__] *)

(** [Instance(idx, model, hparams, tuner_state, cloudservice)].  The
    tuner state is the one of the store. *)
Definition Instance_init (idx : pyval) (model : Model.t) (hparams : pyval)
    (cloudservice : pyval) : Instance.t :=
  let executions : list (Z * Execution.t) := [] in
  let state := InstanceState.init idx model hparams in
  let metrics_config : option (list ConfigEntry) := None in
  (* no assignment to meta_data, key_metrics, backend or results, and no
     definition of __get_instance_info or _clear_gpu_memory *)
  let absent {A} : option A := None in
  (Instance.Build_t model cloudservice executions state metrics_config
     absent absent absent absent absent absent).

(** ** [Instance.fit] *)

(** The training input [x]: a [tf.keras.utils.Sequence] of [len]
    batches, another object with a length, or an object without one. *)
Inductive Input : Type :=
| SequenceInput (len : Z)
| SizedInput (len : Z)
| UnsizedInput.

(** The keyword arguments [fit] looks at; [None] when the keyword is
    not given.  [validation_data] is given by the length of its second
    component, the labels. *)
Record Kwargs : Type :=
  { kw_batch_size : option Z;
    kw_validation_data : option Z;
    kw_validation_split : option pynum }.

Definition for_each_ {S A} (l : list A) (body : A -> M S unit) : M S unit :=
  for_each l (fun a _ => body a) tt.

(** Line 51: [self.state.batch_size = kwargs.get('batch_size', 32)] *)
Definition collect_batch_size (kw : Kwargs) : M Frame unit :=
  set_state (InstanceState.set_batch_size (default 32 (kw_batch_size kw))).

(** Lines 57-61. *)
Definition derive_training_size (x : Input) : M Frame unit :=
  match x with
  | SequenceInput len =>
      st <- get_state ;;
      set_state (InstanceState.set_training_size
                   (PInt ((len + 2) * InstanceState.batch_size st)))
  | SizedInput len =>
      set_state (InstanceState.set_training_size (PInt len))
  | UnsizedInput => raise (TypeError "object has no len()")
  end.

(** Lines 64-74. *)
Definition derive_validation_size (kw : Kwargs) : M Frame unit :=
  match kw_validation_data kw with
  | Some labels =>
      set_state (InstanceState.set_validation_size (PInt labels))
  | None =>
      match kw_validation_split kw with
      | Some validation_split =>
          if PyNum.truthy validation_split then
            (st <- get_state ;;
             val_size <- lift (PyNum.mul (InstanceState.training_size st) validation_split) ;;
             set_state (InstanceState.set_validation_size val_size) ;;
             st <- get_state ;;
             rest <- lift (PyNum.sub (InstanceState.training_size st)
                                     (InstanceState.validation_size st)) ;;
             set_state (InstanceState.set_training_size rest))
          else set_state (InstanceState.set_validation_size (PInt 0))
      | None => set_state (InstanceState.set_validation_size (PInt 0))
      end
  end ;;
  st <- get_state ;;
  v <- lift (PyNum.to_int (InstanceState.validation_size st)) ;;
  set_state (InstanceState.set_validation_size (PInt v)) ;;
  st <- get_state ;;
  t <- lift (PyNum.to_int (InstanceState.training_size st)) ;;
  set_state (InstanceState.set_training_size (PInt t)).

(** Lines 82-90: one turn of the loop over [self.model.metrics]. *)
Definition register_metric (metric : ident) : M Frame unit :=
  on_agg_metrics "add" (MetricsCollection.add metric) ;;
  st <- get_state ;;
  if PyNum.truthy (InstanceState.validation_size st) then
    (metric_name <- lift (name_of metric) ;;
     on_agg_metrics "add" (MetricsCollection.add (IdName ("val_" ++ metric_name))))
  else ret tt.

(** Lines 93-98: the local variable [losses].  In the [dict] branch the
    right-hand side reads [losses] itself, which is not bound yet.  An
    object that is neither is assigned as it is, and the [for] of line
    100 raises when it cannot iterate over it. *)
Definition model_losses (loss : Model.Loss) : result (list ident) :=
  match loss with
  | Model.LossDict _ => Raise (UnboundLocalError "losses")
  | Model.LossStr _ => Ok [IdName "loss"]
  | Model.LossList l => Ok l
  | Model.LossObj _ => Raise (TypeError "object is not iterable")
  end.

(** Lines 101-108: one turn of the loop over [losses]. *)
Definition register_loss (loss : ident) : M Frame unit :=
  on_agg_metrics "add" (fun c =>
    Ok (MetricsCollection.add_metric
          {| metric_name := loss; metric_direction := Min |} c)) ;;
  st <- get_state ;;
  if PyNum.truthy (InstanceState.validation_size st) then
    (loss_name <- lift (name_of loss) ;;
     on_agg_metrics "add" (fun c =>
       Ok (MetricsCollection.add_metric
             {| metric_name := IdName ("val_" ++ loss_name);
                metric_direction := Min |} c)))
  else ret tt.

(** Lines 112-116: serialise the schema and, if the tuner has none,
    give it a collection built from the serialised schema. *)
Definition publish_schema : M Frame unit :=
  fr <- get ;;
  match InstanceState.agg_metrics (Instance.state (self fr)) with
  | None => raise (AttributeError "to_config")
  | Some l =>
      match heap (store fr) !! l with
      | None => raise (AttributeError "to_config")
      | Some c =>
          let config := MetricsCollection.to_config c in
          set_self (Instance.set_metrics_config (Some config)) ;;
          fr <- get ;;
          if schema_truthy (heap (store fr)) (TunerState.agg_metrics (tuner_state (store fr)))
          then ret tt
          else
            (l' <- alloc (MetricsCollection.from_config config) ;;
             set_store (fun s =>
               {| heap := heap s;
                  tuner_state := TunerState.set_agg_metrics (Some l') (tuner_state s);
                  terminal := terminal s; files := files s; sent := sent s |}))
      end
  end.

(** Lines 80-116: the body of the [if], once the new collection has
    been assigned to [self.state.agg_metrics]. *)
Definition fill_schema : M Frame unit :=
  fr <- get ;;
  for_each_ (Model.metrics (Instance.model (self fr))) register_metric ;;
  losses <- lift (model_losses (Model.loss (Instance.model (self fr)))) ;;
  for_each_ losses register_loss ;;
  fr <- get ;;
  on_agg_metrics "set_objective"
    (MetricsCollection.set_objective (TunerState.objective (tuner_state (store fr)))) ;;
  publish_schema.

(** Lines 77-116. *)
Definition init_metrics : M Frame unit :=
  fr <- get ;;
  if schema_truthy (heap (store fr)) (InstanceState.agg_metrics (Instance.state (self fr)))
  then ret tt
  else
    (l <- alloc MetricsCollection.new ;;
     set_state (InstanceState.set_agg_metrics (Some l)) ;;
     fill_schema).

(** Lines 119-124. *)
Definition announce : M Frame unit :=
  fr <- get ;;
  if Z.of_nat (length (Instance.executions (self fr))) =? 0 then
    (show (section "Training new instance") ;;
     show (state_summary None) ;;
     if TunerState.display_model (tuner_state (store fr)) then
       (show (subsection "Model summary") ;; show model_summary)
     else ret tt)
  else ret tt.

(** Lines 127-137.  The execution is entered in the collection before
    it is trained; the collection holds the object itself, so it sees
    what training did to it. *)
Definition run_execution (tr : Execution.Training) : M Frame Execution.t :=
  let key := Execution.idx (Execution.created tr) in
  set_self (fun i => Instance.set_executions
                      (dict_set (Instance.executions i) key (Execution.created tr)) i) ;;
  execution <- lift (Execution.fitted tr) ;;
  set_self (fun i => Instance.set_executions
                      (dict_set (Instance.executions i) key execution) i) ;;
  set_state (fun s =>
    InstanceState.set_execution_trained (InstanceState.execution_trained s + 1) s) ;;
  ret execution.

(** [Instance.fit(x, y, epochs, **kwargs)].  [tr] is what the external
    training code does in this call. *)
Definition fit (x : Input) (y : pyval) (epochs : pyval) (kw : Kwargs)
    (tr : Execution.Training) : M Frame Execution.t :=
  collect_batch_size kw ;;
  derive_training_size x ;;
  derive_validation_size kw ;;
  init_metrics ;;
  announce ;;
  run_execution tr.

(** The sizes in the state, for statements about them. *)
Definition training_size_of (fr : Frame) : pynum :=
  InstanceState.training_size (Instance.state (self fr)).

Definition validation_size_of (fr : Frame) : pynum :=
  InstanceState.validation_size (Instance.state (self fr)).

(** ** [Instance.record_results] *)

Definition rbind {A B} (r : result A) (k : A -> result B) : result B :=
  match r with
  | Ok a => k a
  | Raise e => Raise e
  end.

Notation "x <~ c ;; k" := (rbind c (fun x => k))
  (at level 100, c at next level, right associativity).

(** The four numpy reductions the method calls.  numpy is a library
    outside the repository; its functions are taken as given. *)
Record Numpy : Type :=
  { np_min : list Q -> result Q;
    np_max : list Q -> result Q;
    np_mean : list Q -> result Q;
    np_median : list Q -> result Q }.

(** The two global names the method uses that the import statements of
    the module may or may not bind; [None] when the name is unbound. *)
Record Globals : Type :=
  { np : option Numpy;
    file_io_bound : bool }.

(** The module as written imports [json], [time], [defaultdict],
    [path], [tf], [Execution], [Metric], [InstanceState], the two
    collections and the display functions: neither [np] nor [file_io]. *)
Definition module_globals : Globals := {| np := None; file_io_bound := false |}.

Record Stats : Type :=
  { stat_min : Q; stat_max : Q; stat_mean : Q; stat_median : Q }.

(** [exec_metrics]: metric name, then direction, then the values of the
    executions in order. *)
Definition ExecMetrics : Type := list (string * list (string * list Q)).

(** [metrics]: metric name, then direction, then the statistics. *)
Definition AggMetrics : Type := list (string * list (string * Stats)).

(** [exec_metrics[metric][direction].append(v)] on a
    [defaultdict(lambda: defaultdict(list))]. *)
Definition dd_append (em : ExecMetrics) (metric direction : string) (v : Q) : ExecMetrics :=
  let inner := default [] (dict_get em metric) in
  let values := default [] (dict_get inner direction) in
  dict_set em metric (dict_set inner direction (values ++ [v])%list).

(** Lines 154-158. *)
Fixpoint collect_metrics (e : Execution.t) (items : list (string * Execution.MetricResult))
    (em : ExecMetrics) : result ExecMetrics :=
  match items with
  | [] => Ok em
  | (metric, _) :: items' =>
      match dict_get (Execution.metrics e) metric with
      | None => Raise (KeyError metric)
      | Some r =>
          let em := dd_append em metric "min" (Execution.metric_min r) in
          let em := dd_append em metric "max" (Execution.metric_max r) in
          collect_metrics e items' em
      end
  end.

(** Lines 160-164.  The bare [except] also catches the AttributeError
    of [execution.model] once the model has been deleted. *)
Definition reported_loss_fns (e : Execution.t) : pyval :=
  match Execution.model e with
  | Some m =>
      if json_serializable (Model.loss_value (Model.loss m))
      then Model.loss_value (Model.loss m)
      else VStr "CUSTOM"
  | None => VStr "CUSTOM"
  end.

(** Lines 167-173. *)
Definition execution_info (e : Execution.t) : result pyval :=
  match Execution.model e with
  | None => Raise (AttributeError "model")
  | Some m =>
      Ok (VDict [("num_epochs", Execution.num_epochs e);
                 ("history", Execution.history e);
                 ("loss_fn", reported_loss_fns e);
                 ("loss_weights", Model.loss_weights m);
                 ("meta_data", Execution.meta_data e)])
  end.

(** Lines 151-178: one turn of the loop over [self.executions]. *)
Definition record_execution (ke : Z * Execution.t) (acc : ExecMetrics * list pyval)
  : M Frame (ExecMetrics * list pyval) :=
  let execution := snd ke in
  exec_metrics <- lift (collect_metrics execution (Execution.metrics execution) (fst acc)) ;;
  info <- lift (execution_info execution) ;;
  let executions := (snd acc ++ [info])%list in
  set_self (fun i => Instance.set_executions
                      (dict_set (Instance.executions i) (fst ke)
                                (Execution.del_model execution)) i) ;;
  fr <- get ;;
  match Instance.clear_gpu_memory (self fr) with
  | None => raise (AttributeError "_clear_gpu_memory")
  | Some _ => ret (exec_metrics, executions)
  end.

(** Lines 187-192. *)
Definition statistics (G : Globals) (data : list Q) : result Stats :=
  match np G with
  | None => Raise (NameError "np")
  | Some N =>
      mn <~ np_min N data ;;
      mx <~ np_max N data ;;
      mean <~ np_mean N data ;;
      median <~ np_median N data ;;
      Ok {| stat_min := mn; stat_max := mx; stat_mean := mean; stat_median := median |}
  end.

Fixpoint aggregate_directions (G : Globals) (items : list (string * list Q))
    (acc : list (string * Stats)) : result (list (string * Stats)) :=
  match items with
  | [] => Ok acc
  | (direction, data) :: items' =>
      s <~ statistics G data ;;
      aggregate_directions G items' (dict_set acc direction s)
  end.

(** Lines 184-192. *)
Fixpoint aggregate (G : Globals) (em : ExecMetrics) (keys : list string)
    (metrics : AggMetrics) : result AggMetrics :=
  match keys with
  | [] => Ok metrics
  | metric :: keys' =>
      match dict_get em metric with
      | None => Raise (KeyError metric)
      | Some inner =>
          ds <~ aggregate_directions G inner (default [] (dict_get metrics metric)) ;;
          aggregate G em keys' (dict_set metrics metric ds)
      end
  end.

Definition stats_value (s : Stats) : pyval :=
  VDict [("min", VFloat (stat_min s)); ("max", VFloat (stat_max s));
         ("mean", VFloat (stat_mean s)); ("median", VFloat (stat_median s))].

Definition metrics_value (metrics : AggMetrics) : pyval :=
  VDict (map (fun md : string * list (string * Stats) =>
                (fst md, VDict (map (fun ds : string * Stats =>
                                       (fst ds, stats_value (snd ds))) (snd md))))
             metrics).

(** Lines 196-198: one turn of the loop over [self.key_metrics].  The
    right-hand side of the assignment is evaluated first. *)
Definition record_key_metric (metrics : AggMetrics) (tm : string * string)
    (results : pyval) : result pyval :=
  match dict_get metrics (fst tm) with
  | None => Ok results
  | Some directions =>
      match dict_get directions (snd tm) with
      | None => Raise (KeyError (snd tm))
      | Some s =>
          key_metrics <~ subscript results "key_metrics" ;;
          key_metrics <~ setitem key_metrics (fst tm) (VFloat (stat_median s)) ;;
          setitem results "key_metrics" key_metrics
      end
  end.

Fixpoint record_key_metrics (metrics : AggMetrics) (tms : list (string * string))
    (results : pyval) : result pyval :=
  match tms with
  | [] => Ok results
  | tm :: tms' =>
      results <~ record_key_metric metrics tm results ;;
      record_key_metrics metrics tms' results
  end.

(** Lines 200-205.  [path.join] is written out for a directory without
    trailing separator and a relative file name.  [(p, Empty)] records
    that the [with] statement of line 204 is entered before
    [json.dumps(results)] is evaluated; whether entering it already
    empties the file is up to what [file_io] is bound to. *)
Definition file_operation (p : text) (c : content) : M Frame unit :=
  set_store (fun s =>
    {| heap := heap s; tuner_state := tuner_state s; terminal := terminal s;
       files := files s ++ [(p, c)]; sent := sent s |}).

Definition write_results (G : Globals) (meta_data local_dir results : pyval) : M Frame unit :=
  project <- lift (subscript meta_data "project") ;;
  architecture <- lift (subscript meta_data "architecture") ;;
  instance <- lift (subscript meta_data "instance") ;;
  let fname := [Str project; Lit "-"; Str architecture; Lit "-"; Str instance;
                Lit "-results.json"] in
  match local_dir with
  | VStr _ =>
      let local_path := Str local_dir :: Lit "/" :: fname in
      if file_io_bound G then
        (file_operation local_path Empty ;;
         if json_serializable results
         then file_operation local_path (JsonOf results)
         else raise (TypeError "Object is not JSON serializable"))
      else raise (NameError "file_io")
  | _ => raise (TypeError "expected str, bytes or os.PathLike object")
  end.

(** Lines 208-209. *)
Definition send_to_backend (results : pyval) : M Frame unit :=
  fr <- get ;;
  match Instance.backend (self fr) with
  | None => raise (AttributeError "backend")
  | Some false => ret tt
  | Some true =>
      set_store (fun s =>
        {| heap := heap s; tuner_state := tuner_state s; terminal := terminal s;
           files := files s; sent := sent s ++ [results] |})
  end.

(** [Instance.record_results()], in a module whose globals are [G]. *)
Definition record_results (G : Globals) : M Frame pyval :=
  fr <- get ;;
  (* line 145: self.__get_instance_info(), a name private to the class *)
  results <- match Instance.get_instance_info (self fr) with
             | None => raise (AttributeError "_Instance__get_instance_info")
             | Some r => ret r
             end ;;
  (* line 146 *)
  meta_data <- match Instance.meta_data (self fr) with
               | None => raise (AttributeError "meta_data")
               | Some v => ret v
               end ;;
  server <- lift (subscript meta_data "server") ;;
  local_dir <- lift (subscript server "local_dir") ;;
  (* lines 149-178 *)
  collected <- for_each (Instance.executions (self fr)) record_execution ([], []) ;;
  (* lines 180-181 *)
  results <- lift (setitem results "executions" (VList (snd collected))) ;;
  results <- lift (setitem results "meta_data" meta_data) ;;
  (* lines 184-193 *)
  metrics <- lift (aggregate G (fst collected) (dict_keys (fst collected)) []) ;;
  results <- lift (setitem results "metrics" (metrics_value metrics)) ;;
  (* lines 196-198 *)
  key_metrics <- match Instance.key_metrics (self fr) with
                 | None => raise (AttributeError "key_metrics")
                 | Some l => ret l
                 end ;;
  results <- lift (record_key_metrics metrics key_metrics results) ;;
  (* lines 200-205 *)
  write_results G meta_data local_dir results ;;
  (* lines 208-209 *)
  send_to_backend results ;;
  (* lines 211-212 *)
  set_self (Instance.set_results (Some results)) ;;
  ret results.

(** ** Predicates on frames *)

(** The tuner-level schema reference, if any, refers to an existing
    collection. *)
Definition tuner_ref_valid (s : Store) : Prop :=
  match TunerState.agg_metrics (tuner_state s) with
  | Some l => (l < length (heap s))%nat
  | None => True
  end.

(** The truth value of [self.tuner_state.agg_metrics]. *)
Definition tuner_schema_set (s : Store) : bool :=
  schema_truthy (heap s) (TunerState.agg_metrics (tuner_state s)).

(** The truth value of [self.state.agg_metrics]. *)
Definition instance_schema_set (fr : Frame) : bool :=
  schema_truthy (heap (store fr))
                (InstanceState.agg_metrics (Instance.state (self fr))).

(** The frame in which lines 80-116 start. *)
Definition with_new_collection (fr : Frame) : Frame :=
  fst ((l <- alloc MetricsCollection.new ;;
        set_state (InstanceState.set_agg_metrics (Some l))) fr).

(** One call of [fit]: its arguments and what the training code does
    in it. *)
Record Call : Type :=
  { call_x : Input;
    call_y : pyval;
    call_epochs : pyval;
    call_kwargs : Kwargs;
    call_training : Execution.Training }.

Definition call_fit (c : Call) : M Frame Execution.t :=
  fit (call_x c) (call_y c) (call_epochs c) (call_kwargs c) (call_training c).

(** The frame after a sequence of calls of [fit] on the same instance,
    whether they return or raise. *)
Definition run_fits (cs : list Call) (fr : Frame) : Frame :=
  fold_left (fun fr c => fst (call_fit c fr)) cs fr.

(** A method call on an instance. *)
Inductive MethodCall : Type :=
| Fit (c : Call)
| RecordResults.

(** The frame after a sequence of method calls, whether they return or
    raise. *)
Definition run_methods (G : Globals) (ms : list MethodCall) (fr : Frame) : Frame :=
  fold_left (fun fr m =>
               match m with
               | Fit c => fst (call_fit c fr)
               | RecordResults => fst (record_results G fr)
               end) ms fr.

(** What the execution with metrics [items] recorded for [metric],
    through [proj]: one value, or none when it has no such metric. *)
Definition recorded (proj : Execution.MetricResult -> Q) (metric : string)
    (items : list (string * Execution.MetricResult)) : list Q :=
  match dict_get items metric with
  | Some r => [proj r]
  | None => []
  end.

(** The values the executions recorded for [metric], in order. *)
Fixpoint values_of (proj : Execution.MetricResult -> Q) (metric : string)
    (execs : list (Z * Execution.t)) : list Q :=
  match execs with
  | [] => []
  | ke :: execs' =>
      (recorded proj metric (Execution.metrics (snd ke)) ++ values_of proj metric execs')%list
  end.

(** The entry of [exec_metrics] for a metric with the given mins and
    maxes: none while no execution has recorded the metric. *)
Definition exec_entry (mins maxs : list Q) : option (list (string * list Q)) :=
  match mins with
  | [] => None
  | _ => Some [("min", mins); ("max", maxs)]
  end.

(** [exec_metrics] holds exactly the mins [f] and the maxes [g]. *)
Definition holds_values (em : ExecMetrics) (f g : string -> list Q) : Prop :=
  NoDup (dict_keys em) /\
  forall metric,
    length (f metric) = length (g metric) /\
    dict_get em metric = exec_entry (f metric) (g metric).

(** The [key_metrics] mapping after lines 196-198, from the one before:
    the median of every configured pair whose name and direction have
    statistics. *)
Definition project_key_metrics (metrics : AggMetrics) (tms : list (string * string))
    (km : list (string * pyval)) : list (string * pyval) :=
  fold_left
    (fun km tm =>
       match dict_get metrics (fst tm) with
       | Some directions =>
           match dict_get directions (snd tm) with
           | Some s => dict_set km (fst tm) (VFloat (stat_median s))
           | None => km
           end
       | None => km
       end) tms km.

(** The collection at [n] has, for each of [losses], a min-direction
    Metric under its own name and, when [twins] is set, one under
    [val_<name>]. *)
Definition min_metric (k : ident) : Metric :=
  {| metric_name := k; metric_direction := Min |}.

Definition losses_registered (n : loc) (twins : bool) (losses : list ident)
    (fr : Frame) : Prop :=
  exists c,
    heap (store fr) !! n = Some c /\
    forall loss, loss ∈ losses ->
      dict_get (MetricsCollection.objects c) loss = Some (min_metric loss) /\
      (twins = true ->
       exists name,
         name_of loss = Ok name /\
         dict_get (MetricsCollection.objects c) (IdName ("val_" ++ name))
         = Some (min_metric (IdName ("val_" ++ name)))).

(** ** Relations between the frames before and after a computation *)

(** The precondition that holds of every frame. *)
Definition always (fr : Frame) : Prop := True.

(** From a frame that satisfies [P], [c] reaches a frame related to it
    by [R], whether it returns or raises. *)
Definition respects (P : Frame -> Prop) (R : Frame -> Frame -> Prop) {A}
    (c : M Frame A) : Prop :=
  forall fr, P fr -> R fr (fst (c fr)).

(** [fr'] has the collections, the tuner state, the schema reference
    and the serialised schema of [fr]. *)
Definition keeps_schema (fr fr' : Frame) : Prop :=
  heap (store fr') = heap (store fr) /\
  tuner_state (store fr') = tuner_state (store fr) /\
  InstanceState.agg_metrics (Instance.state (self fr'))
  = InstanceState.agg_metrics (Instance.state (self fr)) /\
  Instance.metrics_config (self fr') = Instance.metrics_config (self fr).

(** [fr'] has the model of [fr] and the same attributes among those
    that no method assigns. *)
Definition keeps_attributes (fr fr' : Frame) : Prop :=
  Instance.model (self fr') = Instance.model (self fr) /\
  Instance.meta_data (self fr') = Instance.meta_data (self fr) /\
  Instance.key_metrics (self fr') = Instance.key_metrics (self fr) /\
  Instance.backend (self fr') = Instance.backend (self fr) /\
  Instance.get_instance_info (self fr') = Instance.get_instance_info (self fr) /\
  Instance.clear_gpu_memory (self fr') = Instance.clear_gpu_memory (self fr).

(** The instance has a schema. *)
Definition schema_set (fr : Frame) : Prop := instance_schema_set fr = true.

(** Between [fr] and [fr'] only the collection at location [n] may have
    changed. *)
Definition only_cell (n : loc) (fr fr' : Frame) : Prop :=
  self fr' = self fr /\
  tuner_state (store fr') = tuner_state (store fr) /\
  length (heap (store fr')) = length (heap (store fr)) /\
  forall l, l <> n -> heap (store fr') !! l = heap (store fr) !! l.

(** The schema reference of the instance is [n]. *)
Definition schema_at (n : loc) (fr : Frame) : Prop :=
  InstanceState.agg_metrics (Instance.state (self fr)) = Some n.

(** [fr'] has every collection of [fr], unchanged, and the tuner state
    of [fr] if that had a schema. *)
Definition tuner_kept (fr fr' : Frame) : Prop :=
  (forall l c, heap (store fr) !! l = Some c -> heap (store fr') !! l = Some c) /\
  (tuner_schema_set (store fr) = true -> tuner_state (store fr') = tuner_state (store fr)).

(** [fr'] has the batch size, training size and validation size of
    [fr]. *)
Definition keeps_sizes (fr fr' : Frame) : Prop :=
  InstanceState.batch_size (Instance.state (self fr'))
  = InstanceState.batch_size (Instance.state (self fr)) /\
  InstanceState.training_size (Instance.state (self fr'))
  = InstanceState.training_size (Instance.state (self fr)) /\
  InstanceState.validation_size (Instance.state (self fr'))
  = InstanceState.validation_size (Instance.state (self fr)).

(** ** The other methods of the class *)

(** [Instance.summary(extended=False)], lines 28-30. *)
Definition summary (extended : bool) : M Frame unit :=
  show (section "Instance summary") ;;
  show (state_summary (Some extended)).

(** [Instance.resume_fit(fixme)], lines 32-36: a docstring and [pass]. *)
Definition resume_fit (fixme : pyval) : M Frame unit := ret tt.

(** A call of any method of the class. *)
Inductive AnyCall : Type :=
| CallSummary (extended : bool)
| CallResumeFit (fixme : pyval)
| CallFit (c : Call)
| CallRecordResults.

(** The frame after one method call, whether it returns or raises. *)
Definition after_call (G : Globals) (fr : Frame) (m : AnyCall) : Frame :=
  match m with
  | CallSummary extended => fst (summary extended fr)
  | CallResumeFit fixme => fst (resume_fit fixme fr)
  | CallFit c => fst (call_fit c fr)
  | CallRecordResults => fst (record_results G fr)
  end.

Definition run_calls (G : Globals) (ms : list AnyCall) (fr : Frame) : Frame :=
  fold_left (after_call G) ms fr.

(** ** The phases of [fit] and of [record_results] *)

(** Lines 51-74: the sizes. *)
Definition derive_sizes (x : Input) (kw : Kwargs) : M Frame unit :=
  collect_batch_size kw ;; derive_training_size x ;; derive_validation_size kw.

(** Lines 51-116: what [fit] does before it announces and trains. *)
Definition prepare (x : Input) (kw : Kwargs) : M Frame unit :=
  derive_sizes x kw ;; init_metrics.

(** Lines 180-198, which assign to local variables only: the record,
    from what line 145 returned, the metadata, what the loop collected
    and the [key_metrics] attribute. *)
Definition build_record (G : Globals) (info md : pyval)
    (collected : ExecMetrics * list pyval) (key_metrics : option (list (string * string)))
  : result pyval :=
  results <~ setitem info "executions" (VList (snd collected)) ;;
  results <~ setitem results "meta_data" md ;;
  metrics <~ aggregate G (fst collected) (dict_keys (fst collected)) [] ;;
  results <~ setitem results "metrics" (metrics_value metrics) ;;
  key_metrics <~ match key_metrics with
                 | None => Raise (AttributeError "key_metrics")
                 | Some l => Ok l
                 end ;;
  record_key_metrics metrics key_metrics results.

(** Lines 200-212, once the record is built. *)
Definition store_record (G : Globals) (md dir results : pyval) : M Frame pyval :=
  write_results G md dir results ;;
  send_to_backend results ;;
  set_self (Instance.set_results (Some results)) ;;
  ret results.

(** ** Further predicates and relations *)

Definition batch_size_of (fr : Frame) : Z :=
  InstanceState.batch_size (Instance.state (self fr)).

Definition execution_trained_of (fr : Frame) : Z :=
  InstanceState.execution_trained (Instance.state (self fr)).

(** What lines 120-124 display. *)
Definition announcement (display_model : bool) : list display :=
  [section "Training new instance"; state_summary None] ++
  (if display_model then [subsection "Model summary"; model_summary] else []).

(** How many of the calls [cs], made one after the other from [fr],
    return. *)
Fixpoint returned (cs : list Call) (fr : Frame) : Z :=
  match cs with
  | [] => 0
  | c :: cs' =>
      (if is_ok (snd (call_fit c fr)) then 1 else 0) + returned cs' (fst (call_fit c fr))
  end.

(** The names under which a collection holds its metrics. *)
Definition schema_keys (c : MetricsCollection.t) : list ident :=
  dict_keys (MetricsCollection.objects c).

(** Whether lines 83 and 102 find a validation size that is not zero. *)
Definition twins_of (fr : Frame) : bool := PyNum.truthy (validation_size_of fr).

(** The keys that lines 81-108 enter in the schema for the metrics
    [metrics] and the losses [losses]: every metric under its name,
    every loss as it is, and, when [twins] is set, [val_<name>] for each
    of them. *)
Definition registered_key (metrics losses : list ident) (twins : bool) (k : ident) : Prop :=
  (exists m name, m ∈ metrics /\ name_of m = Ok name /\
     (k = IdName name \/ (twins = true /\ k = IdName ("val_" ++ name)))) \/
  (exists l, l ∈ losses /\
     (k = l \/ (twins = true /\ exists name, name_of l = Ok name /\
                                   k = IdName ("val_" ++ name)))).

(** The instance has an execution under the key [k]. *)
Definition has_key (k : Z) (fr : Frame) : Prop :=
  k ∈ dict_keys (Instance.executions (self fr)).

(** The first execution of the instance has lost its model. *)
Definition first_model_deleted (fr : Frame) : Prop :=
  exists k e rest,
    Instance.executions (self fr) = (k, e) :: rest /\ Execution.model e = None.

(** [fr'] has the executions, the count of trained executions and the
    terminal of [fr], and the same [display_model] setting. *)
Definition keeps_executions (fr fr' : Frame) : Prop :=
  Instance.executions (self fr') = Instance.executions (self fr) /\
  execution_trained_of fr' = execution_trained_of fr /\
  terminal (store fr') = terminal (store fr) /\
  TunerState.display_model (tuner_state (store fr'))
  = TunerState.display_model (tuner_state (store fr)).

(** [fr'] has the state, the model, the serialised schema, the
    collections, the tuner state and the terminal of [fr], and
    executions under the same keys in the same order. *)
Definition keeps_instance_state (fr fr' : Frame) : Prop :=
  Instance.state (self fr') = Instance.state (self fr) /\
  Instance.model (self fr') = Instance.model (self fr) /\
  Instance.metrics_config (self fr') = Instance.metrics_config (self fr) /\
  heap (store fr') = heap (store fr) /\
  tuner_state (store fr') = tuner_state (store fr) /\
  terminal (store fr') = terminal (store fr) /\
  dict_keys (Instance.executions (self fr')) = dict_keys (Instance.executions (self fr)).

(** [fr'] has the store of [fr] and, apart from the executions, the
    attributes of [fr]. *)
Definition only_executions (fr fr' : Frame) : Prop :=
  store fr' = store fr /\
  Instance.results (self fr') = Instance.results (self fr) /\
  keeps_attributes fr fr'.

(** ** Example data *)

Module Examples.

(** A model with one metric and a single named loss. *)
Definition model : Model.t :=
  {| Model.metrics := [IdName "accuracy"];
     Model.loss := Model.LossStr "mse";
     Model.loss_weights := VNone |}.

(** A store before any instance has been trained. *)
Definition store0 : Store :=
  {| heap := [];
     tuner_state := {| TunerState.objective := "loss";
                       TunerState.agg_metrics := None;
                       TunerState.display_model := false |};
     terminal := []; files := []; sent := [] |}.

Definition frame0 : Frame :=
  {| store := store0; self := Instance_init (VInt 0) model VNone VNone |}.

(** [fit(x, y, epochs, validation_split=s)] *)
Definition kw_split (s : Q) : Kwargs :=
  {| kw_batch_size := None;
     kw_validation_data := None;
     kw_validation_split := Some (PFloat (FFinite s)) |}.

(** [frame0] once [fit] has derived the training size of ten samples. *)
Definition ten_samples : Frame :=
  fst ((collect_batch_size (kw_split (1 # 4)) ;; derive_training_size (SizedInput 10)) frame0).

(** A model whose losses are given as a mapping. *)
Definition dict_model : Model.t :=
  {| Model.metrics := [IdName "accuracy"];
     Model.loss := Model.LossDict [("out", VStr "mse")];
     Model.loss_weights := VNone |}.

Definition dict_frame : Frame :=
  {| store := store0; self := Instance_init (VInt 0) dict_model VNone VNone |}.

(** A model with a list of one loss object, which JSON cannot encode. *)
Definition custom_loss : pyobj := {| obj_id := 1; obj_name := Some "custom_loss" |}.

Definition custom_model : Model.t :=
  {| Model.metrics := [IdName "accuracy"];
     Model.loss := Model.LossList [IdObj custom_loss];
     Model.loss_weights := VNone |}.

(** The objective of this tuner is the accuracy. *)
Definition custom_frame : Frame :=
  {| store :=
       {| heap := [];
          tuner_state := {| TunerState.objective := "accuracy";
                            TunerState.agg_metrics := None;
                            TunerState.display_model := false |};
          terminal := []; files := []; sent := [] |};
     self := Instance_init (VInt 0) custom_model VNone VNone |}.

(** An execution of model [m] that recorded one metric, [loss]. *)
Definition execution (m : Model.t) (idx : Z) (lo hi : Q) : Execution.t :=
  {| Execution.idx := idx;
     Execution.model := Some m;
     Execution.metrics :=
       [("loss", {| Execution.metric_min := lo; Execution.metric_max := hi;
                    Execution.metric_history := [hi; lo] |})];
     Execution.num_epochs := VInt 2;
     Execution.history := VDict [("loss", VList [VFloat hi; VFloat lo])];
     Execution.meta_data := VDict [] |}.

(** Training that returns, leaving the execution as given. *)
Definition trains (e : Execution.t) : Execution.Training :=
  {| Execution.created := e; Execution.fitted := Ok e |}.

(** [fit(x, y, 2, validation_split=0.25)] on a hundred samples, then
    [fit(x, y, 2, batch_size=64, validation_data=(xv, yv))] with thirty
    validation labels, then a call on an input without length. *)
Definition first_call (m : Model.t) : Call :=
  {| call_x := SizedInput 100; call_y := VNone; call_epochs := VInt 2;
     call_kwargs := kw_split (1 # 4);
     call_training := trains (execution m 0 (1 # 2) (3 # 4)) |}.

Definition second_call (m : Model.t) : Call :=
  {| call_x := SequenceInput 4; call_y := VNone; call_epochs := VInt 2;
     call_kwargs := {| kw_batch_size := Some 64; kw_validation_data := Some 30;
                       kw_validation_split := None |};
     call_training := trains (execution m 1 (1 # 4) (1 # 1)) |}.

Definition third_call (m : Model.t) : Call :=
  {| call_x := UnsizedInput; call_y := VNone; call_epochs := VInt 2;
     call_kwargs := kw_split (1 # 2);
     call_training := trains (execution m 2 (1 # 8) (1 # 1)) |}.

(** The instance of [frame0] after two executions. *)
Definition trained : Frame := run_fits [first_call model; second_call model] frame0.

(** The same with the custom loss. *)
Definition trained_custom : Frame :=
  run_fits [first_call custom_model; second_call custom_model] custom_frame.

(** A second instance of the same model, created once the first has
    been trained. *)
Definition second_instance : Frame :=
  {| store := store trained; self := Instance_init (VInt 1) model VNone VNone |}.

(** Attributes given to an instance from outside the class. *)
Definition with_attributes (meta_data : option pyval)
    (key_metrics : option (list (string * string))) (backend : option bool)
    (get_instance_info : option pyval) (clear_gpu_memory : option unit)
    (fr : Frame) : Frame :=
  {| store := store fr;
     self :=
       let i := self fr in
       (Instance.Build_t (Instance.model i) (Instance.cloudservice i)
          (Instance.executions i) (Instance.state i) (Instance.metrics_config i)
          meta_data key_metrics backend (Instance.results i)
          get_instance_info clear_gpu_memory) |}.

Definition info : pyval :=
  VDict [("instance", VStr "0"); ("key_metrics", VDict [])].

Definition meta : pyval :=
  VDict [("server", VDict [("local_dir", VStr "/tmp/results")]);
         ("project", VStr "demo"); ("architecture", VStr "mlp");
         ("instance", VStr "0")].

(** A binding for [np]: the reductions on a non-empty list, the mean
    and the median of an even number of values rounded once. *)
Fixpoint insert_sorted (x : Q) (l : list Q) : list Q :=
  match l with
  | [] => [x]
  | y :: l' => if Qle_bool x y then x :: l else y :: insert_sorted x l'
  end.

Definition sorted (l : list Q) : list Q := fold_right insert_sorted [] l.

Definition nonempty (f : Q -> list Q -> Q) (l : list Q) : result Q :=
  match l with
  | [] => Raise (ValueError "zero-size array")
  | x :: l' => Ok (f x l')
  end.

Definition numpy : Numpy :=
  {| np_min := nonempty (fun x l => fold_left (fun a b => if Qle_bool b a then b else a) l x);
     np_max := nonempty (fun x l => fold_left (fun a b => if Qle_bool a b then b else a) l x);
     np_mean := nonempty (fun x l =>
       Binary64.round (fold_left Qplus l x / inject_Z (Z.of_nat (S (length l))))%Q);
     np_median := nonempty (fun x l =>
       let s := sorted (x :: l) in
       let n := length s in
       if Nat.even n
       then Binary64.round ((nth (n / 2 - 1)%nat s 0 + nth (n / 2)%nat s 0) / 2)%Q
       else nth (n / 2)%nat s 0%Q) |}.

(** A module that also imports numpy as [np] and [file_io]. *)
Definition complete_globals : Globals := {| np := Some numpy; file_io_bound := true |}.

(** The trained instances, given every attribute [record_results]
    reads. *)
Definition completed : Frame :=
  with_attributes (Some meta) (Some [("loss", "min"); ("accuracy", "max")])
    (Some true) (Some info) (Some tt) trained.

Definition completed_custom : Frame :=
  with_attributes (Some meta) (Some [("loss", "min"); ("accuracy", "max")])
    (Some true) (Some info) (Some tt) trained_custom.

(** The record [record_results] returns, when it returns one. *)
Definition record_of (G : Globals) (fr : Frame) : pyval :=
  match snd (record_results G fr) with
  | Ok results => results
  | Raise _ => VNone
  end.

End Examples.

(** ** Further example data *)

Module Scenarios.

(** [fit(x, y, epochs)]: no keyword. *)
Definition kw_none : Kwargs :=
  {| kw_batch_size := None; kw_validation_data := None; kw_validation_split := None |}.

(** A model compiled with a single loss function. *)
Definition loss_function : pyobj := {| obj_id := 2; obj_name := Some "mean_squared_error" |}.

Definition function_model : Model.t :=
  {| Model.metrics := [IdName "accuracy"];
     Model.loss := Model.LossObj loss_function;
     Model.loss_weights := VNone |}.

Definition function_frame : Frame :=
  {| store := Examples.store0;
     self := Instance_init (VInt 0) function_model VNone VNone |}.

(** A third execution of the example model. *)
Definition third_execution : Execution.t := Examples.execution Examples.model 2 (1 # 8) (1 # 1).

(** The trained example, configured with a key metric whose direction
    is none of the two the statistics have. *)
Definition misconfigured : Frame :=
  Examples.with_attributes (Some Examples.meta) (Some [("loss", "median")])
    (Some true) (Some Examples.info) (Some tt) Examples.trained.

(** The trained example with every attribute [record_results] reads
    but [backend], in a module that binds [np] and [file_io]. *)
Definition without_backend : Frame :=
  Examples.with_attributes (Some Examples.meta) (Some [("loss", "min"); ("accuracy", "max")])
    None (Some Examples.info) (Some tt) Examples.trained.

End Scenarios.

(** * Properties *)

(** ** Computations that return *)

Lemma bind_ok {S A B} (c : M S A) (k : A -> M S B) (s s' : S) (b : B) :
  bind c k s = (s', Ok b) ->
  exists s1 a, c s = (s1, Ok a) /\ k a s1 = (s', Ok b).
Proof.
  unfold bind. destruct (c s) as [s1 [a|e]]; [|discriminate].
  intros H. exists s1, a. split; [reflexivity|exact H].
Qed.

Lemma lift_ok {S A} (r : result A) (s s' : S) (a : A) :
  lift r s = (s', Ok a) -> s' = s /\ r = Ok a.
Proof. unfold lift. intros H. inversion H. split; reflexivity. Qed.

Lemma rbind_ok {A B} (r : result A) (k : A -> result B) (b : B) :
  rbind r k = Ok b -> exists a, r = Ok a /\ k a = Ok b.
Proof. destruct r as [a|e]; cbn; [eauto|discriminate]. Qed.

(** ** Dictionaries *)

Section DictFacts.
Context {K V : Type} `{EqDecision K}.
Implicit Types (d : list (K * V)) (k : K) (v : V).

Lemma dict_get_set_eq d k v : dict_get (dict_set d k v) k = Some v.
Proof.
  induction d as [|[k' v'] d IH]; cbn.
  - destruct (decide (k = k)); congruence.
  - destruct (decide (k = k')) as [E|NE]; cbn.
    + destruct (decide (k = k)); congruence.
    + destruct (decide (k = k')); [congruence|exact IH].
Qed.

Lemma dict_get_set_ne d k k' v : k <> k' -> dict_get (dict_set d k v) k' = dict_get d k'.
Proof.
  intros Hne. induction d as [|[k0 v0] d IH]; cbn.
  - destruct (decide (k' = k)); congruence.
  - destruct (decide (k = k0)) as [E|NE]; cbn.
    + subst k0. destruct (decide (k' = k)); congruence.
    + destruct (decide (k' = k0)); [reflexivity|exact IH].
Qed.

Lemma dict_get_elem d k v : (k, v) ∈ d -> exists v', dict_get d k = Some v'.
Proof.
  induction d as [|[k0 v0] d IH]; cbn; [intros H; inversion H|].
  rewrite elem_of_cons. intros [E|Hin]; destruct (decide (k = k0)); eauto; congruence.
Qed.

Lemma dict_get_keys d k : dict_get d k = None <-> k ∉ dict_keys d.
Proof.
  unfold dict_keys. induction d as [|[k0 v0] d IH]; cbn.
  - split; [intros _ H; inversion H|reflexivity].
  - rewrite not_elem_of_cons. destruct (decide (k = k0)) as [E|NE].
    + split; [discriminate | intros [Hne _]; congruence].
    + rewrite IH. split; [intros Hout; split; assumption | intros [_ Hout]; exact Hout].
Qed.

Lemma dict_keys_set_old d k v :
  k ∈ dict_keys d -> dict_keys (dict_set d k v) = dict_keys d.
Proof.
  unfold dict_keys. induction d as [|[k0 v0] d IH]; cbn; [intros H; inversion H|].
  rewrite elem_of_cons. intros Hin.
  destruct (decide (k = k0)) as [E|NE]; cbn; [congruence|].
  f_equal. apply IH. destruct Hin; [congruence|assumption].
Qed.

Lemma dict_keys_set_new d k v :
  k ∉ dict_keys d -> dict_keys (dict_set d k v) = (dict_keys d ++ [k])%list.
Proof.
  unfold dict_keys. induction d as [|[k0 v0] d IH]; cbn; [reflexivity|].
  rewrite not_elem_of_cons. intros [Hne Hin].
  destruct (decide (k = k0)) as [E|NE]; cbn; [tauto|].
  f_equal. apply IH. exact Hin.
Qed.

Lemma dict_keys_set_NoDup d k v : NoDup (dict_keys d) -> NoDup (dict_keys (dict_set d k v)).
Proof.
  intros Hnd. destruct (decide (k ∈ dict_keys d)) as [Hin|Hout].
  - rewrite dict_keys_set_old by exact Hin. exact Hnd.
  - rewrite dict_keys_set_new by exact Hout.
    apply NoDup_app. split; [exact Hnd|]. split.
    + intros x Hx Hk. apply list_elem_of_singleton in Hk. congruence.
    + apply NoDup_singleton.
Qed.

End DictFacts.


(** ** Binary64 rounding is monotone and exact on small integers *)

Module Binary64Facts.
Import Binary64.
Local Open Scope Q_scope.

Lemma pow2_pos e : 0 < pow2 e.
Proof. apply Qpower_0_lt. reflexivity. Qed.

Lemma pow2_add a b : pow2 (a + b) == pow2 a * pow2 b.
Proof. apply Qpower_plus. discriminate. Qed.

Lemma pow2_le a b : (a <= b)%Z -> pow2 a <= pow2 b.
Proof. intros H. apply Qpower_le_compat_l; [exact H | discriminate]. Qed.

Lemma pow2_lt a b : (a < b)%Z -> pow2 a < pow2 b.
Proof. intros H. apply Qpower_lt_compat_l; [exact H | reflexivity]. Qed.

Lemma pow2_lt_inv a b : pow2 a < pow2 b -> (a < b)%Z.
Proof. intros H. apply (Qpower_lt_compat_l_inv 2); [exact H | reflexivity]. Qed.

Lemma pow2_inject e : (0 <= e)%Z -> pow2 e == inject_Z (2 ^ e).
Proof. intros H. unfold pow2. rewrite Zpower_Qpower by exact H. reflexivity. Qed.

Lemma pow2_split a b : pow2 a == pow2 (a - b) * pow2 b.
Proof. rewrite <- pow2_add. replace (a - b + b)%Z with a by lia. reflexivity. Qed.

(** [mag q] brackets a positive rational between consecutive powers of two. *)
Lemma mag_spec q : 0 < q -> pow2 (mag q - 1) <= q /\ q < pow2 (mag q).
Proof.
  intros Hq. destruct q as [n d]. unfold mag. cbn [Qnum Qden].
  assert (Hn : (0 < n)%Z) by (unfold Qlt in Hq; cbn in Hq; lia).
  set (a := Z.log2 n). set (b := Z.log2 (Z.pos d)).
  destruct (Z.log2_spec n Hn) as [Ha1 Ha2]. fold a in Ha1, Ha2.
  destruct (Z.log2_spec (Z.pos d) eq_refl) as [Hb1 Hb2]. fold b in Hb1, Hb2.
  assert (Ha0 : (0 <= a)%Z) by apply Z.log2_nonneg.
  assert (Hb0 : (0 <= b)%Z) by apply Z.log2_nonneg.
  assert (Hd : 0 < inject_Z (Z.pos d)) by reflexivity.
  assert (Hnd : n # d == inject_Z n / inject_Z (Z.pos d)) by apply Qmake_Qdiv.
  assert (Hlo : pow2 (a - b - 1) < n # d).
  { rewrite Hnd. apply Qlt_shift_div_l; [exact Hd|].
    apply Qlt_le_trans with (pow2 (a - b - 1) * pow2 (b + 1)).
    - apply Qmult_lt_l; [apply pow2_pos|].
      rewrite pow2_inject by lia. rewrite <- Zlt_Qlt. lia.
    - rewrite <- pow2_add. replace (a - b - 1 + (b + 1))%Z with a by lia.
      rewrite pow2_inject by lia. rewrite <- Zle_Qle. lia. }
  assert (Hhi : n # d < pow2 (a - b + 1)).
  { rewrite Hnd. apply Qlt_shift_div_r; [exact Hd|].
    apply Qlt_le_trans with (pow2 (a - b + 1) * pow2 b).
    - rewrite <- pow2_add. replace (a - b + 1 + b)%Z with (a + 1)%Z by lia.
      rewrite pow2_inject by lia. rewrite <- Zlt_Qlt. lia.
    - apply Qmult_le_l; [apply pow2_pos|].
      rewrite pow2_inject by lia. rewrite <- Zle_Qle. lia. }
  destruct (Qle_bool (pow2 (a - b)) (n # d)) eqn:E.
  - apply Qle_bool_iff in E. replace (a - b + 1 - 1)%Z with (a - b)%Z by lia.
    split; assumption.
  - split; [apply Qlt_le_weak; exact Hlo|].
    apply Qnot_le_lt. intros H. apply Qle_bool_iff in H. congruence.
Qed.

Lemma mag_mono x y : 0 < x -> x <= y -> (mag x <= mag y)%Z.
Proof.
  intros Hx Hxy.
  destruct (mag_spec x Hx) as [Hx1 _].
  destruct (mag_spec y) as [_ Hy2]; [lra|].
  assert (H : pow2 (mag x - 1) < pow2 (mag y)) by lra.
  apply pow2_lt_inv in H. lia.
Qed.

Lemma rne_Z n : rne (inject_Z n) = n.
Proof.
  unfold rne. rewrite Qfloor_Z.
  destruct (Qcompare_spec (inject_Z n - inject_Z n) (1 # 2)) as [E|E|E]; [lra|reflexivity|lra].
Qed.

Lemma rne_mono x y : x <= y -> (rne x <= rne y)%Z.
Proof.
  intros Hxy. pose proof (Qfloor_resp_le _ _ Hxy) as Hf.
  pose proof (Qfloor_le x) as Hx1. pose proof (Qlt_floor x) as Hx2.
  pose proof (Qfloor_le y) as Hy1. pose proof (Qlt_floor y) as Hy2.
  rewrite inject_Z_plus in Hx2, Hy2. change (inject_Z 1) with 1 in Hx2, Hy2.
  assert (Hrx : (Qfloor x <= rne x <= Qfloor x + 1)%Z).
  { unfold rne. destruct (_ ?= _); [destruct (Z.even _)| |]; lia. }
  assert (Hry : (Qfloor y <= rne y <= Qfloor y + 1)%Z).
  { unfold rne. destruct (_ ?= _); [destruct (Z.even _)| |]; lia. }
  destruct (Z.eq_dec (Qfloor x) (Qfloor y)) as [E|NE]; [|lia].
  unfold rne. rewrite <- E.
  destruct (Qcompare_spec (x - inject_Z (Qfloor x)) (1 # 2)) as [Ex|Ex|Ex];
    destruct (Qcompare_spec (y - inject_Z (Qfloor x)) (1 # 2)) as [Ey|Ey|Ey];
    try destruct (Z.even (Qfloor x)); try lia; lra.
Qed.

Lemma round_at_mono e x y : x <= y -> round_at e x <= round_at e y.
Proof.
  intros Hxy. unfold round_at.
  apply Qmult_le_compat_r; [|apply Qlt_le_weak, pow2_pos].
  rewrite <- Zle_Qle. apply rne_mono.
  apply Qmult_le_compat_r; [exact Hxy|].
  apply Qlt_le_weak, Qinv_lt_0_compat, pow2_pos.
Qed.

Lemma round_at_fix e n : round_at e (inject_Z n * pow2 e) == inject_Z n * pow2 e.
Proof.
  unfold round_at.
  assert (H : inject_Z n * pow2 e / pow2 e == inject_Z n).
  { apply Qdiv_mult_l. pose proof (pow2_pos e). lra. }
  assert (H' : rne (inject_Z n * pow2 e / pow2 e) = n).
  { rewrite <- (rne_Z n) at 2.
    destruct (Qle_lteq (inject_Z n * pow2 e / pow2 e) (inject_Z n)) as [_ L].
    apply Z.le_antisymm; apply rne_mono; rewrite H; apply Qle_refl. }
  rewrite H'. reflexivity.
Qed.

(** A power of two at or above the rounding exponent is left unchanged. *)
Lemma round_at_pow2 e k : (e <= k)%Z -> round_at e (pow2 k) <= pow2 k /\ pow2 k <= round_at e (pow2 k).
Proof.
  intros H.
  assert (E : pow2 k == inject_Z (2 ^ (k - e)) * pow2 e).
  { rewrite <- pow2_inject by lia. apply pow2_split. }
  pose proof (round_at_fix e (2 ^ (k - e))) as F.
  split.
  - apply Qle_trans with (round_at e (inject_Z (2 ^ (k - e)) * pow2 e)).
    + apply round_at_mono. rewrite E. apply Qle_refl.
    + rewrite F, E. apply Qle_refl.
  - apply Qle_trans with (round_at e (inject_Z (2 ^ (k - e)) * pow2 e)).
    + rewrite F, E. apply Qle_refl.
    + apply round_at_mono. rewrite E. apply Qle_refl.
Qed.

Lemma fexp_mono a b : (a <= b)%Z -> (fexp a <= fexp b)%Z.
Proof. unfold fexp. lia. Qed.

Lemma round_pos_mono x y : 0 < x -> x <= y -> round_pos x <= round_pos y.
Proof.
  intros Hx Hxy. unfold round_pos.
  assert (Hy : 0 < y) by lra.
  pose proof (mag_mono x y Hx Hxy) as Hm.
  pose proof (fexp_mono _ _ Hm) as He.
  destruct (Z.eq_dec (fexp (mag x)) (fexp (mag y))) as [E|NE].
  - rewrite E. apply round_at_mono, Hxy.
  - assert (Hlt : (fexp (mag x) < fexp (mag y))%Z) by lia.
    assert (Hmx : (mag x < mag y)%Z) by (unfold fexp in *; lia).
    assert (Hey : fexp (mag y) = (mag y - prec)%Z) by (unfold fexp in *; lia).
    destruct (mag_spec x Hx) as [_ Hx2]. destruct (mag_spec y Hy) as [Hy1 _].
    apply Qle_trans with (pow2 (mag y - 1)).
    + apply Qle_trans with (round_at (fexp (mag x)) (pow2 (mag y - 1))).
      * apply round_at_mono. apply Qle_trans with (pow2 (mag x)); [lra|].
        apply pow2_le. lia.
      * apply round_at_pow2. unfold fexp, prec in *. lia.
    + apply Qle_trans with (round_at (fexp (mag y)) (pow2 (mag y - 1))).
      * apply round_at_pow2. rewrite Hey. unfold prec. lia.
      * apply round_at_mono, Hy1.
Qed.

Lemma round_pos_nonneg x : 0 < x -> 0 <= round_pos x.
Proof.
  intros Hx. unfold round_pos, round_at.
  apply Qmult_le_0_compat; [|apply Qlt_le_weak, pow2_pos].
  change 0 with (inject_Z 0). rewrite <- Zle_Qle.
  rewrite <- (rne_Z 0). apply rne_mono. change (inject_Z 0) with 0.
  apply Qle_shift_div_l; [apply pow2_pos|]. lra.
Qed.

Theorem round_mono x y : x <= y -> round x <= round y.
Proof.
  intros Hxy. unfold round.
  destruct (Qcompare_spec x 0) as [Ex|Ex|Ex];
    destruct (Qcompare_spec y 0) as [Ey|Ey|Ey]; try lra.
  - apply round_pos_nonneg, Ey.
  - pose proof (round_pos_nonneg (- x)). lra.
  - pose proof (round_pos_mono (- y) (- x)). lra.
  - pose proof (round_pos_nonneg (- x)). pose proof (round_pos_nonneg y). lra.
  - apply round_pos_mono; assumption.
Qed.

Lemma round_comp x y : x == y -> round x == round y.
Proof.
  intros E. apply Qle_antisym; apply round_mono; rewrite E; apply Qle_refl.
Qed.

#[export] Instance round_proper : Proper (Qeq ==> Qeq) round.
Proof. intros x y E. apply round_comp, E. Qed.

Lemma round_at_comp e x y : x == y -> round_at e x == round_at e y.
Proof.
  intros E. apply Qle_antisym; apply round_at_mono; rewrite E; apply Qle_refl.
Qed.

Lemma round_at_multiple e k x : x == inject_Z k * pow2 e -> round_at e x == x.
Proof.
  intros E. rewrite (round_at_comp e _ _ E), round_at_fix. symmetry. exact E.
Qed.

Lemma round_pos_Z n : (0 < n <= 2 ^ prec)%Z -> round_pos (inject_Z n) == inject_Z n.
Proof.
  intros [Hn0 Hn1]. unfold round_pos.
  assert (Hq : 0 < inject_Z n) by (change 0 with (inject_Z 0); rewrite <- Zlt_Qlt; lia).
  destruct (mag_spec _ Hq) as [Hlo Hhi]. set (m := mag (inject_Z n)) in *.
  assert (Hm0 : (0 < m)%Z).
  { apply pow2_lt_inv. apply Qle_lt_trans with (inject_Z n); [|exact Hhi].
    change (pow2 0) with (inject_Z 1). rewrite <- Zle_Qle. lia. }
  assert (Hm1 : (m - 1 <= prec)%Z).
  { apply (Qpower_le_compat_l_inv 2); [|reflexivity].
    apply Qle_trans with (inject_Z n); [exact Hlo|].
    fold (pow2 prec). rewrite pow2_inject by (unfold prec; lia).
    rewrite <- Zle_Qle. exact Hn1. }
  assert (He : fexp m = (m - prec)%Z) by (unfold fexp, prec, emin in *; lia).
  rewrite He.
  destruct (Z_le_gt_dec (m - prec) 0) as [Le|Gt].
  - apply (round_at_multiple _ (n * 2 ^ (prec - m))).
    rewrite inject_Z_mult, <- pow2_inject by lia.
    rewrite <- Qmult_assoc, <- pow2_add.
    replace (prec - m + (m - prec))%Z with 0%Z by lia.
    change (pow2 0) with 1. ring.
  - assert (Em : m = (prec + 1)%Z) by lia.
    assert (En : n = (2 ^ prec)%Z).
    { apply Z.le_antisymm; [exact Hn1|]. rewrite Zle_Qle.
      rewrite <- pow2_inject by (unfold prec; lia).
      replace prec with (m - 1)%Z at 1 by lia. exact Hlo. }
    rewrite Em, En. replace (prec + 1 - prec)%Z with 1%Z by lia.
    apply (round_at_multiple _ (2 ^ (prec - 1))). reflexivity.
Qed.

(** Every integer of magnitude at most 2^53 is a binary64 value. *)
Theorem round_Z n : (Z.abs n <= 2 ^ prec)%Z -> round (inject_Z n) == inject_Z n.
Proof.
  intros Hn. unfold round.
  destruct (Qcompare_spec (inject_Z n) 0) as [E|E|E].
  - symmetry. exact E.
  - assert (Hneg : (n < 0)%Z) by (rewrite Zlt_Qlt; exact E).
    rewrite <- inject_Z_opp, round_pos_Z by lia.
    rewrite inject_Z_opp. ring.
  - assert (Hpos : (0 < n)%Z) by (rewrite Zlt_Qlt; exact E).
    apply round_pos_Z. lia.
Qed.

(** The rounding agrees with the binary64 values of a Python
    interpreter: [0.1], [0.1 + 0.2], [float(2**53 + 1)],
    [float(2**53 + 3)], half the least subnormal (which rounds to zero)
    and [int(-2.5)]. *)
Example round_one_tenth : round (1 # 10) == 3602879701896397 # 36028797018963968.
Proof. vm_compute. reflexivity. Qed.

Example round_sum_of_tenths :
  round (round (1 # 10) + round (2 # 10)) == 5404319552844596 # 18014398509481984.
Proof. vm_compute. reflexivity. Qed.

Example round_ties_to_even :
  round (inject_Z (2 ^ 53 + 1)) == inject_Z (2 ^ 53) /\
  round (inject_Z (2 ^ 53 + 3)) == inject_Z (2 ^ 53 + 4).
Proof. split; vm_compute; reflexivity. Qed.

Example round_underflow : round (pow2 (-1075)) == 0 /\ round (pow2 (-1074)) == pow2 (-1074).
Proof. split; vm_compute; reflexivity. Qed.

Example truncate_toward_zero : truncate (- (5 # 2)) = (-2)%Z /\ truncate (5 # 2) = 2%Z.
Proof. split; reflexivity. Qed.

End Binary64Facts.

(** ** Sizes *)

Module SizeFacts.
Import Binary64 Binary64Facts.
Local Open Scope Q_scope.

Lemma truncate_nonneg q : 0 <= q -> truncate q = Qfloor q.
Proof.
  destruct q as [n d]. unfold Qle, truncate, Qfloor. cbn. intros H.
  apply Z.quot_div_nonneg; lia.
Qed.

Lemma small_no_overflow r : - inject_Z (2 ^ prec) <= r <= inject_Z (2 ^ prec) -> overflows r = false.
Proof.
  intros [H1 H2]. unfold overflows.
  destruct (Qle_bool (pow2 emax) (Qabs r)) eqn:E; [|reflexivity].
  apply Qle_bool_iff in E.
  assert (Ha : Qabs r <= inject_Z (2 ^ prec)) by (apply Qabs_Qle_condition; split; assumption).
  assert (Hlt : inject_Z (2 ^ prec) < pow2 emax).
  { rewrite <- pow2_inject by (unfold prec; lia). apply pow2_lt. unfold prec, emax. lia. }
  lra.
Qed.

Lemma round_0 : round 0 == 0.
Proof. reflexivity. Qed.

Lemma round_between (a b : Z) (q : Q) :
  (Z.abs a <= 2 ^ prec)%Z -> (Z.abs b <= 2 ^ prec)%Z ->
  inject_Z a <= q <= inject_Z b ->
  inject_Z a <= round q <= inject_Z b.
Proof.
  intros Ha Hb [H1 H2]. split.
  - rewrite <- (round_Z a Ha). apply round_mono, H1.
  - rewrite <- (round_Z b Hb). apply round_mono, H2.
Qed.

(** The arithmetic of lines 68-74 on a training size [T0] that a float
    holds exactly and a split [0 < s < 1]. *)
Lemma split_arithmetic (T0 : Z) (s : Q) :
  (0 <= T0 <= 2 ^ prec)%Z -> 0 < s < 1 ->
  let f0 := round (inject_Z T0) in
  let v := round (f0 * s) in
  let t := round (f0 - v) in
  overflows f0 = false /\ overflows v = false /\ overflows t = false /\
  (T0 - 1 <= truncate t + truncate v <= T0)%Z /\
  ((exists k : Z, inject_Z T0 * s == inject_Z k) -> (truncate t + truncate v = T0)%Z).
Proof.
  intros HT Hs f0 v t.
  assert (HTa : (Z.abs T0 <= 2 ^ prec)%Z) by lia.
  assert (H0a : (Z.abs 0 <= 2 ^ prec)%Z) by (unfold prec; cbn; lia).
  assert (HT0 : 0 <= inject_Z T0) by (change 0 with (inject_Z 0); rewrite <- Zle_Qle; lia).
  assert (HTp : inject_Z T0 <= inject_Z (2 ^ prec)) by (rewrite <- Zle_Qle; lia).
  assert (Ef0 : f0 == inject_Z T0) by (apply round_Z, HTa).
  assert (Hprod : inject_Z 0 <= f0 * s <= inject_Z T0).
  { rewrite Ef0. change (inject_Z 0) with 0. split; [apply Qmult_le_0_compat; lra|].
    nra. }
  assert (Hv : inject_Z 0 <= v <= inject_Z T0) by (apply round_between; assumption).
  change (inject_Z 0) with 0 in Hv.
  set (k := Qfloor v).
  assert (Hk1 : inject_Z k <= v) by apply Qfloor_le.
  assert (Hk2 : v < inject_Z (k + 1)) by apply Qlt_floor.
  assert (Hk0 : (0 <= k)%Z).
  { unfold k. rewrite <- (Qfloor_Z 0). apply Qfloor_resp_le. apply Hv. }
  assert (HkT : (k <= T0)%Z).
  { unfold k. rewrite <- (Qfloor_Z T0). apply Qfloor_resp_le. apply Hv. }
  assert (Hdiff : inject_Z (T0 - k - 1) <= f0 - v <= inject_Z (T0 - k)).
  { rewrite Ef0. rewrite inject_Z_plus in Hk2. change (inject_Z 1) with 1 in Hk2.
    unfold Z.sub. rewrite !inject_Z_plus, !inject_Z_opp. change (inject_Z 1) with 1.
    split; lra. }
  assert (Hdiff0 : inject_Z 0 <= f0 - v <= inject_Z (T0 - k)).
  { split; [|apply Hdiff]. change (inject_Z 0) with 0. rewrite Ef0. lra. }
  assert (Hr0 : inject_Z 0 <= t <= inject_Z (T0 - k)).
  { apply (round_between 0 (T0 - k)); [exact H0a|lia|exact Hdiff0]. }
  assert (Ht : inject_Z (T0 - k - 1) <= t <= inject_Z (T0 - k)).
  { destruct (Z.eq_dec k T0) as [E|NE].
    - split; [|apply Hr0].
      apply Qle_trans with (inject_Z 0); [rewrite <- Zle_Qle; lia|apply Hr0].
    - apply round_between; [lia|lia|exact Hdiff]. }
  assert (Ht0 : 0 <= t) by apply Hr0.
  assert (Hft : (T0 - k - 1 <= Qfloor t <= T0 - k)%Z).
  { split.
    - rewrite <- (Qfloor_Z (T0 - k - 1)). apply Qfloor_resp_le, Ht.
    - rewrite <- (Qfloor_Z (T0 - k)). apply Qfloor_resp_le, Ht. }
  rewrite (truncate_nonneg t Ht0), (truncate_nonneg v) by apply Hv. fold k.
  repeat split.
  - apply small_no_overflow. rewrite Ef0. split; [|exact HTp].
    apply Qle_trans with 0; [|exact HT0].
    change 0 with (- inject_Z 0). rewrite <- !inject_Z_opp, <- Zle_Qle. unfold prec. cbn. lia.
  - apply small_no_overflow. split; [|lra].
    apply Qle_trans with 0; [|apply Hv].
    change 0 with (- inject_Z 0). rewrite <- !inject_Z_opp, <- Zle_Qle. unfold prec. cbn. lia.
  - apply small_no_overflow. split.
    + apply Qle_trans with 0; [|exact Ht0].
      change 0 with (- inject_Z 0). rewrite <- !inject_Z_opp, <- Zle_Qle. unfold prec. cbn. lia.
    + apply Qle_trans with (inject_Z (T0 - k)); [apply Ht|]. rewrite <- Zle_Qle. lia.
  - lia.
  - lia.
  - intros [j Hj].
    assert (Hj0 : (0 <= j <= T0)%Z).
    { rewrite Ef0 in Hprod. rewrite Hj in Hprod. rewrite <- !Zle_Qle in Hprod. exact Hprod. }
    assert (Ev : v == inject_Z j).
    { unfold v. rewrite Ef0, Hj. apply round_Z. lia. }
    assert (Ek : k = j) by (unfold k; rewrite Ev; apply Qfloor_Z).
    assert (Et : t == inject_Z (T0 - j)).
    { unfold t. fold v. rewrite Ef0, Ev.
      assert (E : inject_Z T0 - inject_Z j == inject_Z (T0 - j)).
      { unfold Z.sub. rewrite inject_Z_plus, inject_Z_opp. ring. }
      rewrite E. apply round_Z. lia. }
    rewrite Et, Qfloor_Z. lia.
Qed.

Lemma mul_int_float (T0 : Z) (s : Q) :
  overflows (round (inject_Z T0)) = false ->
  overflows (round (round (inject_Z T0) * s)) = false ->
  PyNum.mul (PInt T0) (PFloat (FFinite s))
  = Ok (PFloat (FFinite (round (round (inject_Z T0) * s)))).
Proof.
  intros O1 O2. unfold PyNum.mul, PyNum.float_of_int. rewrite O1.
  unfold PyNum.fmul, PyNum.of_exact. rewrite O2. reflexivity.
Qed.

Lemma sub_int_float (T0 : Z) (v : Q) :
  overflows (round (inject_Z T0)) = false ->
  overflows (round (round (inject_Z T0) - v)) = false ->
  PyNum.sub (PInt T0) (PFloat (FFinite v))
  = Ok (PFloat (FFinite (round (round (inject_Z T0) - v)))).
Proof.
  intros O1 O2. unfold PyNum.sub, PyNum.float_of_int. rewrite O1.
  unfold PyNum.fsub, PyNum.of_exact. rewrite O2. reflexivity.
Qed.

End SizeFacts.


(** C2, as stated, fails: with ten samples and [validation_split=0.25]
    the validation size is [int(2.5) = 2] and the training size is
    [int(7.5) = 7], which add up to nine. *)
Lemma validation_split_loses_a_sample :
  training_size_of Examples.ten_samples = PInt 10 /\
  training_size_of
    (fst (derive_validation_size (Examples.kw_split (1 # 4)) Examples.ten_samples))
  = PInt 7 /\
  validation_size_of
    (fst (derive_validation_size (Examples.kw_split (1 # 4)) Examples.ten_samples))
  = PInt 2 /\
  7 + 2 <> 10.
Proof. repeat split; try (vm_compute; reflexivity). lia. Qed.

(** C2, amended. With no [validation_data], a [validation_split] [s]
    in [[0, 1)] and a training size [T0] between 0 and 2^53 before the
    split, lines 64-74 leave integer sizes whose sum is [T0] or
    [T0 - 1]; it is [T0] whenever [T0 * s] is a whole number. *)
Theorem validation_split_sizes (fr : Frame) (kw : Kwargs) (T0 : Z) (s : Q) :
  training_size_of fr = PInt T0 ->
  0 <= T0 <= 2 ^ 53 ->
  (0 <= s < 1)%Q ->
  kw_validation_data kw = None ->
  kw_validation_split kw = Some (PFloat (FFinite s)) ->
  exists t v : Z,
    snd (derive_validation_size kw fr) = Ok tt /\
    training_size_of (fst (derive_validation_size kw fr)) = PInt t /\
    validation_size_of (fst (derive_validation_size kw fr)) = PInt v /\
    T0 - 1 <= t + v <= T0 /\
    ((exists k : Z, (inject_Z T0 * s == inject_Z k)%Q) -> t + v = T0).
Proof.
  intros HT0 Hrange Hs Hvd Hvs.
  destruct fr as [st [mo cs ex ist mc a1 a2 a3 a4 a5 a6]].
  destruct ist as [ix im ih ib its ivs iam iet].
  unfold training_size_of in HT0. cbn in HT0. subst its.
  unfold derive_validation_size, bind, get_state, set_state, set_self, modify, lift,
    training_size_of, validation_size_of.
  rewrite Hvd, Hvs. cbn [PyNum.truthy].
  destruct (Qeq_bool s 0) eqn:Es; cbn [negb].
  - exists T0, 0. cbn. repeat split; lia.
  - assert (Hs' : (0 < s < 1)%Q).
    { split; [|apply Hs]. destruct Hs as [Hs0 _].
      apply Qle_lteq in Hs0. destruct Hs0 as [Hlt|Heq]; [exact Hlt|].
      symmetry in Heq. apply Qeq_bool_iff in Heq. congruence. }
    destruct (SizeFacts.split_arithmetic T0 s Hrange Hs') as (O1 & O2 & O3 & Hsum & Hint).
    cbn [fst snd self store Instance.state InstanceState.training_size].
    rewrite (SizeFacts.mul_int_float T0 s O1 O2).
    cbn [fst snd self store Instance.state InstanceState.training_size
         InstanceState.validation_size Instance.set_state
         InstanceState.set_validation_size].
    rewrite (SizeFacts.sub_int_float T0 _ O1 O3).
    cbn [fst snd self store Instance.state InstanceState.training_size
         InstanceState.validation_size Instance.set_state
         InstanceState.set_validation_size InstanceState.set_training_size
         PyNum.to_int].
    eexists _, _. split; [reflexivity|]. split; [reflexivity|]. split; [reflexivity|].
    split; [exact Hsum | exact Hint].
Qed.

Lemma validation_split_sizes_witness :
  exists t v : Z,
    snd (derive_validation_size (Examples.kw_split (1 # 4)) Examples.ten_samples) = Ok tt /\
    training_size_of
      (fst (derive_validation_size (Examples.kw_split (1 # 4)) Examples.ten_samples))
    = PInt t /\
    validation_size_of
      (fst (derive_validation_size (Examples.kw_split (1 # 4)) Examples.ten_samples))
    = PInt v /\
    10 - 1 <= t + v <= 10 /\
    ((exists k : Z, (inject_Z 10 * (1 # 4) == inject_Z k)%Q) -> t + v = 10).
Proof.
  apply (validation_split_sizes Examples.ten_samples (Examples.kw_split (1 # 4)) 10 (1 # 4)).
  - reflexivity.
  - split; [lia | vm_compute; discriminate].
  - split; [discriminate | reflexivity].
  - reflexivity.
  - reflexivity.
Defined.

(** ** What a computation leaves unchanged *)

Lemma always_stable (R : Frame -> Frame -> Prop) fr fr' : always fr -> R fr fr' -> always fr'.
Proof. intros _ _. exact I. Qed.

Section Respects.
Context (P : Frame -> Prop) (R : Frame -> Frame -> Prop) `{!PreOrder R}.
Hypothesis P_stable : forall fr fr', P fr -> R fr fr' -> P fr'.

Lemma respects_ret {A} (a : A) : respects P R (ret a).
Proof. intros fr _. reflexivity. Qed.

Lemma respects_raise {A} (e : exn) : respects P R (@raise Frame A e).
Proof. intros fr _. reflexivity. Qed.

Lemma respects_lift {A} (r : result A) : respects P R (lift r).
Proof. intros fr _. reflexivity. Qed.

Lemma respects_get : respects P R get.
Proof. intros fr _. reflexivity. Qed.

Lemma respects_get_state : respects P R get_state.
Proof. intros fr _. reflexivity. Qed.

Lemma respects_bind {A B} (c : M Frame A) (k : A -> M Frame B) :
  respects P R c -> (forall a, respects P R (k a)) -> respects P R (bind c k).
Proof.
  intros Hc Hk fr HP. unfold bind. specialize (Hc fr HP).
  destruct (c fr) as [fr' [a|e]]; cbn in *; [|exact Hc].
  transitivity fr'; [exact Hc | apply Hk; eapply P_stable; eassumption].
Qed.

Lemma respects_for_each {A L} (l : list A) (body : A -> L -> M Frame L) :
  (forall a acc, respects P R (body a acc)) -> forall acc, respects P R (for_each l body acc).
Proof.
  intros Hb. induction l as [|a l IH]; intros acc; cbn [for_each].
  - apply respects_ret.
  - apply respects_bind; [apply Hb | intros acc'; apply IH].
Qed.

Lemma respects_for_each_ {A} (l : list A) (body : A -> M Frame unit) :
  (forall a, respects P R (body a)) -> respects P R (for_each_ l body).
Proof. intros Hb. apply respects_for_each. intros a _. apply Hb. Qed.

Lemma respects_if {A} (b : bool) (c1 c2 : M Frame A) :
  respects P R c1 -> respects P R c2 -> respects P R (if b then c1 else c2).
Proof. destruct b; auto. Qed.

End Respects.

Lemma respects_weaken (P : Frame -> Prop) R {A} (c : M Frame A) :
  respects always R c -> respects P R c.
Proof. intros H fr _. apply H. exact I. Qed.

(** *** The schema of an instance and of the tuner *)

#[local] Instance keeps_schema_preorder : PreOrder keeps_schema.
Proof.
  split.
  - intros fr. repeat split.
  - intros a b c (H1 & H2 & H3 & H4) (G1 & G2 & G3 & G4).
    repeat split; congruence.
Qed.

#[local] Instance keeps_attributes_preorder : PreOrder keeps_attributes.
Proof.
  split.
  - intros fr. repeat split.
  - intros a b c (H1 & H2 & H3 & H4 & H5 & H6) (G1 & G2 & G3 & G4 & G5 & G6).
    repeat split; congruence.
Qed.

Lemma schema_set_stable fr fr' : schema_set fr -> keeps_schema fr fr' -> schema_set fr'.
Proof.
  unfold schema_set, instance_schema_set. intros H (H1 & _ & H3 & _).
  rewrite H1, H3. exact H.
Qed.

(** A statement that assigns to [self] or to the store, compared with
    the frame before it by computation. *)
Ltac respects_assignment :=
  let fr := fresh "fr" in
  solve [ intros fr _;
          unfold set_state, set_self, set_store, modify, show, alloc, file_operation;
          cbn; repeat split ].

Ltac respects_phase :=
  repeat first
    [ apply respects_bind; [exact _|exact (always_stable _)| |intros ?]
    | apply respects_ret; exact _
    | apply respects_raise; exact _
    | apply respects_lift; exact _
    | apply respects_get; exact _
    | apply respects_get_state; exact _
    | apply respects_for_each_; [exact _|exact (always_stable _)|intros ?]
    | match goal with
      | |- respects _ _ (match ?x with _ => _ end) => destruct x
      end
    | respects_assignment ].

Lemma collect_batch_size_keeps_schema kw : respects always keeps_schema (collect_batch_size kw).
Proof. unfold collect_batch_size. respects_phase. Qed.

Lemma derive_training_size_keeps_schema x : respects always keeps_schema (derive_training_size x).
Proof. unfold derive_training_size. respects_phase. Qed.

Lemma derive_validation_size_keeps_schema kw :
  respects always keeps_schema (derive_validation_size kw).
Proof. unfold derive_validation_size. respects_phase. Qed.

Lemma announce_keeps_schema : respects always keeps_schema announce.
Proof. unfold announce. respects_phase. Qed.

Lemma run_execution_keeps_schema tr : respects always keeps_schema (run_execution tr).
Proof. unfold run_execution. respects_phase. Qed.

Lemma on_agg_metrics_keeps_attributes method f :
  respects always keeps_attributes (on_agg_metrics method f).
Proof.
  intros fr _. unfold on_agg_metrics.
  destruct (InstanceState.agg_metrics _); [|reflexivity].
  destruct (heap (store fr) !! _); [|reflexivity].
  destruct (f _); cbn; repeat split.
Qed.

Lemma collect_batch_size_keeps_attributes kw :
  respects always keeps_attributes (collect_batch_size kw).
Proof. unfold collect_batch_size. respects_phase. Qed.

Lemma derive_training_size_keeps_attributes x :
  respects always keeps_attributes (derive_training_size x).
Proof. unfold derive_training_size. respects_phase. Qed.

Lemma derive_validation_size_keeps_attributes kw :
  respects always keeps_attributes (derive_validation_size kw).
Proof. unfold derive_validation_size. respects_phase. Qed.

Lemma register_metric_keeps_attributes metric :
  respects always keeps_attributes (register_metric metric).
Proof.
  unfold register_metric.
  repeat first [ apply on_agg_metrics_keeps_attributes | respects_phase ].
Qed.

Lemma register_loss_keeps_attributes loss :
  respects always keeps_attributes (register_loss loss).
Proof.
  unfold register_loss.
  repeat first [ apply on_agg_metrics_keeps_attributes | respects_phase ].
Qed.

Lemma publish_schema_keeps_attributes : respects always keeps_attributes publish_schema.
Proof. unfold publish_schema. respects_phase. Qed.

Lemma init_metrics_keeps_attributes : respects always keeps_attributes init_metrics.
Proof.
  unfold init_metrics.
  repeat first
    [ apply on_agg_metrics_keeps_attributes
    | apply register_metric_keeps_attributes
    | apply register_loss_keeps_attributes
    | apply publish_schema_keeps_attributes
    | respects_phase ].
Qed.

Lemma announce_keeps_attributes : respects always keeps_attributes announce.
Proof. unfold announce. respects_phase. Qed.

Lemma run_execution_keeps_attributes tr : respects always keeps_attributes (run_execution tr).
Proof. unfold run_execution. respects_phase. Qed.

Lemma fit_keeps_attributes x y epochs kw tr :
  respects always keeps_attributes (fit x y epochs kw tr).
Proof.
  unfold fit.
  repeat first
    [ apply collect_batch_size_keeps_attributes
    | apply derive_training_size_keeps_attributes
    | apply derive_validation_size_keeps_attributes
    | apply init_metrics_keeps_attributes
    | apply announce_keeps_attributes
    | apply run_execution_keeps_attributes
    | apply respects_bind; [exact _|exact (always_stable _)| |intros ?] ].
Qed.



(** *** A call of [fit] on an instance whose schema is set *)

Lemma init_metrics_skips fr : schema_set fr -> init_metrics fr = (fr, Ok tt).
Proof.
  unfold schema_set, instance_schema_set, init_metrics, bind, get. cbn.
  intros H. rewrite H. reflexivity.
Qed.

Lemma fit_keeps_schema x y epochs kw tr :
  respects schema_set keeps_schema (fit x y epochs kw tr).
Proof.
  unfold fit.
  apply respects_bind; [exact _ | exact schema_set_stable | | intros _].
  { apply respects_weaken, collect_batch_size_keeps_schema. }
  apply respects_bind; [exact _ | exact schema_set_stable | | intros _].
  { apply respects_weaken, derive_training_size_keeps_schema. }
  apply respects_bind; [exact _ | exact schema_set_stable | | intros _].
  { apply respects_weaken, derive_validation_size_keeps_schema. }
  apply respects_bind; [exact _ | exact schema_set_stable | | intros _].
  { intros fr H. rewrite (init_metrics_skips fr H). reflexivity. }
  apply respects_bind; [exact _ | exact schema_set_stable | | intros _].
  { apply respects_weaken, announce_keeps_schema. }
  apply respects_weaken, run_execution_keeps_schema.
Qed.

(** *** Building the schema *)

#[local] Instance only_cell_preorder n : PreOrder (only_cell n).
Proof.
  split.
  - intros fr. repeat split.
  - intros a b c (H1 & H2 & H3 & H4) (G1 & G2 & G3 & G4).
    repeat split; try congruence. intros l Hl. rewrite G4, H4; auto.
Qed.

Lemma schema_at_stable n fr fr' : schema_at n fr -> only_cell n fr fr' -> schema_at n fr'.
Proof. unfold schema_at. intros H (H1 & _). rewrite H1. exact H. Qed.

Lemma on_agg_metrics_only_cell n method f :
  respects (schema_at n) (only_cell n) (on_agg_metrics method f).
Proof.
  intros fr Hn. unfold on_agg_metrics. rewrite Hn.
  destruct (heap (store fr) !! n) as [c|]; [|reflexivity].
  destruct (f c) as [c'|e]; [|reflexivity].
  cbn. repeat split.
  - apply length_insert.
  - intros l Hl. apply list_lookup_insert_ne. congruence.
Qed.

Lemma register_metric_only_cell n metric :
  respects (schema_at n) (only_cell n) (register_metric metric).
Proof.
  unfold register_metric.
  repeat first
    [ apply on_agg_metrics_only_cell
    | apply respects_bind; [exact _ | exact (schema_at_stable n) | | intros ?]
    | apply respects_get_state; exact _
    | apply respects_lift; exact _
    | apply respects_ret; exact _
    | match goal with
      | |- respects _ _ (if ?b then _ else _) => destruct b
      end ].
Qed.

Lemma register_loss_only_cell n loss :
  respects (schema_at n) (only_cell n) (register_loss loss).
Proof.
  unfold register_loss.
  repeat first
    [ apply on_agg_metrics_only_cell
    | apply respects_bind; [exact _ | exact (schema_at_stable n) | | intros ?]
    | apply respects_get_state; exact _
    | apply respects_lift; exact _
    | apply respects_ret; exact _
    | match goal with
      | |- respects _ _ (if ?b then _ else _) => destruct b
      end ].
Qed.

(** What a successful in-place update of the schema does. *)
Lemma on_agg_metrics_ok method f fr fr' :
  on_agg_metrics method f fr = (fr', Ok tt) ->
  exists l c c',
    InstanceState.agg_metrics (Instance.state (self fr)) = Some l /\
    heap (store fr) !! l = Some c /\ f c = Ok c' /\
    heap (store fr') !! l = Some c'.
Proof.
  unfold on_agg_metrics.
  destruct (InstanceState.agg_metrics _) as [l|]; [|discriminate].
  destruct (heap (store fr) !! l) as [c|] eqn:E; [|discriminate].
  destruct (f c) as [c'|e] eqn:Ef; [|discriminate].
  intros H. inversion H; subst; clear H. exists l, c, c'. cbn.
  repeat split; try assumption.
  apply list_lookup_insert_eq. apply lookup_lt_Some in E. exact E.
Qed.

Lemma set_objective_truthy name c c' :
  MetricsCollection.set_objective name c = Ok c' -> MetricsCollection.truthy c' = true.
Proof.
  unfold MetricsCollection.set_objective, dict_mem.
  destruct (dict_get (MetricsCollection.objects c) (IdName name)) eqn:E; [|discriminate].
  intros H. inversion H; subst; clear H.
  unfold MetricsCollection.truthy, MetricsCollection.len. cbn.
  destruct (MetricsCollection.objects c); [discriminate|]. reflexivity.
Qed.

Lemma lookup_snoc_last {A} (l : list A) (x : A) : ((l ++ [x])%list) !! length l = Some x.
Proof. apply list_lookup_middle. reflexivity. Qed.

Lemma schema_truthy_agree h h' r :
  (forall l, r = Some l -> h' !! l = h !! l) -> schema_truthy h' r = schema_truthy h r.
Proof.
  intros H. unfold schema_truthy. destruct r as [l|]; [|reflexivity].
  rewrite (H l eq_refl). reflexivity.
Qed.

(** What lines 80-116 do to a frame whose schema reference [n] is the
    last collection created, while the tuner's reference, if any, is an
    older one. *)
Lemma fill_schema_spec (n : loc) (fr1 : Frame) :
  schema_at n fr1 ->
  length (heap (store fr1)) = S n ->
  let older :=
    forall lt, TunerState.agg_metrics (tuner_state (store fr1)) = Some lt -> (lt < n)%nat in
  let fr' := fst (fill_schema fr1) in
  schema_at n fr' /\
  (forall l, (l < n)%nat -> heap (store fr') !! l = heap (store fr1) !! l) /\
  (older -> tuner_schema_set (store fr1) = true ->
   tuner_state (store fr') = tuner_state (store fr1)) /\
  (snd (fill_schema fr1) = Ok tt ->
   exists c,
     heap (store fr') !! n = Some c /\
     MetricsCollection.truthy c = true /\
     Instance.metrics_config (self fr') = Some (MetricsCollection.to_config c) /\
     (older -> tuner_schema_set (store fr1) = false ->
      TunerState.agg_metrics (tuner_state (store fr')) = Some (S n) /\
      heap (store fr') !! S n
      = Some (MetricsCollection.from_config (MetricsCollection.to_config c)))).
Proof.
  intros Hn Hlen older.
  assert (Hclose : forall fr2, only_cell n fr1 fr2 ->
            schema_at n fr2 /\
            (forall l, (l < n)%nat -> heap (store fr2) !! l = heap (store fr1) !! l) /\
            (older -> tuner_schema_set (store fr1) = true ->
             tuner_state (store fr2) = tuner_state (store fr1))).
  { intros fr2 H. split; [eapply schema_at_stable; eassumption|].
    destruct H as (_ & H2 & _ & H4). split; [|intros _ _; exact H2].
    intros l Hl. apply H4. lia. }
  cbv zeta. destruct (fill_schema fr1) as [fr' r] eqn:E. cbn [fst snd].
  unfold fill_schema in E. unfold bind at 1 in E. unfold get at 1 in E. cbn beta iota in E.
  set (metrics := Model.metrics (Instance.model (self fr1))) in E.
  set (loss := Model.loss (Instance.model (self fr1))) in E.
  pose proof (respects_for_each_ (schema_at n) (only_cell n) (schema_at_stable n)
                metrics register_metric (register_metric_only_cell n) fr1 Hn) as H2.
  unfold bind at 1 in E.
  destruct (for_each_ metrics register_metric fr1) as [fr2 [[]|e2]]; cbn [fst snd] in *.
  2:{ inversion E; subst.
      destruct (Hclose fr' H2) as (A & B & C); repeat split; auto; discriminate. }
  unfold bind at 1 in E. unfold lift at 1 in E.
  destruct (model_losses loss) as [losses|e]; cbn beta iota in E.
  2:{ inversion E; subst.
      destruct (Hclose fr' H2) as (A & B & C); repeat split; auto; discriminate. }
  assert (Hn2 : schema_at n fr2) by (eapply schema_at_stable; eassumption).
  pose proof (respects_for_each_ (schema_at n) (only_cell n) (schema_at_stable n)
                losses register_loss (register_loss_only_cell n) fr2 Hn2) as H3.
  unfold bind at 1 in E.
  destruct (for_each_ losses register_loss fr2) as [fr3 [[]|e3]]; cbn [fst snd] in *.
  2:{ inversion E; subst.
      assert (H13 : only_cell n fr1 fr') by (etransitivity; eassumption).
      destruct (Hclose fr' H13) as (A & B & C); repeat split; auto; discriminate. }
  assert (H13 : only_cell n fr1 fr3) by (etransitivity; eassumption).
  assert (Hn3 : schema_at n fr3) by (eapply schema_at_stable; eassumption).
  unfold bind at 1 in E. unfold get at 1 in E. cbn beta iota in E.
  pose proof (on_agg_metrics_only_cell n "set_objective"
                (MetricsCollection.set_objective
                   (TunerState.objective (tuner_state (store fr3)))) fr3 Hn3) as H4.
  unfold bind at 1 in E.
  destruct (on_agg_metrics "set_objective" _ fr3) as [fr4 [[]|e4]] eqn:E4;
    cbn [fst snd] in *.
  2:{ inversion E; subst.
      assert (H14 : only_cell n fr1 fr') by (etransitivity; eassumption).
      destruct (Hclose fr' H14) as (A & B & C); repeat split; auto; discriminate. }
  assert (H14 : only_cell n fr1 fr4) by (etransitivity; eassumption).
  destruct (Hclose fr4 H14) as (A4 & B4 & C4).
  destruct (on_agg_metrics_ok _ _ _ _ E4) as (l & c & c' & Hl & Hc & Hset & Hc').
  rewrite Hn3 in Hl. inversion Hl; subst l; clear Hl.
  pose proof (set_objective_truthy _ _ _ Hset) as Htruthy.
  assert (Htr : older -> tuner_schema_set (store fr4) = tuner_schema_set (store fr1)).
  { intros Htuner. unfold tuner_schema_set. destruct H14 as (_ & T & _ & Hcells).
    rewrite T. apply schema_truthy_agree. intros lt Hlt. apply Hcells.
    specialize (Htuner lt Hlt). lia. }
  assert (Hlen4 : length (heap (store fr4)) = S n).
  { destruct H14 as (_ & _ & L & _). lia. }
  unfold publish_schema in E. unfold bind at 1 in E. unfold get at 1 in E.
  cbn beta iota in E. rewrite A4, Hc' in E.
  unfold bind at 1 in E. unfold set_self at 1 in E. unfold modify at 1 in E.
  cbn beta iota in E.
  unfold bind at 1 in E. unfold get at 1 in E. cbn [fst snd store self] in E.
  fold (tuner_schema_set (store fr4)) in E.
  destruct (tuner_schema_set (store fr4)) eqn:Et.
  - inversion E; subst; clear E. cbn.
    split; [exact A4|]. split; [exact B4|]. split; [exact C4|].
    intros _. exists c'.
    split; [exact Hc'|]. split; [exact Htruthy|]. split; [reflexivity|].
    intros Ho Hf. specialize (Htr Ho). congruence.
  - unfold bind, alloc, set_store, modify in E. cbn in E.
    inversion E; subst; clear E. cbn. rewrite Hlen4.
    split; [exact A4|]. split; [|split; [intros Ho Ht; specialize (Htr Ho); congruence|]].
    + intros l Hl. rewrite lookup_app_l by lia. apply B4, Hl.
    + intros _. exists c'.
      split; [rewrite lookup_app_l by lia; exact Hc'|].
      split; [exact Htruthy|]. split; [reflexivity|].
      intros _ _. split; [reflexivity|].
      rewrite <- Hlen4. apply lookup_snoc_last.
Qed.

Lemma tuner_schema_set_valid s : tuner_schema_set s = true -> tuner_ref_valid s.
Proof.
  unfold tuner_schema_set, tuner_ref_valid, schema_truthy.
  destruct (TunerState.agg_metrics (tuner_state s)) as [lt|]; [|auto].
  destruct (heap s !! lt) eqn:E; [|discriminate].
  intros _. eapply lookup_lt_Some, E.
Qed.

Lemma init_metrics_unset fr :
  instance_schema_set fr = false ->
  init_metrics fr = fill_schema (with_new_collection fr).
Proof.
  unfold instance_schema_set, init_metrics. unfold bind at 1. unfold get at 1.
  cbn beta iota. intros H. rewrite H. reflexivity.
Qed.

(** What lines 77-116 do when the instance has no schema. *)
Lemma init_metrics_builds (fr : Frame) :
  instance_schema_set fr = false ->
  let n := length (heap (store fr)) in
  let fr' := fst (init_metrics fr) in
  schema_at n fr' /\
  (forall l, (l < n)%nat -> heap (store fr') !! l = heap (store fr) !! l) /\
  (tuner_schema_set (store fr) = true -> tuner_state (store fr') = tuner_state (store fr)) /\
  (snd (init_metrics fr) = Ok tt ->
   exists c,
     heap (store fr') !! n = Some c /\
     MetricsCollection.truthy c = true /\
     Instance.metrics_config (self fr') = Some (MetricsCollection.to_config c) /\
     (tuner_ref_valid (store fr) -> tuner_schema_set (store fr) = false ->
      TunerState.agg_metrics (tuner_state (store fr')) = Some (S n) /\
      heap (store fr') !! S n
      = Some (MetricsCollection.from_config (MetricsCollection.to_config c)))).
Proof.
  intros Hunset n fr'. subst fr'. rewrite (init_metrics_unset fr Hunset).
  set (fr1 := with_new_collection fr).
  assert (Hn : schema_at n fr1) by reflexivity.
  assert (Hlen : length (heap (store fr1)) = S n).
  { unfold fr1, with_new_collection. cbn. rewrite length_app. cbn. lia. }
  assert (Hold : forall l, (l < n)%nat -> heap (store fr1) !! l = heap (store fr) !! l).
  { intros l Hl. unfold fr1, with_new_collection. cbn. apply lookup_app_l. exact Hl. }
  assert (Hts : tuner_state (store fr1) = tuner_state (store fr)) by reflexivity.
  assert (Holder : tuner_ref_valid (store fr) ->
            forall lt, TunerState.agg_metrics (tuner_state (store fr1)) = Some lt ->
                       (lt < n)%nat).
  { unfold tuner_ref_valid. rewrite Hts. intros Hv lt Hlt. rewrite Hlt in Hv. exact Hv. }
  assert (Hsame : tuner_ref_valid (store fr) ->
            tuner_schema_set (store fr1) = tuner_schema_set (store fr)).
  { intros Hv. unfold tuner_schema_set. rewrite Hts. apply schema_truthy_agree.
    intros lt Hlt. apply Hold. apply (Holder Hv). rewrite Hts. exact Hlt. }
  destruct (fill_schema_spec n fr1 Hn Hlen) as (A & B & C & D).
  split; [exact A|]. split; [|split].
  - intros l Hl. rewrite B by exact Hl. apply Hold, Hl.
  - intros Ht. pose proof (tuner_schema_set_valid _ Ht) as Hv.
    rewrite C; [reflexivity | exact (Holder Hv) | rewrite (Hsame Hv); exact Ht].
  - intros Hok. destruct (D Hok) as (c & D1 & D2 & D3 & D4).
    exists c. split; [exact D1|]. split; [exact D2|]. split; [exact D3|].
    intros Hv Hf. apply D4; [exact (Holder Hv) | rewrite (Hsame Hv); exact Hf].
Qed.

(** *** The sizes after they have been derived *)

#[local] Instance keeps_sizes_preorder : PreOrder keeps_sizes.
Proof.
  split.
  - intros fr. repeat split.
  - intros a b c (H1 & H2 & H3) (G1 & G2 & G3). repeat split; congruence.
Qed.

Lemma on_agg_metrics_keeps_sizes method f :
  respects always keeps_sizes (on_agg_metrics method f).
Proof.
  intros fr _. unfold on_agg_metrics.
  destruct (InstanceState.agg_metrics _); [|reflexivity].
  destruct (heap (store fr) !! _); [|reflexivity].
  destruct (f _); cbn; repeat split.
Qed.

Lemma init_metrics_keeps_sizes : respects always keeps_sizes init_metrics.
Proof.
  unfold init_metrics, fill_schema, publish_schema, register_metric, register_loss.
  repeat first [ apply on_agg_metrics_keeps_sizes | respects_phase ].
Qed.

Lemma announce_keeps_sizes : respects always keeps_sizes announce.
Proof. unfold announce. respects_phase. Qed.

Lemma run_execution_keeps_sizes tr : respects always keeps_sizes (run_execution tr).
Proof. unfold run_execution. respects_phase. Qed.


(** *** A call of [fit] that returns *)

Lemma fit_ok_inv x y epochs kw tr fr fr' e :
  fit x y epochs kw tr fr = (fr', Ok e) ->
  exists frA frB,
    keeps_schema fr frA /\ keeps_attributes fr frA /\
    init_metrics frA = (frB, Ok tt) /\
    keeps_schema frB fr' /\ keeps_attributes frB fr' /\ keeps_sizes frB fr'.
Proof.
  unfold fit. intros H.
  pose proof (collect_batch_size_keeps_schema kw fr I) as S1.
  pose proof (collect_batch_size_keeps_attributes kw fr I) as A1.
  unfold bind at 1 in H.
  destruct (collect_batch_size kw fr) as [f1 [[]|]]; [|discriminate]. cbn [fst] in *.
  pose proof (derive_training_size_keeps_schema x f1 I) as S2.
  pose proof (derive_training_size_keeps_attributes x f1 I) as A2.
  unfold bind at 1 in H.
  destruct (derive_training_size x f1) as [f2 [[]|]]; [|discriminate]. cbn [fst] in *.
  pose proof (derive_validation_size_keeps_schema kw f2 I) as S3.
  pose proof (derive_validation_size_keeps_attributes kw f2 I) as A3.
  unfold bind at 1 in H.
  destruct (derive_validation_size kw f2) as [f3 [[]|]]; [|discriminate]. cbn [fst] in *.
  unfold bind at 1 in H.
  destruct (init_metrics f3) as [f4 [[]|]] eqn:E4; [|discriminate].
  pose proof (announce_keeps_schema f4 I) as S5.
  pose proof (announce_keeps_attributes f4 I) as A5.
  pose proof (announce_keeps_sizes f4 I) as Z5.
  unfold bind at 1 in H.
  destruct announce as [f5 [[]|]]; [|discriminate]. cbn [fst] in *.
  pose proof (run_execution_keeps_schema tr f5 I) as S6.
  pose proof (run_execution_keeps_attributes tr f5 I) as A6.
  pose proof (run_execution_keeps_sizes tr f5 I) as Z6.
  rewrite H in S6, A6, Z6. cbn [fst] in *.
  exists f3, f4. split; [|split; [|split; [exact E4|split; [|split]]]].
  - transitivity f1; [exact S1|]. transitivity f2; [exact S2|exact S3].
  - transitivity f1; [exact A1|]. transitivity f2; [exact A2|exact A3].
  - etransitivity; eassumption.
  - etransitivity; eassumption.
  - etransitivity; eassumption.
Qed.

(** *** A mapping of named losses *)

Lemma fill_schema_dict_loss (fr : Frame) d :
  Model.loss (Instance.model (self fr)) = Model.LossDict d ->
  is_ok (snd (fill_schema fr)) = false.
Proof.
  intros Hloss. unfold fill_schema. unfold bind at 1. unfold get at 1. cbn beta iota.
  unfold bind at 1.
  destruct (for_each_ _ register_metric fr) as [fr2 [[]|e]]; [|reflexivity].
  rewrite Hloss. reflexivity.
Qed.

Lemma with_new_collection_model fr :
  Instance.model (self (with_new_collection fr)) = Instance.model (self fr).
Proof. reflexivity. Qed.

Lemma keeps_schema_unset fr fr' :
  keeps_schema fr fr' -> instance_schema_set fr' = instance_schema_set fr.
Proof. unfold instance_schema_set. intros (H1 & _ & H3 & _). rewrite H1, H3. reflexivity. Qed.

(** C3. A model whose [loss] is a mapping of named losses never gets
    them registered: on an instance without schema, every call of [fit]
    raises (line 94 reads the unbound local [losses]). *)
Theorem dict_loss_is_never_registered (fr : Frame) d x y epochs kw tr :
  Model.loss (Instance.model (self fr)) = Model.LossDict d ->
  instance_schema_set fr = false ->
  is_ok (snd (fit x y epochs kw tr fr)) = false.
Proof.
  intros Hloss Hunset.
  destruct (fit x y epochs kw tr fr) as [fr' [e|e]] eqn:E; [|reflexivity].
  destruct (fit_ok_inv _ _ _ _ _ _ _ _ E) as (frA & frB & S & A & Hinit & _).
  rewrite init_metrics_unset in Hinit by (rewrite (keeps_schema_unset _ _ S); exact Hunset).
  pose proof (fill_schema_dict_loss (with_new_collection frA) d) as Hd.
  rewrite with_new_collection_model in Hd.
  destruct A as (Am & _). rewrite Am in Hd. specialize (Hd Hloss).
  rewrite Hinit in Hd. discriminate.
Qed.

(** *** The schema of an instance is built once *)

Lemma run_fits_keeps_schema (cs : list Call) (fr : Frame) :
  schema_set fr -> keeps_schema fr (run_fits cs fr).
Proof.
  revert fr. induction cs as [|c cs IH]; intros fr Hset; cbn [run_fits fold_left].
  - reflexivity.
  - pose proof (fit_keeps_schema (call_x c) (call_y c) (call_epochs c) (call_kwargs c)
                  (call_training c) fr Hset) as H.
    fold (call_fit c) in H.
    transitivity (fst (call_fit c fr)); [exact H|].
    apply IH. eapply schema_set_stable; eassumption.
Qed.

(** A call of [fit] is lines 51-116 and, when they complete, lines
    119-137. *)
Lemma fit_after_prepare x y epochs kw tr fr :
  fit x y epochs kw tr fr
  = match prepare x kw fr with
    | (frB, Ok _) => (announce ;; run_execution tr) frB
    | (frB, Raise e) => (frB, Raise e)
    end.
Proof.
  unfold fit, prepare, derive_sizes, bind.
  destruct (collect_batch_size kw fr) as [f1 [[]|]]; [|reflexivity].
  destruct (derive_training_size x f1) as [f2 [[]|]]; [|reflexivity].
  destruct (derive_validation_size kw f2) as [f3 [[]|]]; [|reflexivity].
  destruct (init_metrics f3) as [f4 [[]|]]; reflexivity.
Qed.

(** What lines 119-137 do, by cases on the executions the instance has
    and on what the training does. *)
Lemma train_spec tr fr :
  let key := Execution.idx (Execution.created tr) in
  let r := (announce ;; run_execution tr) fr in
  let shown :=
    match Instance.executions (self fr) with
    | [] => announcement (TunerState.display_model (tuner_state (store fr)))
    | _ => []
    end in
  terminal (store (fst r)) = (terminal (store fr) ++ shown)%list /\
  TunerState.display_model (tuner_state (store (fst r)))
  = TunerState.display_model (tuner_state (store fr)) /\
  match Execution.fitted tr with
  | Ok e =>
      snd r = Ok e /\
      Instance.executions (self (fst r))
      = dict_set (dict_set (Instance.executions (self fr)) key (Execution.created tr)) key e /\
      execution_trained_of (fst r) = execution_trained_of fr + 1
  | Raise err =>
      snd r = Raise err /\
      Instance.executions (self (fst r))
      = dict_set (Instance.executions (self fr)) key (Execution.created tr) /\
      execution_trained_of (fst r) = execution_trained_of fr
  end.
Proof.
  destruct fr as [[hp [ob am dm] tm fl sn] [mo cs ex ist mc a1 a2 a3 a4 a5 a6]].
  destruct tr as [created fitted].
  unfold announce, run_execution, announcement, execution_trained_of, show, set_store,
    set_self, set_state, modify, lift, ret, get, bind.
  destruct ex as [|ke execs]; destruct dm; destruct fitted as [e|err];
    cbn [length store self Instance.executions];
    first [ change (Z.of_nat 0%nat =? 0) with true
          | change (Z.of_nat (S (length execs)) =? 0) with false ];
    cbn; rewrite ?app_nil_r, <- ?app_assoc; repeat split; reflexivity.
Qed.

Lemma derive_sizes_keeps_schema x kw : respects always keeps_schema (derive_sizes x kw).
Proof.
  unfold derive_sizes, collect_batch_size, derive_training_size, derive_validation_size.
  respects_phase.
Qed.

Lemma fit_tail_keeps_schema tr :
  respects always keeps_schema (announce ;; run_execution tr).
Proof.
  apply respects_bind; [exact _ | exact (always_stable _) | | intros _].
  { apply announce_keeps_schema. }
  apply run_execution_keeps_schema.
Qed.

(** When lines 51-116 complete, lines 77-116 ran from a frame with the
    schema of the one the call started in. *)
Lemma prepare_ok_inv x kw fr frB :
  prepare x kw fr = (frB, Ok tt) ->
  exists frA, keeps_schema fr frA /\ init_metrics frA = (frB, Ok tt).
Proof.
  unfold prepare. intros H.
  pose proof (derive_sizes_keeps_schema x kw fr I) as K.
  unfold bind in H.
  destruct (derive_sizes x kw fr) as [frA [[]|e]]; [|discriminate].
  exists frA. split; [exact K|].
  destruct (init_metrics frA) as [f [[]|e]]; [|discriminate].
  inversion H. reflexivity.
Qed.

(** An instance that [__init__] has just made has no schema. *)
Lemma new_instance_has_no_schema (s : Store) (idx : pyval) (model : Model.t)
    (hparams cloudservice : pyval) :
  instance_schema_set {| store := s; self := Instance_init idx model hparams cloudservice |}
  = false.
Proof. reflexivity. Qed.

(** C4, as stated, fails: the first call of [fit] on a new instance
    whose model gives its losses as a mapping assigns the new
    collection (line 78), registers the metric and its [val_] twin and
    then raises at line 94, before line 112.  The second call finds
    the collection in place, skips lines 78-116 and returns: the
    instance is trained with a collection that holds no loss and with
    [metrics_config] still unassigned, so the schema was not built by
    the first call, nor by any other. *)
Lemma first_fit_can_leave_the_schema_unfinished :
  snd (call_fit (Examples.first_call Examples.dict_model) Examples.dict_frame)
  = Raise (UnboundLocalError "losses") /\
  InstanceState.agg_metrics
    (Instance.state
       (self (fst (call_fit (Examples.first_call Examples.dict_model) Examples.dict_frame))))
  = Some 0%nat /\
  Instance.metrics_config
    (self (fst (call_fit (Examples.first_call Examples.dict_model) Examples.dict_frame)))
  = None /\
  is_ok
    (snd (call_fit (Examples.second_call Examples.dict_model)
            (fst (call_fit (Examples.first_call Examples.dict_model) Examples.dict_frame))))
  = true /\
  Instance.metrics_config
    (self (run_fits [Examples.first_call Examples.dict_model;
                     Examples.second_call Examples.dict_model] Examples.dict_frame))
  = None /\
  heap
    (store (run_fits [Examples.first_call Examples.dict_model;
                      Examples.second_call Examples.dict_model] Examples.dict_frame))
  = [MetricsCollection.from_config
       [{| cfg_name := IdName "accuracy"; cfg_direction := Max; cfg_objective := false |};
        {| cfg_name := IdName "val_accuracy"; cfg_direction := Max;
           cfg_objective := false |}]].
Proof. repeat split; vm_compute; reflexivity. Qed.

(** C4, amended. A call of [fit] made while the instance has no schema
    (as on every new instance) builds the schema if its lines 51-116
    complete, which they do in every call that returns; the call then
    ends as its training does.  The schema is one new metrics
    collection, which is not empty, referenced by [state.agg_metrics]
    and serialised into [metrics_config].  No later call of [fit] on
    the instance, whatever its arguments and whether it returns or
    raises, changes the reference, the collection, the serialised
    schema, any other collection or the tuner state. *)
Theorem schema_is_built_once_initialised (fr : Frame) (c : Call) (later : list Call) :
  instance_schema_set fr = false ->
  let fr1 := fst (call_fit c fr) in
  let n := length (heap (store fr)) in
  let initialised := is_ok (snd (prepare (call_x c) (call_kwargs c) fr)) in
  (is_ok (snd (call_fit c fr)) = true -> initialised = true) /\
  (initialised = true ->
   snd (call_fit c fr) = Execution.fitted (call_training c) /\
   (exists col,
       heap (store fr) !! n = None /\
       InstanceState.agg_metrics (Instance.state (self fr1)) = Some n /\
       heap (store fr1) !! n = Some col /\
       MetricsCollection.truthy col = true /\
       Instance.metrics_config (self fr1) = Some (MetricsCollection.to_config col)) /\
   keeps_schema fr1 (run_fits later fr1)).
Proof.
  intros Hunset fr1 n initialised. subst fr1 initialised. unfold call_fit.
  rewrite fit_after_prepare.
  destruct (prepare (call_x c) (call_kwargs c) fr) as [frB [[]|e]] eqn:P;
    cbn [fst snd is_ok]; cbv beta iota.
  2:{ split; intros H; discriminate H. }
  split; [reflexivity|]. intros _.
  destruct (prepare_ok_inv _ _ _ _ P) as (frA & SA & Hinit).
  assert (HunsetA : instance_schema_set frA = false).
  { rewrite (keeps_schema_unset _ _ SA). exact Hunset. }
  destruct (init_metrics_builds frA HunsetA) as (A & _ & _ & D).
  rewrite Hinit in A, D. cbn [fst snd] in A, D.
  destruct (D eq_refl) as (col & D1 & D2 & D3 & _).
  assert (HheapA : heap (store frA) = heap (store fr)) by apply SA.
  rewrite HheapA in A, D1. fold n in A, D1.
  pose proof (train_spec (call_training c) frB) as T. cbv zeta in T.
  destruct T as (_ & _ & T).
  destruct (fit_tail_keeps_schema (call_training c) frB I) as (B1 & B2 & B3 & B4).
  set (fr' := fst ((announce ;; run_execution (call_training c)) frB)) in *.
  assert (Hbuilt : exists col,
      heap (store fr) !! n = None /\
      InstanceState.agg_metrics (Instance.state (self fr')) = Some n /\
      heap (store fr') !! n = Some col /\
      MetricsCollection.truthy col = true /\
      Instance.metrics_config (self fr') = Some (MetricsCollection.to_config col)).
  { exists col. split; [apply lookup_ge_None; unfold n; lia|].
    split; [rewrite B3; exact A|]. split; [rewrite B1; exact D1|].
    split; [exact D2|]. rewrite B4. exact D3. }
  split; [|split; [exact Hbuilt|]].
  - destruct (Execution.fitted (call_training c)) as [e|err]; apply T.
  - apply run_fits_keeps_schema.
    destruct Hbuilt as (c0 & _ & H1 & H2 & H3 & _).
    unfold schema_set, instance_schema_set, schema_truthy. rewrite H1.
    subst n. rewrite H2. exact H3.
Qed.

(** *** The schema of the tuner *)

Lemma tuner_kept_set fr fr' :
  tuner_kept fr fr' -> tuner_schema_set (store fr) = true ->
  tuner_schema_set (store fr') = true.
Proof.
  intros (Hc & Ht) Hset. specialize (Ht Hset).
  unfold tuner_schema_set, schema_truthy in *. rewrite Ht.
  destruct (TunerState.agg_metrics (tuner_state (store fr))) as [lt|]; [|discriminate].
  destruct (heap (store fr) !! lt) as [c|] eqn:E; [|discriminate].
  rewrite (Hc _ _ E). exact Hset.
Qed.

#[local] Instance tuner_kept_preorder : PreOrder tuner_kept.
Proof.
  split.
  - intros fr. split; auto.
  - intros a b c Hab Hbc. split.
    + intros l x Hx. apply Hbc, Hab, Hx.
    + intros Hset. pose proof (tuner_kept_set _ _ Hab Hset) as Hb.
      destruct Hab as (_ & Ha), Hbc as (_ & Hc). rewrite (Hc Hb). apply Ha, Hset.
Qed.

Lemma keeps_schema_tuner_kept fr fr' : keeps_schema fr fr' -> tuner_kept fr fr'.
Proof.
  intros (H1 & H2 & _). split.
  - intros l c. rewrite H1. auto.
  - intros _. exact H2.
Qed.

Lemma respects_incl (P : Frame -> Prop) (R R' : Frame -> Frame -> Prop) {A} (c : M Frame A) :
  (forall fr fr', R fr fr' -> R' fr fr') -> respects P R c -> respects P R' c.
Proof. intros Hincl H fr HP. apply Hincl, H, HP. Qed.

Lemma init_metrics_tuner_kept : respects always tuner_kept init_metrics.
Proof.
  intros fr _. destruct (instance_schema_set fr) eqn:E.
  - rewrite (init_metrics_skips fr E). reflexivity.
  - destruct (init_metrics_builds fr E) as (_ & B & C & _). split; [|exact C].
    intros l c Hl. rewrite B; [exact Hl|]. eapply lookup_lt_Some, Hl.
Qed.

Lemma fit_tuner_kept x y epochs kw tr : respects always tuner_kept (fit x y epochs kw tr).
Proof.
  unfold fit.
  apply respects_bind; [exact _ | exact (always_stable _) | | intros _].
  { apply (respects_incl _ keeps_schema); [exact keeps_schema_tuner_kept|].
    apply collect_batch_size_keeps_schema. }
  apply respects_bind; [exact _ | exact (always_stable _) | | intros _].
  { apply (respects_incl _ keeps_schema); [exact keeps_schema_tuner_kept|].
    apply derive_training_size_keeps_schema. }
  apply respects_bind; [exact _ | exact (always_stable _) | | intros _].
  { apply (respects_incl _ keeps_schema); [exact keeps_schema_tuner_kept|].
    apply derive_validation_size_keeps_schema. }
  apply respects_bind; [exact _ | exact (always_stable _) | | intros _].
  { apply init_metrics_tuner_kept. }
  apply respects_bind; [exact _ | exact (always_stable _) | | intros _].
  { apply (respects_incl _ keeps_schema); [exact keeps_schema_tuner_kept|].
    apply announce_keeps_schema. }
  apply (respects_incl _ keeps_schema); [exact keeps_schema_tuner_kept|].
  apply run_execution_keeps_schema.
Qed.


(** *** A single name and a list of losses are registered *)

Lemma add_min_metric_keeps c k k' :
  dict_get (MetricsCollection.objects c) k = Some (min_metric k) ->
  dict_get (MetricsCollection.objects (MetricsCollection.add_metric (min_metric k') c)) k
  = Some (min_metric k).
Proof.
  intros H. unfold MetricsCollection.add_metric. cbn.
  destruct (decide (k' = k)) as [->|Hne].
  - apply dict_get_set_eq.
  - rewrite dict_get_set_ne by exact Hne. exact H.
Qed.

Lemma add_min_metric_ok method k fr fr' n c :
  schema_at n fr -> heap (store fr) !! n = Some c ->
  on_agg_metrics method (fun c => Ok (MetricsCollection.add_metric (min_metric k) c)) fr
  = (fr', Ok tt) ->
  self fr' = self fr /\
  heap (store fr') !! n = Some (MetricsCollection.add_metric (min_metric k) c).
Proof.
  intros Hn Hc H.
  pose proof (on_agg_metrics_only_cell n method
                (fun c => Ok (MetricsCollection.add_metric (min_metric k) c)) fr Hn)
    as (Hself & _).
  rewrite H in Hself. cbn [fst] in Hself. split; [exact Hself|].
  apply on_agg_metrics_ok in H. destruct H as (l & c0 & c' & Hl & Hc0 & Hf & Hc').
  rewrite Hn in Hl. inversion Hl; subst l. rewrite Hc in Hc0. inversion Hc0; subst c0.
  inversion Hf; subst c'. exact Hc'.
Qed.

(** One turn of the loop of lines 100-108, when it does not raise. *)
Lemma register_loss_spec n loss done fr fr' :
  let twins := PyNum.truthy (InstanceState.validation_size (Instance.state (self fr))) in
  schema_at n fr ->
  losses_registered n twins done fr ->
  register_loss loss fr = (fr', Ok tt) ->
  self fr' = self fr /\ losses_registered n twins (loss :: done) fr'.
Proof.
  intros twins Hn (c & Hc & Hdone) H. unfold register_loss in H.
  apply bind_ok in H. destruct H as (fr1 & [] & H1 & H).
  fold (min_metric loss) in H1.
  destruct (add_min_metric_ok _ _ _ _ _ _ Hn Hc H1) as (Hself1 & Hc1).
  apply bind_ok in H. destruct H as (fr2 & st & H2 & H).
  unfold get_state in H2. inversion H2; subst fr2 st; clear H2.
  rewrite Hself1 in H. fold twins in H.
  assert (Hn1 : schema_at n fr1) by (unfold schema_at; rewrite Hself1; exact Hn).
  destruct twins eqn:Et.
  - apply bind_ok in H. destruct H as (fr3 & name & H3 & H).
    apply lift_ok in H3. destruct H3 as (-> & Hname).
    fold (min_metric (IdName ("val_" ++ name))) in H.
    destruct (add_min_metric_ok _ _ _ _ _ _ Hn1 Hc1 H) as (Hself2 & Hc2).
    split; [congruence|]. eexists. split; [exact Hc2|].
    intros l Hl. apply elem_of_cons in Hl. destruct Hl as [->|Hl].
    + split.
      * apply add_min_metric_keeps. unfold MetricsCollection.add_metric. cbn.
        apply dict_get_set_eq.
      * intros _. exists name. split; [exact Hname|].
        unfold MetricsCollection.add_metric. cbn. apply dict_get_set_eq.
    + destruct (Hdone l Hl) as (D1 & D2). split.
      * apply add_min_metric_keeps, add_min_metric_keeps, D1.
      * intros _. destruct (D2 eq_refl) as (nm & Hnm & D3). exists nm.
        split; [exact Hnm|]. apply add_min_metric_keeps, add_min_metric_keeps, D3.
  - unfold ret in H. inversion H; subst fr'. split; [exact Hself1|].
    eexists. split; [exact Hc1|].
    intros l Hl. apply elem_of_cons in Hl. destruct Hl as [->|Hl].
    + split; [|discriminate]. unfold MetricsCollection.add_metric. cbn.
      apply dict_get_set_eq.
    + destruct (Hdone l Hl) as (D1 & _). split; [|discriminate].
      apply add_min_metric_keeps, D1.
Qed.

Lemma register_losses_spec n losses done fr fr' :
  let twins := PyNum.truthy (InstanceState.validation_size (Instance.state (self fr))) in
  schema_at n fr ->
  losses_registered n twins done fr ->
  for_each_ losses register_loss fr = (fr', Ok tt) ->
  self fr' = self fr /\ losses_registered n twins (rev losses ++ done)%list fr'.
Proof.
  revert done fr. induction losses as [|loss losses IH]; intros done fr twins Hn Hdone H.
  - cbn in H. inversion H; subst. split; [reflexivity|exact Hdone].
  - unfold for_each_ in H. cbn [for_each] in H.
    apply bind_ok in H. destruct H as (fr1 & [] & H1 & H).
    destruct (register_loss_spec n loss done fr fr1 Hn Hdone H1) as (Hself & Hreg).
    assert (Hn1 : schema_at n fr1) by (unfold schema_at; rewrite Hself; exact Hn).
    fold twins in Hreg.
    assert (Et : twins = PyNum.truthy
                           (InstanceState.validation_size (Instance.state (self fr1))))
      by (unfold twins; rewrite Hself; reflexivity).
    rewrite Et in Hreg.
    destruct (IH (loss :: done) fr1 Hn1 Hreg H) as (Hself' & Hreg').
    split; [congruence|]. rewrite <- Et in Hreg'.
    cbn [rev]. rewrite <- app_assoc. exact Hreg'.
Qed.
Lemma publish_schema_ok fr fr' :
  publish_schema fr = (fr', Ok tt) ->
  forall l c, heap (store fr) !! l = Some c -> heap (store fr') !! l = Some c.
Proof.
  unfold publish_schema. intros H.
  apply bind_ok in H. destruct H as (f0 & fr0 & H0 & H).
  unfold get in H0. inversion H0; subst f0 fr0; clear H0.
  destruct (InstanceState.agg_metrics (Instance.state (self fr))) as [n|]; [|discriminate].
  destruct (heap (store fr) !! n) as [c0|]; [|discriminate].
  apply bind_ok in H. destruct H as (f1 & [] & H1 & H).
  unfold set_self, modify in H1. inversion H1; subst f1; clear H1.
  apply bind_ok in H. destruct H as (f2 & fr2 & H2 & H).
  unfold get in H2. inversion H2; subst f2 fr2; clear H2.
  cbn [store self] in H.
  destruct (schema_truthy _ _).
  - unfold ret in H. inversion H; subst. cbn. auto.
  - unfold bind, alloc, set_store, modify in H. cbn in H. inversion H; subst. cbn.
    intros l c Hl. rewrite lookup_app_l; [exact Hl|]. eapply lookup_lt_Some, Hl.
Qed.

(** Lines 80-116, when they do not raise, have registered every loss
    of [losses]. *)
Lemma fill_schema_registers_losses n fr1 fr' losses :
  schema_at n fr1 ->
  (n < length (heap (store fr1)))%nat ->
  model_losses (Model.loss (Instance.model (self fr1))) = Ok losses ->
  fill_schema fr1 = (fr', Ok tt) ->
  losses_registered n (PyNum.truthy (validation_size_of fr1)) losses fr'.
Proof.
  intros Hn Hlen Hlosses H. unfold fill_schema in H.
  apply bind_ok in H. destruct H as (f0 & fr0 & H0 & H).
  unfold get in H0. inversion H0; subst f0 fr0; clear H0.
  apply bind_ok in H. destruct H as (fr2 & [] & H2 & H).
  pose proof (respects_for_each_ (schema_at n) (only_cell n) (schema_at_stable n)
                (Model.metrics (Instance.model (self fr1))) register_metric
                (register_metric_only_cell n) fr1 Hn) as O2.
  rewrite H2 in O2. cbn [fst] in O2. destruct O2 as (Hself2 & _ & Hlen2 & _).
  apply bind_ok in H. destruct H as (f3 & losses' & H3 & H).
  apply lift_ok in H3. destruct H3 as (-> & Hl'). rewrite Hlosses in Hl'.
  inversion Hl'; subst losses'; clear Hl'.
  apply bind_ok in H. destruct H as (fr3 & [] & H3 & H).
  assert (Hn2 : schema_at n fr2) by (unfold schema_at; rewrite Hself2; exact Hn).
  assert (Hcell : exists c2, heap (store fr2) !! n = Some c2).
  { apply lookup_lt_is_Some. lia. }
  destruct Hcell as (c2 & Hc2).
  assert (Hreg0 : losses_registered n
            (PyNum.truthy (InstanceState.validation_size (Instance.state (self fr2))))
            [] fr2).
  { exists c2. split; [exact Hc2|]. intros l Hl. inversion Hl. }
  destruct (register_losses_spec n losses [] fr2 fr3 Hn2 Hreg0 H3) as (Hself3 & Hreg).
  rewrite app_nil_r, Hself2 in Hreg. fold (validation_size_of fr1) in Hreg.
  apply bind_ok in H. destruct H as (f4 & fr4 & H4 & H).
  unfold get in H4. inversion H4; subst f4 fr4; clear H4.
  apply bind_ok in H. destruct H as (fr5 & [] & H5 & H).
  apply on_agg_metrics_ok in H5. destruct H5 as (l & c & c' & Hl & Hc & Hset & Hc').
  assert (Hn3 : schema_at n fr3) by (unfold schema_at; rewrite Hself3; exact Hn2).
  rewrite Hn3 in Hl. inversion Hl; subst l; clear Hl.
  destruct Hreg as (c3 & Hc3 & Hall). rewrite Hc in Hc3. inversion Hc3; subst c3.
  exists c'. split; [apply (publish_schema_ok _ _ H), Hc'|].
  assert (Hobj : MetricsCollection.objects c' = MetricsCollection.objects c).
  { unfold MetricsCollection.set_objective in Hset.
    destruct (dict_mem _ _); [|discriminate]. inversion Hset. reflexivity. }
  rewrite Hobj. intros loss Hin. apply Hall.
  rewrite list_elem_of_In, <- in_rev, <- list_elem_of_In. exact Hin.
Qed.

(** X1. A single named loss and a list of losses are registered by
    lines 95-108: after a call of [fit] that returns, on an instance
    that had no schema, the new collection holds each loss as a
    min-direction Metric, with its [val_] twin when the validation size
    is not zero. *)
Theorem named_and_listed_losses_are_registered x y epochs kw tr fr fr' e losses :
  fit x y epochs kw tr fr = (fr', Ok e) ->
  instance_schema_set fr = false ->
  model_losses (Model.loss (Instance.model (self fr))) = Ok losses ->
  losses_registered (length (heap (store fr))) (PyNum.truthy (validation_size_of fr'))
    losses fr'.
Proof.
  intros H Hunset Hlosses.
  destruct (fit_ok_inv _ _ _ _ _ _ _ _ H) as (frA & frB & SA & AA & Hinit & SB & _ & ZB).
  pose proof (init_metrics_keeps_sizes frA I) as ZA. rewrite Hinit in ZA. cbn [fst] in ZA.
  rewrite init_metrics_unset in Hinit by (rewrite (keeps_schema_unset _ _ SA); exact Hunset).
  destruct SA as (SA1 & _). destruct AA as (AA1 & _).
  assert (Hreg : losses_registered (length (heap (store frA)))
            (PyNum.truthy (validation_size_of (with_new_collection frA))) losses frB).
  { apply fill_schema_registers_losses.
    - reflexivity.
    - unfold with_new_collection. cbn. rewrite length_app. cbn. lia.
    - rewrite with_new_collection_model, AA1. exact Hlosses.
    - exact Hinit. }
  rewrite SA1 in Hreg.
  assert (Ev : validation_size_of fr' = validation_size_of (with_new_collection frA)).
  { unfold validation_size_of. destruct ZA as (_ & _ & ZA3), ZB as (_ & _ & ZB3).
    rewrite ZB3, ZA3. reflexivity. }
  rewrite Ev. destruct Hreg as (c & Hc & Hall). exists c. split; [|exact Hall].
  destruct SB as (SB1 & _). rewrite SB1. exact Hc.
Qed.

Lemma named_and_listed_losses_are_registered_witness :
  losses_registered 0%nat true [IdObj Examples.custom_loss]
    (fst (call_fit (Examples.first_call Examples.custom_model) Examples.custom_frame)).
Proof.
  refine (named_and_listed_losses_are_registered
            (SizedInput 100) VNone (VInt 2) (Examples.kw_split (1 # 4))
            (Examples.trains (Examples.execution Examples.custom_model 0 (1 # 2) (3 # 4)))
            Examples.custom_frame _
            (Examples.execution Examples.custom_model 0 (1 # 2) (3 # 4))
            [IdObj Examples.custom_loss] _ _ _).
  - vm_compute. reflexivity.
  - reflexivity.
  - reflexivity.
Defined.

(** ** Further facts about the sizes *)

(** X2. Without [validation_data] and [validation_split], the derived
    training size is the one the state holds when [fit] is over, and the
    validation size is zero, whether [fit] returns or raises later. *)
Lemma fit_sizes_without_validation fr x y epochs kw tr (len : Z) :
  kw_validation_data kw = None ->
  kw_validation_split kw = None ->
  x = SequenceInput len \/ x = SizedInput len ->
  let derived :=
    match x with
    | SequenceInput _ => (len + 2) * default 32 (kw_batch_size kw)
    | _ => len
    end in
  training_size_of (fst (fit x y epochs kw tr fr)) = PInt derived /\
  validation_size_of (fst (fit x y epochs kw tr fr)) = PInt 0.
Proof.
  intros Hvd Hvs Hx derived.
  set (rest := init_metrics ;; announce ;; run_execution tr).
  assert (Hrest : respects always keeps_sizes rest).
  { unfold rest.
    apply respects_bind; [exact _ | exact (always_stable _) | | intros _].
    { apply init_metrics_keeps_sizes. }
    apply respects_bind; [exact _ | exact (always_stable _) | | intros _].
    { apply announce_keeps_sizes. }
    apply run_execution_keeps_sizes. }
  assert (Hfit : forall fr0, fit x y epochs kw tr fr0
                 = (collect_batch_size kw ;; derive_training_size x ;;
                    derive_validation_size kw ;; rest) fr0) by reflexivity.
  rewrite Hfit. unfold training_size_of, validation_size_of.
  destruct Hx as [-> | ->];
    unfold collect_batch_size, derive_training_size, derive_validation_size;
    rewrite Hvd, Hvs;
    unfold bind at 1; cbn;
    match goal with
    | |- context [rest ?f] =>
        destruct (Hrest f I) as (_ & H2 & H3); rewrite H2, H3; split; reflexivity
    end.
Qed.

(** An [int] [validation_split] in [[0, 1)] is zero: nothing is split
    off. *)
Lemma validation_split_int_zero (fr : Frame) (kw : Kwargs) (T0 : Z) :
  training_size_of fr = PInt T0 ->
  kw_validation_data kw = None ->
  kw_validation_split kw = Some (PInt 0) ->
  derive_validation_size kw fr
  = ({| store := store fr;
        self := Instance.set_state
                  (InstanceState.set_training_size (PInt T0)
                     (InstanceState.set_validation_size (PInt 0)
                        (Instance.state (self fr))))
                  (self fr) |}, Ok tt).
Proof.
  intros HT0 Hvd Hvs. unfold training_size_of in HT0.
  destruct fr as [st [mo cs ex ist mc a1 a2 a3 a4 a5 a6]].
  destruct ist as [ix im ih ib its ivs iam iet]. cbn in HT0. subst its.
  unfold derive_validation_size. rewrite Hvd, Hvs. reflexivity.
Qed.

(** Beyond 2^53 the conversion of the training size to a float rounds,
    and the sum of the two sizes can exceed it: with [2^54 + 3] samples
    and a split of one half, the sizes add up to [2^54 + 4]. *)
Example validation_split_beyond_float_precision :
  let fr := fst ((collect_batch_size (Examples.kw_split (1 # 2)) ;;
                  derive_training_size (SizedInput (2 ^ 54 + 3))) Examples.frame0) in
  training_size_of (fst (derive_validation_size (Examples.kw_split (1 # 2)) fr))
  = PInt (2 ^ 53 + 2) /\
  validation_size_of (fst (derive_validation_size (Examples.kw_split (1 # 2)) fr))
  = PInt (2 ^ 53 + 2).
Proof. split; vm_compute; reflexivity. Qed.

(** ** Witnesses on the example data *)

Lemma dict_loss_is_never_registered_witness :
  is_ok (snd (call_fit (Examples.first_call Examples.dict_model) Examples.dict_frame)) = false.
Proof.
  apply (dict_loss_is_never_registered Examples.dict_frame [("out", VStr "mse")]);
    reflexivity.
Defined.

(** On that input the exception is the one of line 94, and the new
    collection holds the metrics of the model and no loss. *)
Example dict_loss_raises_unbound_local :
  snd (call_fit (Examples.first_call Examples.dict_model) Examples.dict_frame)
  = Raise (UnboundLocalError "losses") /\
  heap (store (fst (call_fit (Examples.first_call Examples.dict_model) Examples.dict_frame)))
  = [MetricsCollection.from_config
       [{| cfg_name := IdName "accuracy"; cfg_direction := Max; cfg_objective := false |};
        {| cfg_name := IdName "val_accuracy"; cfg_direction := Max; cfg_objective := false |}]].
Proof. split; vm_compute; reflexivity. Qed.

Lemma schema_is_built_once_initialised_witness :
  snd (call_fit (Examples.first_call Examples.model) Examples.frame0)
  = Execution.fitted (call_training (Examples.first_call Examples.model)) /\
  (exists col,
      heap (store Examples.frame0) !! 0%nat = None /\
      InstanceState.agg_metrics
        (Instance.state
           (self (fst (call_fit (Examples.first_call Examples.model) Examples.frame0))))
      = Some 0%nat /\
      heap (store (fst (call_fit (Examples.first_call Examples.model) Examples.frame0)))
        !! 0%nat = Some col /\
      MetricsCollection.truthy col = true /\
      Instance.metrics_config
        (self (fst (call_fit (Examples.first_call Examples.model) Examples.frame0)))
      = Some (MetricsCollection.to_config col)) /\
  keeps_schema
    (fst (call_fit (Examples.first_call Examples.model) Examples.frame0))
    (run_fits [Examples.second_call Examples.model; Examples.third_call Examples.model]
       (fst (call_fit (Examples.first_call Examples.model) Examples.frame0))).
Proof.
  apply (proj2 (schema_is_built_once_initialised Examples.frame0
                  (Examples.first_call Examples.model)
                  [Examples.second_call Examples.model; Examples.third_call Examples.model]
                  (new_instance_has_no_schema Examples.store0 (VInt 0) Examples.model
                     VNone VNone))).
  vm_compute. reflexivity.
Defined.

(** A first call whose training fails has built the schema all the
    same, and a first call that fails before line 77 leaves it to the
    next one. *)
Example schema_is_built_though_training_fails :
  let failing :=
    {| call_x := SizedInput 100; call_y := VNone; call_epochs := VInt 2;
       call_kwargs := Examples.kw_split (1 # 4);
       call_training :=
         {| Execution.created := Examples.execution Examples.model 0 (1 # 2) (3 # 4);
            Execution.fitted := Raise (TrainingError "interrupted") |} |} in
  let fr1 := fst (call_fit failing Examples.frame0) in
  snd (call_fit failing Examples.frame0) = Raise (TrainingError "interrupted") /\
  instance_schema_set fr1 = true /\
  Instance.metrics_config (self fr1)
  = option_map MetricsCollection.to_config (heap (store fr1) !! 0%nat) /\
  Instance.metrics_config (self fr1) <> None.
Proof. repeat split; try (vm_compute; reflexivity). vm_compute. discriminate. Qed.

Example schema_is_built_by_a_later_call :
  let fr1 := fst (call_fit (Examples.third_call Examples.model) Examples.frame0) in
  let fr2 := fst (call_fit (Examples.first_call Examples.model) fr1) in
  is_ok (snd (call_fit (Examples.third_call Examples.model) Examples.frame0)) = false /\
  instance_schema_set fr1 = false /\
  Instance.metrics_config (self fr1) = None /\
  is_ok (snd (call_fit (Examples.first_call Examples.model) fr1)) = true /\
  instance_schema_set fr2 = true /\
  Instance.metrics_config (self fr2) <> None.
Proof. repeat split; try (vm_compute; reflexivity). vm_compute. discriminate. Qed.


(** ** [record_results], were it to run *)

(** *** The loop over the executions *)

Lemma dd_append_pair (em : ExecMetrics) (f g : string -> list Q) (k : string) (v w : Q) :
  holds_values em f g ->
  holds_values (dd_append (dd_append em k "min" v) k "max" w)
    (fun m => if decide (m = k) then (f m ++ [v])%list else f m)
    (fun m => if decide (m = k) then (g m ++ [w])%list else g m).
Proof.
  intros (Hnd & H). split.
  - unfold dd_append. apply dict_keys_set_NoDup, dict_keys_set_NoDup, Hnd.
  - intros m. destruct (H m) as (Hlen & Hget). destruct (decide (m = k)) as [E|NE].
    + subst m. split; [rewrite !length_app, Hlen; reflexivity|].
      unfold dd_append at 1. rewrite dict_get_set_eq.
      unfold dd_append. rewrite dict_get_set_eq. rewrite Hget.
      destruct (f k) as [|a fk] eqn:Ef.
      * destruct (g k); [|discriminate Hlen]. reflexivity.
      * cbn. reflexivity.
    + split; [exact Hlen|].
      unfold dd_append. rewrite !dict_get_set_ne by congruence. exact Hget.
Qed.

Lemma dict_get_app_fresh {V} (pre : list (string * V)) k v post :
  k ∉ dict_keys pre -> dict_get (pre ++ (k, v) :: post)%list k = Some v.
Proof.
  unfold dict_keys. induction pre as [|[k0 v0] pre IH]; cbn.
  - intros _. destruct (decide (k = k)); congruence.
  - rewrite not_elem_of_cons. intros [Hne Hout].
    destruct (decide (k = k0)); [congruence|]. apply IH, Hout.
Qed.

Lemma holds_values_ext em f g f' g' :
  (forall m, f m = f' m) -> (forall m, g m = g' m) ->
  holds_values em f g -> holds_values em f' g'.
Proof.
  intros Hf Hg (Hnd & H). split; [exact Hnd|].
  intros m. rewrite <- Hf, <- Hg. apply H.
Qed.

(** Lines 154-158, for an execution whose metric names are distinct. *)
Lemma collect_metrics_spec (e : Execution.t) pre items em f g :
  Execution.metrics e = (pre ++ items)%list ->
  NoDup (dict_keys (pre ++ items)%list) ->
  holds_values em f g ->
  exists em',
    collect_metrics e items em = Ok em' /\
    holds_values em'
      (fun m => (f m ++ recorded Execution.metric_min m items)%list)
      (fun m => (g m ++ recorded Execution.metric_max m items)%list).
Proof.
  revert pre em f g. induction items as [|[k r] items IH]; intros pre em f g He Hnd Hv.
  - exists em. split; [reflexivity|].
    eapply holds_values_ext; [| |exact Hv]; intros m; cbn; rewrite app_nil_r; reflexivity.
  - assert (Hk : (k ∉ dict_keys pre) /\ (k ∉ dict_keys items)).
    { unfold dict_keys in *. rewrite map_app in Hnd. cbn in Hnd.
      apply NoDup_app in Hnd. destruct Hnd as (_ & Hdisj & Hnd2).
      apply NoDup_cons in Hnd2. destruct Hnd2 as (Hout & _). split; [|exact Hout].
      intros Hin. apply (Hdisj k Hin). left. }
    destruct Hk as (Hpre & Hitems).
    cbn [collect_metrics]. rewrite He, (dict_get_app_fresh pre k r items Hpre).
    destruct (IH (pre ++ [(k, r)])%list _ _ _
                 ltac:(rewrite He, <- app_assoc; reflexivity)
                 ltac:(rewrite <- app_assoc; exact Hnd)
                 (dd_append_pair em f g k (Execution.metric_min r)
                    (Execution.metric_max r) Hv)) as (em' & Hc & Hv').
    exists em'. split; [exact Hc|].
    eapply holds_values_ext; [| |exact Hv']; intros m; cbn beta;
      unfold recorded; cbn [dict_get];
      (destruct (decide (m = k)) as [E|NE];
       [subst m; apply dict_get_keys in Hitems; rewrite Hitems, app_nil_r; reflexivity
       |reflexivity]).
Qed.

Lemma record_execution_ok ke acc fr fr' acc' :
  record_execution ke acc fr = (fr', Ok acc') ->
  exists em' info,
    collect_metrics (snd ke) (Execution.metrics (snd ke)) (fst acc) = Ok em' /\
    execution_info (snd ke) = Ok info /\
    acc' = (em', (snd acc ++ [info])%list).
Proof.
  unfold record_execution. intros H.
  apply bind_ok in H. destruct H as (f1 & em' & H1 & H).
  apply lift_ok in H1. destruct H1 as (-> & Hem).
  apply bind_ok in H. destruct H as (f2 & info & H2 & H).
  apply lift_ok in H2. destruct H2 as (-> & Hinfo).
  apply bind_ok in H. destruct H as (f3 & [] & _ & H).
  apply bind_ok in H. destruct H as (f4 & fr4 & _ & H).
  destruct (Instance.clear_gpu_memory (self fr4)); [|discriminate].
  inversion H; subst. exists em', info. repeat split; assumption.
Qed.

(** Lines 151-178, for executions whose metric names are distinct: the
    mins and the maxes of each metric are appended in the order of the
    executions, and one record is appended per execution. *)
Lemma record_loop_spec execs em infos fr fr' em' infos' f g :
  for_each execs record_execution (em, infos) fr = (fr', Ok (em', infos')) ->
  Forall (fun ke => NoDup (dict_keys (Execution.metrics (snd ke)))) execs ->
  holds_values em f g ->
  holds_values em'
    (fun m => (f m ++ values_of Execution.metric_min m execs)%list)
    (fun m => (g m ++ values_of Execution.metric_max m execs)%list) /\
  exists vs,
    Forall2 (fun ke v => execution_info (snd ke) = Ok v) execs vs /\
    infos' = (infos ++ vs)%list.
Proof.
  revert em infos fr f g.
  induction execs as [|ke execs IH]; intros em infos fr f g H Hnd Hv.
  - cbn in H. inversion H; subst. split.
    + eapply holds_values_ext; [| |exact Hv]; intros m; cbn; rewrite app_nil_r; reflexivity.
    + exists []. split; [constructor|]. rewrite app_nil_r. reflexivity.
  - cbn [for_each] in H. apply bind_ok in H. destruct H as (fr1 & acc1 & H1 & H).
    apply record_execution_ok in H1. destruct H1 as (em1 & info & Hc & Hi & ->).
    cbn [fst snd] in *.
    apply Forall_cons in Hnd. destruct Hnd as (Hnd1 & Hnd).
    destruct (collect_metrics_spec (snd ke) [] (Execution.metrics (snd ke)) em f g
                eq_refl Hnd1 Hv) as (em1' & Hc' & Hv1).
    rewrite Hc in Hc'. inversion Hc'; subst em1'.
    destruct (IH _ _ _ _ _ H Hnd Hv1) as (Hv' & vs & Hvs & ->).
    split.
    + eapply holds_values_ext; [| |exact Hv']; intros m; cbn [values_of];
        rewrite app_assoc; reflexivity.
    + exists (info :: vs). split; [constructor; assumption|].
      rewrite <- app_assoc. reflexivity.
Qed.

(** *** Lines 184-192, were [np] bound *)

Lemma aggregate_directions_pair G a b ds :
  aggregate_directions G [("min", a); ("max", b)] [] = Ok ds ->
  exists sa sb,
    statistics G a = Ok sa /\ statistics G b = Ok sb /\
    ds = [("min", sa); ("max", sb)].
Proof.
  cbn [aggregate_directions]. intros H.
  apply rbind_ok in H. destruct H as (sa & Ha & H).
  apply rbind_ok in H. destruct H as (sb & Hb & H).
  inversion H; subst. exists sa, sb. repeat split; assumption.
Qed.

Lemma aggregate_spec G em keys acc metrics :
  aggregate G em keys acc = Ok metrics ->
  NoDup keys ->
  (forall k, k ∈ keys -> dict_get acc k = None) ->
  forall k,
    (k ∈ keys ->
     exists inner ds,
       dict_get em k = Some inner /\
       aggregate_directions G inner [] = Ok ds /\
       dict_get metrics k = Some ds) /\
    (k ∉ keys -> dict_get metrics k = dict_get acc k).
Proof.
  revert acc. induction keys as [|k0 keys IH]; intros acc H Hnd Hfresh k.
  - cbn in H. inversion H; subst. split; [intros Hin; inversion Hin|reflexivity].
  - cbn [aggregate] in H.
    destruct (dict_get em k0) as [inner|] eqn:Ek0; [|discriminate].
    apply rbind_ok in H. destruct H as (ds & Hds & H).
    rewrite (Hfresh k0) in Hds by left. cbn [default] in Hds.
    apply NoDup_cons in Hnd. destruct Hnd as (Hout & Hnd).
    assert (Hfresh' : forall k, k ∈ keys -> dict_get (dict_set acc k0 ds) k = None).
    { intros k' Hin. rewrite dict_get_set_ne by (intros ->; contradiction).
      apply Hfresh. right. exact Hin. }
    destruct (IH _ H Hnd Hfresh' k) as (IH1 & IH2).
    split.
    + rewrite elem_of_cons. intros [->|Hin]; [|exact (IH1 Hin)].
      exists inner, ds. split; [exact Ek0|]. split; [exact Hds|].
      destruct (IH _ H Hnd Hfresh' k0) as (_ & IH0).
      rewrite (IH0 Hout). apply dict_get_set_eq.
    + rewrite not_elem_of_cons. intros (Hne & Hout').
      rewrite (IH2 Hout'). apply dict_get_set_ne. congruence.
Qed.

(** *** Lines 180-198, were they reached *)

Lemma setitem_subscript_eq v k x v' : setitem v k x = Ok v' -> subscript v' k = Ok x.
Proof.
  destruct v; try discriminate. cbn. intros H. inversion H; subst. cbn.
  rewrite dict_get_set_eq. reflexivity.
Qed.

Lemma setitem_subscript_ne v k x v' k' :
  setitem v k x = Ok v' -> k <> k' -> subscript v' k' = subscript v k'.
Proof.
  destruct v; try discriminate. cbn. intros H Hne. inversion H; subst. cbn.
  rewrite dict_get_set_ne by exact Hne. reflexivity.
Qed.

Lemma record_key_metric_absent metrics tm results :
  dict_get metrics (fst tm) = None -> record_key_metric metrics tm results = Ok results.
Proof. unfold record_key_metric. intros ->. reflexivity. Qed.

Lemma record_key_metric_present metrics name direction directions s results km :
  dict_get metrics name = Some directions ->
  dict_get directions direction = Some s ->
  subscript results "key_metrics" = Ok (VDict km) ->
  exists results',
    record_key_metric metrics (name, direction) results = Ok results' /\
    subscript results' "key_metrics"
    = Ok (VDict (dict_set km name (VFloat (stat_median s)))) /\
    forall k, k <> "key_metrics" -> subscript results' k = subscript results k.
Proof.
  intros Hm Hd Hkm. unfold record_key_metric. cbn [fst snd]. rewrite Hm, Hd, Hkm.
  cbn [rbind setitem].
  destruct results as [| | | | |?|d|?]; try discriminate. cbn [setitem].
  eexists. split; [reflexivity|]. split.
  - cbn. rewrite dict_get_set_eq. reflexivity.
  - intros k Hk. cbn. rewrite dict_get_set_ne by congruence. reflexivity.
Qed.

Lemma record_key_metric_ok metrics tm results results' km :
  record_key_metric metrics tm results = Ok results' ->
  subscript results "key_metrics" = Ok (VDict km) ->
  subscript results' "key_metrics" = Ok (VDict (project_key_metrics metrics [tm] km)) /\
  forall k, k <> "key_metrics" -> subscript results' k = subscript results k.
Proof.
  intros H Hkm. unfold project_key_metrics. cbn [fold_left].
  unfold record_key_metric in H.
  destruct (dict_get metrics (fst tm)) as [directions|] eqn:Em.
  2:{ inversion H; subst. split; [exact Hkm|reflexivity]. }
  destruct (dict_get directions (snd tm)) as [s|] eqn:Ed; [|discriminate].
  destruct (record_key_metric_present metrics (fst tm) (snd tm) directions s results km
              Em Ed Hkm) as (r & Hr & Hr1 & Hr2).
  unfold record_key_metric in Hr. cbn [fst snd] in Hr. rewrite Em, Ed in Hr.
  rewrite H in Hr. inversion Hr; subst. split; assumption.
Qed.

Lemma project_key_metrics_cons metrics tm tms km :
  project_key_metrics metrics (tm :: tms) km
  = project_key_metrics metrics tms (project_key_metrics metrics [tm] km).
Proof. reflexivity. Qed.

Lemma record_key_metrics_ok metrics tms results results' km :
  record_key_metrics metrics tms results = Ok results' ->
  subscript results "key_metrics" = Ok (VDict km) ->
  subscript results' "key_metrics" = Ok (VDict (project_key_metrics metrics tms km)) /\
  forall k, k <> "key_metrics" -> subscript results' k = subscript results k.
Proof.
  revert results km. induction tms as [|tm tms IH]; intros results km H Hkm.
  - cbn in H. inversion H; subst. split; [exact Hkm|reflexivity].
  - cbn [record_key_metrics] in H. apply rbind_ok in H. destruct H as (r1 & H1 & H).
    destruct (record_key_metric_ok _ _ _ _ _ H1 Hkm) as (K1 & O1).
    destruct (IH _ _ H K1) as (K & O).
    rewrite project_key_metrics_cons. split; [exact K|].
    intros k Hk. rewrite (O k Hk). apply O1, Hk.
Qed.

(** A name without statistics is skipped: its entry is left as it was. *)
Lemma project_key_metrics_absent metrics tms km name :
  dict_get metrics name = None ->
  dict_get (project_key_metrics metrics tms km) name = dict_get km name.
Proof.
  intros Hnone. revert km. induction tms as [|tm tms IH]; intros km; [reflexivity|].
  rewrite project_key_metrics_cons, IH. unfold project_key_metrics. cbn [fold_left].
  destruct (dict_get metrics (fst tm)) as [directions|] eqn:Em; [|reflexivity].
  destruct (dict_get directions (snd tm)); [|reflexivity].
  apply dict_get_set_ne. intros E. rewrite E in Em. congruence.
Qed.

(** A configured pair with statistics has its median copied, when its
    name is configured once. *)
Lemma project_key_metrics_present metrics tms km name direction directions s :
  NoDup (map fst tms) ->
  (name, direction) ∈ tms ->
  dict_get metrics name = Some directions ->
  dict_get directions direction = Some s ->
  dict_get (project_key_metrics metrics tms km) name = Some (VFloat (stat_median s)).
Proof.
  intros Hnd Hin Hm Hd. revert km.
  induction tms as [|tm tms IH]; intros km; [inversion Hin|].
  cbn [map] in Hnd. apply NoDup_cons in Hnd. destruct Hnd as (Hout & Hnd).
  rewrite project_key_metrics_cons.
  apply elem_of_cons in Hin. destruct Hin as [<-|Hin].
  - assert (Hrest : forall km', dict_get (project_key_metrics metrics tms km') name
                                = dict_get km' name).
    { clear IH. intros km'. revert km'. cbn [fst] in Hout.
      induction tms as [|tm tms IH]; intros km'; [reflexivity|].
      cbn [map] in Hout. apply not_elem_of_cons in Hout. destruct Hout as (Hne & Hout).
      apply NoDup_cons in Hnd. destruct Hnd as (_ & Hnd).
      rewrite project_key_metrics_cons, (IH Hout Hnd).
      unfold project_key_metrics. cbn [fold_left].
      destruct (dict_get metrics (fst tm)); [|reflexivity].
      destruct (dict_get _ (snd tm)); [|reflexivity].
      apply dict_get_set_ne. congruence. }
    rewrite Hrest. unfold project_key_metrics. cbn [fold_left fst snd].
    rewrite Hm, Hd. apply dict_get_set_eq.
  - apply IH; assumption.
Qed.

(** *** [record_results], were it to return *)

Lemma record_results_ok_inv G fr fr' results :
  record_results G fr = (fr', Ok results) ->
  exists info md kms em infos metrics r1 r2 r3 fr1,
    Instance.get_instance_info (self fr) = Some info /\
    Instance.meta_data (self fr) = Some md /\
    Instance.key_metrics (self fr) = Some kms /\
    for_each (Instance.executions (self fr)) record_execution ([], []) fr
    = (fr1, Ok (em, infos)) /\
    setitem info "executions" (VList infos) = Ok r1 /\
    setitem r1 "meta_data" md = Ok r2 /\
    aggregate G em (dict_keys em) [] = Ok metrics /\
    setitem r2 "metrics" (metrics_value metrics) = Ok r3 /\
    record_key_metrics metrics kms r3 = Ok results.
Proof.
  unfold record_results. intros H.
  apply bind_ok in H. destruct H as (f0 & fr0 & H0 & H).
  unfold get in H0. inversion H0; subst f0 fr0; clear H0.
  apply bind_ok in H. destruct H as (f1 & info & H1 & H).
  destruct (Instance.get_instance_info (self fr)) as [info0|] eqn:Einfo; [|discriminate].
  inversion H1; subst f1 info; clear H1.
  apply bind_ok in H. destruct H as (f2 & md & H2 & H).
  destruct (Instance.meta_data (self fr)) as [md0|] eqn:Emd; [|discriminate].
  inversion H2; subst f2 md; clear H2.
  apply bind_ok in H. destruct H as (f3 & server & H3 & H).
  apply lift_ok in H3. destruct H3 as (-> & _).
  apply bind_ok in H. destruct H as (f4 & local_dir & H4 & H).
  apply lift_ok in H4. destruct H4 as (-> & _).
  apply bind_ok in H. destruct H as (f5 & [em infos] & Hloop & H).
  apply bind_ok in H. destruct H as (f6 & r1 & H6 & H).
  apply lift_ok in H6. destruct H6 as (-> & Hr1).
  apply bind_ok in H. destruct H as (f7 & r2 & H7 & H).
  apply lift_ok in H7. destruct H7 as (-> & Hr2).
  apply bind_ok in H. destruct H as (f8 & metrics & H8 & H).
  apply lift_ok in H8. destruct H8 as (-> & Hagg).
  apply bind_ok in H. destruct H as (f9 & r3 & H9 & H).
  apply lift_ok in H9. destruct H9 as (-> & Hr3).
  apply bind_ok in H. destruct H as (f10 & kms & H10 & H).
  destruct (Instance.key_metrics (self fr)) as [kms0|] eqn:Ekms; [|discriminate].
  inversion H10; subst f10 kms; clear H10.
  apply bind_ok in H. destruct H as (f11 & r4 & H11 & H).
  apply lift_ok in H11. destruct H11 as (-> & Hr4).
  apply bind_ok in H. destruct H as (f12 & [] & _ & H).
  apply bind_ok in H. destruct H as (f13 & [] & _ & H).
  apply bind_ok in H. destruct H as (f14 & [] & _ & H).
  unfold ret in H. inversion H; subst.
  exists info0, md0, kms0, em, infos, metrics, r1, r2, r3, f5.
  cbn [fst snd] in *. repeat split; assumption.
Qed.

Lemma record_key_metric_other metrics tm results results' k :
  record_key_metric metrics tm results = Ok results' ->
  k <> "key_metrics" -> subscript results' k = subscript results k.
Proof.
  unfold record_key_metric. intros H Hk.
  destruct (dict_get metrics (fst tm)) as [directions|]; [|inversion H; reflexivity].
  destruct (dict_get directions (snd tm)) as [s|]; [|discriminate].
  apply rbind_ok in H. destruct H as (km & _ & H).
  apply rbind_ok in H. destruct H as (km' & _ & H).
  apply (setitem_subscript_ne _ _ _ _ _ H). congruence.
Qed.

Lemma record_key_metrics_other metrics tms results results' :
  record_key_metrics metrics tms results = Ok results' ->
  forall k, k <> "key_metrics" -> subscript results' k = subscript results k.
Proof.
  revert results. induction tms as [|tm tms IH]; intros results H k Hk.
  - cbn in H. inversion H; reflexivity.
  - cbn [record_key_metrics] in H. apply rbind_ok in H. destruct H as (r1 & H1 & H).
    rewrite (IH _ H k Hk). apply (record_key_metric_other _ _ _ _ _ H1 Hk).
Qed.

Lemma stats_value_inj s1 s2 : stats_value s1 = stats_value s2 -> s1 = s2.
Proof. destruct s1, s2. unfold stats_value. cbn. intros H. inversion H. reflexivity. Qed.

Lemma dict_values_inj {A} (f : A -> pyval) (d1 d2 : list (string * A)) :
  (forall a b, f a = f b -> a = b) ->
  map (fun ka : string * A => (fst ka, f (snd ka))) d1
  = map (fun ka : string * A => (fst ka, f (snd ka))) d2 ->
  d1 = d2.
Proof.
  intros Hf. revert d2. induction d1 as [|[k1 a1] d1 IH]; intros [|[k2 a2] d2] H;
    cbn in H; try discriminate H.
  - reflexivity.
  - inversion H as [[Hk Ha Hrest]]. apply Hf in Ha. subst.
    f_equal. apply IH, Hrest.
Qed.

Lemma metrics_value_inj m1 m2 : metrics_value m1 = metrics_value m2 -> m1 = m2.
Proof.
  unfold metrics_value. intros H. inversion H as [H']. clear H.
  apply (dict_values_inj
           (fun d => VDict (map (fun ds : string * Stats => (fst ds, stats_value (snd ds))) d)));
    [|exact H'].
  intros a b Hab. inversion Hab as [Hab']. clear Hab.
  apply (dict_values_inj stats_value); [exact stats_value_inj|exact Hab'].
Qed.

Lemma holds_values_empty : holds_values [] (fun _ => []) (fun _ => []).
Proof. split; [constructor|]. intros m. split; reflexivity. Qed.

(** X3. A record that [record_results] returns is the one lines
    149-198 build: one entry per execution, in order, made of its epoch
    count, history, reported loss, loss weights and metadata; for every
    metric an execution recorded, the four statistics of the list of
    per-execution mins and of the list of per-execution maxes; and the
    medians of the configured key metrics.  In the module as it is
    written no call returns. *)
Theorem record_results_ok_spec G fr fr' results :
  record_results G fr = (fr', Ok results) ->
  Forall (fun ke => NoDup (dict_keys (Execution.metrics (snd ke))))
         (Instance.executions (self fr)) ->
  let execs := Instance.executions (self fr) in
  (exists infos,
      subscript results "executions" = Ok (VList infos) /\
      length infos = length execs /\
      Forall2 (fun ke v => execution_info (snd ke) = Ok v) execs infos) /\
  (exists metrics,
      subscript results "metrics" = Ok (metrics_value metrics) /\
      forall metric,
        match values_of Execution.metric_min metric execs with
        | [] => dict_get metrics metric = None
        | _ =>
            exists smin smax,
              dict_get metrics metric = Some [("min", smin); ("max", smax)] /\
              statistics G (values_of Execution.metric_min metric execs) = Ok smin /\
              statistics G (values_of Execution.metric_max metric execs) = Ok smax
        end) /\
  (forall info kms km metrics,
      Instance.get_instance_info (self fr) = Some info ->
      Instance.key_metrics (self fr) = Some kms ->
      subscript info "key_metrics" = Ok (VDict km) ->
      subscript results "metrics" = Ok (metrics_value metrics) ->
      subscript results "key_metrics"
      = Ok (VDict (project_key_metrics metrics kms km))).
Proof.
  intros H Hnd execs.
  destruct (record_results_ok_inv _ _ _ _ H)
    as (info & md & kms & em & infos & metrics & r1 & r2 & r3 & fr1 &
        Hinfo & Hmd & Hkms & Hloop & Hr1 & Hr2 & Hagg & Hr3 & Hr4).
  destruct (record_loop_spec _ _ _ _ _ _ _ _ _ Hloop Hnd holds_values_empty)
    as ((HndK & Hem) & vs & Hvs & Hinfos).
  cbn [app] in Hinfos. subst infos.
  assert (Hother : forall k, k <> "key_metrics" -> subscript results k = subscript r3 k).
  { intros k Hk. apply (record_key_metrics_other _ _ _ _ Hr4). exact Hk. }
  split; [|split].
  - exists vs. split; [|split].
    + rewrite Hother by discriminate.
      rewrite (setitem_subscript_ne _ _ _ _ _ Hr3) by discriminate.
      rewrite (setitem_subscript_ne _ _ _ _ _ Hr2) by discriminate.
      apply (setitem_subscript_eq _ _ _ _ Hr1).
    + symmetry. eapply Forall2_length, Hvs.
    + exact Hvs.
  - exists metrics. split.
    + rewrite Hother by discriminate. apply (setitem_subscript_eq _ _ _ _ Hr3).
    + intros metric. destruct (Hem metric) as (Hlen & Hget). cbn [app] in Hlen, Hget.
      destruct (aggregate_spec _ _ _ _ _ Hagg HndK (fun _ _ => eq_refl) metric)
        as (Hin & Hout).
      fold execs in Hget, Hlen.
      destruct (values_of Execution.metric_min metric execs) as [|v mins] eqn:Emin.
      * cbn in Hget. apply dict_get_keys in Hget. rewrite (Hout Hget). reflexivity.
      * cbn [exec_entry] in Hget.
        assert (Hk : metric ∈ dict_keys em).
        { destruct (decide (metric ∈ dict_keys em)) as [Hk|Hk]; [exact Hk|].
          apply dict_get_keys in Hk. congruence. }
        destruct (Hin Hk) as (inner & ds & Hinner & Hds & Hm).
        rewrite Hget in Hinner. inversion Hinner; subst inner.
        destruct (aggregate_directions_pair _ _ _ _ Hds) as (sa & sb & Ha & Hb & ->).
        exists sa, sb. repeat split; assumption.
  - intros info' kms' km metrics' Hinfo' Hkms' Hkm Hmetrics'.
    rewrite Hinfo in Hinfo'. inversion Hinfo'; subst info'.
    rewrite Hkms in Hkms'. inversion Hkms'; subst kms'.
    assert (Hm : metrics_value metrics' = metrics_value metrics).
    { rewrite Hother in Hmetrics' by discriminate.
      rewrite (setitem_subscript_eq _ _ _ _ Hr3) in Hmetrics'. congruence. }
    assert (Hkm3 : subscript r3 "key_metrics" = Ok (VDict km)).
    { rewrite (setitem_subscript_ne _ _ _ _ _ Hr3) by discriminate.
      rewrite (setitem_subscript_ne _ _ _ _ _ Hr2) by discriminate.
      rewrite (setitem_subscript_ne _ _ _ _ _ Hr1) by discriminate.
      exact Hkm. }
    destruct (record_key_metrics_ok _ _ _ _ _ Hr4 Hkm3) as (K & _).
    rewrite K. f_equal. f_equal.
    apply metrics_value_inj in Hm. subst metrics'. reflexivity.
Qed.

Lemma execution_info_fields e v :
  execution_info e = Ok v ->
  exists m,
    Execution.model e = Some m /\
    subscript v "num_epochs" = Ok (Execution.num_epochs e) /\
    subscript v "history" = Ok (Execution.history e) /\
    subscript v "loss_fn"
    = Ok (if json_serializable (Model.loss_value (Model.loss m))
          then Model.loss_value (Model.loss m) else VStr "CUSTOM") /\
    subscript v "loss_weights" = Ok (Model.loss_weights m) /\
    subscript v "meta_data" = Ok (Execution.meta_data e).
Proof.
  unfold execution_info, reported_loss_fns.
  destruct (Execution.model e) as [m|]; [|discriminate].
  intros H. inversion H; subst. exists m. repeat split; reflexivity.
Qed.

(** With every missing name supplied, the method returns, so the
    hypothesis of [record_results_ok_spec] can be met. *)
Lemma record_results_ok_spec_witness :
  exists infos,
    subscript (Examples.record_of Examples.complete_globals Examples.completed)
              "executions" = Ok (VList infos) /\
    length infos = length (Instance.executions (self Examples.completed)) /\
    Forall2 (fun ke v => execution_info (snd ke) = Ok v)
            (Instance.executions (self Examples.completed)) infos.
Proof.
  refine (proj1 (record_results_ok_spec Examples.complete_globals Examples.completed
                   (fst (record_results Examples.complete_globals Examples.completed))
                   (Examples.record_of Examples.complete_globals Examples.completed)
                   _ _)).
  - vm_compute. reflexivity.
  - vm_compute. repeat constructor; intros H; inversion H.
Defined.

(** On the example whose loss JSON cannot encode, the completed module
    would record the sentinel for both executions, and the statistics
    of the two mins and of the two maxes of [loss]. *)
Example completed_custom_record :
  subscript (Examples.record_of Examples.complete_globals Examples.completed_custom)
            "executions"
  = Ok (VList [VDict [("num_epochs", VInt 2);
                      ("history", VDict [("loss", VList [VFloat (3 # 4); VFloat (1 # 2)])]);
                      ("loss_fn", VStr "CUSTOM"); ("loss_weights", VNone);
                      ("meta_data", VDict [])];
               VDict [("num_epochs", VInt 2);
                      ("history", VDict [("loss", VList [VFloat 1; VFloat (1 # 4)])]);
                      ("loss_fn", VStr "CUSTOM"); ("loss_weights", VNone);
                      ("meta_data", VDict [])]]) /\
  values_of Execution.metric_min "loss"
    (Instance.executions (self Examples.completed_custom)) = [1 # 2; 1 # 4]%Q /\
  values_of Execution.metric_max "loss"
    (Instance.executions (self Examples.completed_custom)) = [3 # 4; 1]%Q.
Proof. repeat split; vm_compute; reflexivity. Qed.

(** ** [record_results] as it is written *)

Lemma record_results_without_info (G : Globals) (fr : Frame) :
  Instance.get_instance_info (self fr) = None ->
  record_results G fr = (fr, Raise (AttributeError "_Instance__get_instance_info")).
Proof.
  intros H. unfold record_results. unfold bind at 1. unfold get at 1. cbn beta iota.
  rewrite H. reflexivity.
Qed.

Lemma run_methods_keeps_info (G : Globals) (ms : list MethodCall) (fr : Frame) :
  Instance.get_instance_info (self fr) = None ->
  Instance.get_instance_info (self (run_methods G ms fr)) = None.
Proof.
  revert fr. induction ms as [|m ms IH]; intros fr H; cbn [run_methods fold_left].
  - exact H.
  - apply IH. destruct m as [c|].
    + pose proof (fit_keeps_attributes (call_x c) (call_y c) (call_epochs c)
                    (call_kwargs c) (call_training c) fr I) as (_ & _ & _ & _ & K & _).
      unfold call_fit. rewrite K. exact H.
    + rewrite (record_results_without_info G fr H). exact H.
Qed.

(** C10. On an instance made by [__init__] and used through the methods
    of the class only, in the module as it is written, every call of
    [record_results] raises at line 145, where it looks up the
    attribute [_Instance__get_instance_info] that nothing defines; the
    frame is left as it was: no file operation, nothing sent, no
    [results] attribute. *)
Theorem record_results_always_raises (s : Store) (idx : pyval) (model : Model.t)
    (hparams cloudservice : pyval) (history : list MethodCall) :
  let fr := run_methods module_globals history
              {| store := s; self := Instance_init idx model hparams cloudservice |} in
  record_results module_globals fr
  = (fr, Raise (AttributeError "_Instance__get_instance_info")).
Proof.
  intros fr. apply record_results_without_info.
  apply run_methods_keeps_info. reflexivity.
Qed.

(** C6. On an instance with two executions, [record_results] raises at
    line 145 and records no statistic.  Were the instance given the
    missing attributes, the aggregation of line 188 would raise in its
    turn, [np] being unbound in the module. *)
Theorem aggregation_is_never_reached :
  record_results module_globals Examples.trained
  = (Examples.trained, Raise (AttributeError "_Instance__get_instance_info")) /\
  snd (record_results module_globals
         (Examples.with_attributes (Some Examples.meta) None None
            (Some Examples.info) (Some tt) Examples.trained))
  = Raise (NameError "np").
Proof. split; vm_compute; reflexivity. Qed.

(** C7. On an instance whose executions have a loss that JSON cannot
    encode, [record_results] raises at line 145 and builds no record.
    Were [__get_instance_info] and [meta_data] there, the loop would
    raise at line 178 after its first turn, [_clear_gpu_memory] being
    undefined, and again no record would be built. *)
Theorem custom_loss_record_is_never_built :
  record_results module_globals Examples.trained_custom
  = (Examples.trained_custom, Raise (AttributeError "_Instance__get_instance_info")) /\
  snd (record_results module_globals
         (Examples.with_attributes (Some Examples.meta) None None
            (Some Examples.info) None Examples.trained_custom))
  = Raise (AttributeError "_clear_gpu_memory") /\
  Instance.results
    (self (fst (record_results module_globals
                  (Examples.with_attributes (Some Examples.meta) None None
                     (Some Examples.info) None Examples.trained_custom))))
  = None.
Proof. repeat split; vm_compute; reflexivity. Qed.

(** C8. On an instance with two executions, [record_results] raises at
    line 145 and copies no key metric.  Were everything before line 196
    in place, [np] included, the loop over [self.key_metrics] would
    raise, the attribute being assigned nowhere. *)
Theorem key_metrics_are_never_copied :
  record_results module_globals Examples.trained
  = (Examples.trained, Raise (AttributeError "_Instance__get_instance_info")) /\
  snd (record_results Examples.complete_globals
         (Examples.with_attributes (Some Examples.meta) None None
            (Some Examples.info) (Some tt) Examples.trained))
  = Raise (AttributeError "key_metrics").
Proof. split; vm_compute; reflexivity. Qed.

(** C9. On an instance with two executions, [record_results] produces
    no record, hence no list of executions: it raises at line 145, the
    [results] attribute stays unset and no file is touched. *)
Theorem executions_list_is_never_produced :
  length (Instance.executions (self Examples.trained)) = 2%nat /\
  record_results module_globals Examples.trained
  = (Examples.trained, Raise (AttributeError "_Instance__get_instance_info")) /\
  Instance.results (self (fst (record_results module_globals Examples.trained))) = None /\
  files (store (fst (record_results module_globals Examples.trained))) = [].
Proof. repeat split; vm_compute; reflexivity. Qed.

(** * Further properties of the class *)

(** ** Sequencing *)

Lemma bind_raise {S A B} (c : M S A) (k : A -> M S B) (s s' : S) (e : exn) :
  c s = (s', Raise e) -> bind c k s = (s', Raise e).
Proof. unfold bind. intros ->. reflexivity. Qed.

Section DictKeys.
Context {K V : Type} `{EqDecision K}.

Lemma dict_set_not_nil (d : list (K * V)) k v : dict_set d k v <> [].
Proof. destruct d as [|[k' v'] d]; cbn; [|destruct (decide (k = k'))]; discriminate. Qed.

Lemma elem_of_dict_keys_set (d : list (K * V)) (k x : K) (v : V) :
  x ∈ dict_keys (dict_set d k v) <-> x ∈ dict_keys d \/ x = k.
Proof.
  destruct (decide (k ∈ dict_keys d)) as [Hin|Hout].
  - rewrite dict_keys_set_old by exact Hin. split; [auto|]. intros [Hx| ->]; assumption.
  - rewrite dict_keys_set_new by exact Hout. rewrite elem_of_app, list_elem_of_singleton.
    reflexivity.
Qed.

End DictKeys.

(** ** [fit]: the sizes *)

Lemma fit_after_sizes x y epochs kw tr fr :
  fit x y epochs kw tr fr
  = match derive_sizes x kw fr with
    | (frA, Ok _) => (init_metrics ;; announce ;; run_execution tr) frA
    | (frA, Raise e) => (frA, Raise e)
    end.
Proof.
  unfold fit, derive_sizes, bind.
  destruct (collect_batch_size kw fr) as [f1 [[]|]]; [|reflexivity].
  destruct (derive_training_size x f1) as [f2 [[]|]]; [|reflexivity].
  destruct (derive_validation_size kw f2) as [f3 [[]|]]; reflexivity.
Qed.

Lemma derive_sizes_keeps_attributes x kw : respects always keeps_attributes (derive_sizes x kw).
Proof.
  unfold derive_sizes, collect_batch_size, derive_training_size, derive_validation_size.
  respects_phase.
Qed.

#[local] Instance keeps_executions_preorder : PreOrder keeps_executions.
Proof.
  split.
  - intros fr. repeat split.
  - intros a b c (H1 & H2 & H3 & H4) (G1 & G2 & G3 & G4). repeat split; congruence.
Qed.

Lemma derive_sizes_keeps_executions x kw : respects always keeps_executions (derive_sizes x kw).
Proof.
  unfold derive_sizes, collect_batch_size, derive_training_size, derive_validation_size.
  respects_phase.
Qed.

Lemma fit_tail_keeps_sizes tr :
  respects always keeps_sizes (init_metrics ;; announce ;; run_execution tr).
Proof.
  apply respects_bind; [exact _ | exact (always_stable _) | | intros _].
  { apply init_metrics_keeps_sizes. }
  apply respects_bind; [exact _ | exact (always_stable _) | | intros _].
  { apply announce_keeps_sizes. }
  apply run_execution_keeps_sizes.
Qed.

(** X4. When [validation_data] is given, [validation_split] is not
    looked at: whatever it is, and whether [fit] returns or raises
    later, the state holds the batch size of the call (32 by default),
    the training size derived from [x] and, as validation size, the
    number of validation labels. *)
Theorem validation_data_takes_precedence (fr : Frame) (y epochs : pyval)
    (tr : Execution.Training) (batch : option Z) (labels : Z) (split : option pynum)
    (len : Z) :
  let kw := {| kw_batch_size := batch; kw_validation_data := Some labels;
               kw_validation_split := split |} in
  let B := default 32 batch in
  let after x := fst (fit x y epochs kw tr fr) in
  (batch_size_of (after (SequenceInput len)) = B /\
   training_size_of (after (SequenceInput len)) = PInt ((len + 2) * B) /\
   validation_size_of (after (SequenceInput len)) = PInt labels) /\
  (batch_size_of (after (SizedInput len)) = B /\
   training_size_of (after (SizedInput len)) = PInt len /\
   validation_size_of (after (SizedInput len)) = PInt labels).
Proof.
  intros kw B after. subst after.
  pose proof (fit_tail_keeps_sizes tr) as Hrest.
  unfold batch_size_of, training_size_of, validation_size_of.
  split; unfold fit, collect_batch_size, derive_training_size, derive_validation_size;
    unfold bind at 1; cbn;
    match goal with
    | |- context [(init_metrics ;; announce ;; run_execution tr) ?f] =>
        destruct (Hrest f I) as (H1 & H2 & H3); rewrite H1, H2, H3; repeat split
    end.
Qed.

Lemma fit_sizes_without_validation_witness :
  training_size_of
    (fst (fit (SizedInput 50) VNone (VInt 2) Scenarios.kw_none
            (Examples.trains Scenarios.third_execution) Examples.frame0)) = PInt 50 /\
  validation_size_of
    (fst (fit (SizedInput 50) VNone (VInt 2) Scenarios.kw_none
            (Examples.trains Scenarios.third_execution) Examples.frame0)) = PInt 0.
Proof.
  apply (fit_sizes_without_validation Examples.frame0 (SizedInput 50) VNone (VInt 2)
           Scenarios.kw_none (Examples.trains Scenarios.third_execution) 50).
  - reflexivity.
  - reflexivity.
  - right. reflexivity.
Defined.

Module WideSplit.
Import Binary64 Binary64Facts SizeFacts.
Local Open Scope Q_scope.

Lemma truncate_nonpos q : q <= 0 -> (truncate q <= 0)%Z.
Proof.
  destruct q as [n d]. unfold Qle, truncate. cbn. intros H.
  rewrite <- (Z.quot_0_l (Z.pos d)) by lia. apply Z.quot_le_mono; lia.
Qed.

(** The arithmetic of lines 68-74 on a training size [T0] and a split
    [s >= 1] whose product is at most 2^53. *)
Lemma wide_split_arithmetic (T0 : Z) (s : Q) :
  (0 <= T0)%Z -> 1 <= s -> inject_Z T0 * s <= inject_Z (2 ^ prec) ->
  let f0 := round (inject_Z T0) in
  let v := round (f0 * s) in
  let t := round (f0 - v) in
  overflows f0 = false /\ overflows v = false /\ overflows t = false /\
  (truncate t <= 0)%Z /\ (T0 <= truncate v)%Z.
Proof.
  intros HT Hs Hprod f0 v t.
  assert (HT0 : 0 <= inject_Z T0) by (change 0 with (inject_Z 0); rewrite <- Zle_Qle; lia).
  assert (HTp : inject_Z T0 <= inject_Z (2 ^ prec)) by nra.
  assert (HTz : (T0 <= 2 ^ prec)%Z) by (rewrite Zle_Qle; exact HTp).
  assert (HTa : (Z.abs T0 <= 2 ^ prec)%Z) by lia.
  assert (Hpa : (Z.abs (2 ^ prec) <= 2 ^ prec)%Z) by (unfold prec; cbn; lia).
  assert (Hna : (Z.abs (- 2 ^ prec) <= 2 ^ prec)%Z) by (unfold prec; cbn; lia).
  assert (H0a : (Z.abs 0 <= 2 ^ prec)%Z) by (unfold prec; cbn; lia).
  assert (Ef0 : f0 == inject_Z T0) by (apply round_Z, HTa).
  assert (Hv : inject_Z T0 <= v <= inject_Z (2 ^ prec)).
  { apply round_between; [exact HTa|exact Hpa|]. rewrite Ef0. split; [nra|exact Hprod]. }
  assert (Hneg : inject_Z (- 2 ^ prec) == - inject_Z (2 ^ prec))
    by (rewrite inject_Z_opp; reflexivity).
  assert (Hd : inject_Z (- 2 ^ prec) <= f0 - v <= inject_Z 0).
  { rewrite Ef0, Hneg. change (inject_Z 0) with 0. split; lra. }
  assert (Ht : inject_Z (- 2 ^ prec) <= t <= inject_Z 0).
  { apply round_between; [exact Hna|exact H0a|exact Hd]. }
  change (inject_Z 0) with 0 in Ht.
  split; [|split; [|split; [|split]]].
  - apply small_no_overflow. rewrite Ef0. split; [|exact HTp]. lra.
  - apply small_no_overflow. split; [|apply Hv]. lra.
  - apply small_no_overflow. rewrite <- Hneg. split; [apply Ht|]. lra.
  - apply truncate_nonpos, Ht.
  - rewrite truncate_nonneg by lra. rewrite <- (Qfloor_Z T0). apply Qfloor_resp_le, Hv.
Qed.

(** The conversion of a small [int] to a [float] is exact. *)
Lemma float_of_int_small (N : Z) :
  (Z.abs N <= 2 ^ prec)%Z ->
  PyNum.float_of_int N = Ok (FFinite (round (inject_Z N))) /\
  Qeq_bool (round (inject_Z N)) 0 = (N =? 0)%Z.
Proof.
  intros HN. pose proof (round_Z N HN) as E. split.
  - unfold PyNum.float_of_int. rewrite small_no_overflow; [reflexivity|].
    rewrite E, <- inject_Z_opp, <- !Zle_Qle. lia.
  - destruct (N =? 0)%Z eqn:EN.
    + apply Z.eqb_eq in EN. subst N. reflexivity.
    + apply Z.eqb_neq in EN. destruct (Qeq_bool _ 0) eqn:Eq; [|reflexivity].
      apply Qeq_bool_iff in Eq. rewrite E in Eq. change 0 with (inject_Z 0) in Eq.
      apply (proj1 (inject_Z_injective _ _)) in Eq. contradiction.
Qed.

End WideSplit.

(** X5. [fit] does not check that [validation_split] is below one.
    With no [validation_data], a split [s >= 1] and a training size
    [T0 >= 0] before the split with [T0 * s <= 2^53], lines 64-74
    return and leave a validation size of at least [T0] and a training
    size that is zero or negative. *)
Theorem validation_split_is_not_range_checked (fr : Frame) (kw : Kwargs) (T0 : Z) (s : Q) :
  training_size_of fr = PInt T0 ->
  0 <= T0 ->
  (1 <= s)%Q ->
  (inject_Z T0 * s <= inject_Z (2 ^ 53))%Q ->
  kw_validation_data kw = None ->
  kw_validation_split kw = Some (PFloat (FFinite s)) ->
  exists t v : Z,
    snd (derive_validation_size kw fr) = Ok tt /\
    training_size_of (fst (derive_validation_size kw fr)) = PInt t /\
    validation_size_of (fst (derive_validation_size kw fr)) = PInt v /\
    t <= 0 /\ T0 <= v.
Proof.
  intros HT0 Hpos Hs Hprod Hvd Hvs.
  destruct fr as [st [mo cs ex ist mc a1 a2 a3 a4 a5 a6]].
  destruct ist as [ix im ih ib its ivs iam iet].
  unfold training_size_of in HT0. cbn in HT0. subst its.
  unfold derive_validation_size, bind, get_state, set_state, set_self, modify, lift,
    training_size_of, validation_size_of.
  rewrite Hvd, Hvs. cbn [PyNum.truthy].
  assert (Es : Qeq_bool s 0 = false).
  { destruct (Qeq_bool s 0) eqn:E; [|reflexivity]. apply Qeq_bool_iff in E. lra. }
  rewrite Es. cbn [negb].
  destruct (WideSplit.wide_split_arithmetic T0 s Hpos Hs Hprod) as (O1 & O2 & O3 & Ht & Hv).
  cbn [fst snd self store Instance.state InstanceState.training_size].
  rewrite (SizeFacts.mul_int_float T0 s O1 O2).
  cbn [fst snd self store Instance.state InstanceState.training_size
       InstanceState.validation_size Instance.set_state
       InstanceState.set_validation_size].
  rewrite (SizeFacts.sub_int_float T0 _ O1 O3).
  cbn [fst snd self store Instance.state InstanceState.training_size
       InstanceState.validation_size Instance.set_state
       InstanceState.set_validation_size InstanceState.set_training_size
       PyNum.to_int].
  eexists _, _. split; [reflexivity|]. split; [reflexivity|]. split; [reflexivity|].
  split; [exact Ht | exact Hv].
Qed.

Lemma validation_split_is_not_range_checked_witness :
  exists t v : Z,
    snd (derive_validation_size (Examples.kw_split (3 # 2)) Examples.ten_samples) = Ok tt /\
    training_size_of
      (fst (derive_validation_size (Examples.kw_split (3 # 2)) Examples.ten_samples))
    = PInt t /\
    validation_size_of
      (fst (derive_validation_size (Examples.kw_split (3 # 2)) Examples.ten_samples))
    = PInt v /\
    t <= 0 /\ 10 <= v.
Proof.
  apply (validation_split_is_not_range_checked Examples.ten_samples
           (Examples.kw_split (3 # 2)) 10 (3 # 2)).
  - reflexivity.
  - lia.
  - discriminate.
  - vm_compute. discriminate.
  - reflexivity.
  - reflexivity.
Defined.

(** With ten samples and a split of 1.5 the sizes are -5 and 15. *)
Example validation_split_of_three_halves :
  training_size_of
    (fst (derive_validation_size (Examples.kw_split (3 # 2)) Examples.ten_samples))
  = PInt (-5) /\
  validation_size_of
    (fst (derive_validation_size (Examples.kw_split (3 # 2)) Examples.ten_samples))
  = PInt 15.
Proof. split; vm_compute; reflexivity. Qed.

(** Lines 66-74 on a split that is a NaN or an infinity: the two sizes
    become floats that [int] cannot convert. *)
Lemma derive_validation_size_not_finite (fr : Frame) (kw : Kwargs) (N : Z) (f : pyfloat) :
  training_size_of fr = PInt N ->
  Z.abs N <= 2 ^ 53 ->
  kw_validation_data kw = None ->
  kw_validation_split kw = Some (PFloat f) ->
  (forall q, f <> FFinite q) ->
  snd (derive_validation_size kw fr)
  = Raise (match f with
           | FInf _ =>
               if N =? 0 then ValueError "cannot convert float NaN to integer"
               else OverflowError "cannot convert float infinity to integer"
           | _ => ValueError "cannot convert float NaN to integer"
           end).
Proof.
  intros HT0 HN Hvd Hvs Hf.
  destruct (WideSplit.float_of_int_small N HN) as (Hfloat & Hzero).
  destruct fr as [st [mo cs ex ist mc a1 a2 a3 a4 a5 a6]].
  destruct ist as [ix im ih ib its ivs iam iet].
  unfold training_size_of in HT0. cbn in HT0. subst its.
  unfold derive_validation_size, bind, get_state, set_state, set_self, modify, lift.
  rewrite Hvd, Hvs.
  destruct f as [q|b|]; [exfalso; exact (Hf q eq_refl)| |]; cbn [PyNum.truthy];
    cbn [fst snd self store Instance.state InstanceState.training_size];
    unfold PyNum.mul; rewrite Hfloat; unfold PyNum.fmul; rewrite ?Hzero.
  - destruct (N =? 0); cbn; unfold PyNum.sub; rewrite Hfloat; reflexivity.
  - cbn; unfold PyNum.sub; rewrite Hfloat; reflexivity.
Qed.

(** X6. A [validation_split] that is a NaN or an infinity makes [fit]
    raise at line 73, on an input of [N] samples with [|N| <= 2^53] and
    no [validation_data]: [ValueError] for a NaN and for an infinity
    times zero samples, [OverflowError] otherwise.  No execution is
    created or counted and the schema is not touched. *)
Theorem validation_split_must_be_finite (fr : Frame) (y epochs : pyval)
    (tr : Execution.Training) (batch : option Z) (N : Z) (f : pyfloat) :
  Z.abs N <= 2 ^ 53 ->
  (forall q, f <> FFinite q) ->
  let kw := {| kw_batch_size := batch; kw_validation_data := None;
               kw_validation_split := Some (PFloat f) |} in
  let r := fit (SizedInput N) y epochs kw tr fr in
  snd r
  = Raise (match f with
           | FInf _ =>
               if N =? 0 then ValueError "cannot convert float NaN to integer"
               else OverflowError "cannot convert float infinity to integer"
           | _ => ValueError "cannot convert float NaN to integer"
           end) /\
  Instance.executions (self (fst r)) = Instance.executions (self fr) /\
  execution_trained_of (fst r) = execution_trained_of fr /\
  keeps_schema fr (fst r).
Proof.
  intros HN Hf kw r. subst r. rewrite fit_after_sizes.
  pose proof (derive_sizes_keeps_executions (SizedInput N) kw fr I) as (K1 & K2 & _).
  pose proof (derive_sizes_keeps_schema (SizedInput N) kw fr I) as K3.
  assert (E : snd (derive_sizes (SizedInput N) kw fr)
              = snd (derive_validation_size kw
                       (fst ((collect_batch_size kw ;; derive_training_size (SizedInput N)) fr))))
    by reflexivity.
  rewrite (derive_validation_size_not_finite _ kw N f) in E;
    [|reflexivity|exact HN|reflexivity|reflexivity|exact Hf].
  destruct (derive_sizes (SizedInput N) kw fr) as [frA [[]|e]]; cbn [fst snd] in *;
    [discriminate|].
  split; [inversion E; reflexivity|]. split; [exact K1|]. split; [exact K2|exact K3].
Qed.

Lemma validation_split_must_be_finite_witness :
  snd (fit (SizedInput 100) VNone (VInt 2)
         {| kw_batch_size := None; kw_validation_data := None;
            kw_validation_split := Some (PFloat FNaN) |}
         (Examples.trains Scenarios.third_execution) Examples.frame0)
  = Raise (ValueError "cannot convert float NaN to integer").
Proof.
  refine (proj1 (validation_split_must_be_finite Examples.frame0 VNone (VInt 2)
                   (Examples.trains Scenarios.third_execution) None 100 FNaN _ _)).
  - vm_compute. discriminate.
  - discriminate.
Defined.

(** ** [fit]: building the schema *)

(** Lines 80-116 when lines 93-100 raise: the loop over the metrics of
    the model has run, nothing else. *)
Lemma fill_schema_without_losses (n : loc) (fr1 : Frame) (e : exn) :
  schema_at n fr1 ->
  model_losses (Model.loss (Instance.model (self fr1))) = Raise e ->
  is_ok (snd (fill_schema fr1)) = false /\
  only_cell n fr1 (fst (fill_schema fr1)).
Proof.
  intros Hn Hloss.
  pose proof (respects_for_each_ (schema_at n) (only_cell n) (schema_at_stable n)
                (Model.metrics (Instance.model (self fr1))) register_metric
                (register_metric_only_cell n) fr1 Hn) as H2.
  destruct (fill_schema fr1) as [fr' r] eqn:E. cbn [fst snd].
  unfold fill_schema in E. unfold bind at 1 in E. unfold get at 1 in E. cbn beta iota in E.
  unfold bind at 1 in E.
  destruct (for_each_ _ register_metric fr1) as [fr2 [[]|e2]]; cbn [fst snd] in *.
  - rewrite Hloss in E. cbn in E. inversion E; subst. split; [reflexivity|exact H2].
  - inversion E; subst. split; [reflexivity|exact H2].
Qed.

(** A call of [fit] on an instance without schema whose losses cannot
    be listed. *)
Lemma fit_without_losses x y epochs kw tr fr e :
  instance_schema_set fr = false ->
  model_losses (Model.loss (Instance.model (self fr))) = Raise e ->
  let fr' := fst (fit x y epochs kw tr fr) in
  is_ok (snd (fit x y epochs kw tr fr)) = false /\
  Instance.metrics_config (self fr') = Instance.metrics_config (self fr) /\
  tuner_state (store fr') = tuner_state (store fr) /\
  (instance_schema_set fr' = true ->
   InstanceState.agg_metrics (Instance.state (self fr')) = Some (length (heap (store fr)))).
Proof.
  intros Hunset Hloss. cbv zeta. rewrite fit_after_sizes.
  pose proof (derive_sizes_keeps_schema x kw fr I) as S.
  pose proof (derive_sizes_keeps_attributes x kw fr I) as (Am & _).
  destruct (derive_sizes x kw fr) as [frA [[]|e1]]; cbn [fst snd] in *.
  - assert (HunsetA : instance_schema_set frA = false)
      by (rewrite (keeps_schema_unset _ _ S); exact Hunset).
    destruct (fill_schema_without_losses (length (heap (store frA))) (with_new_collection frA) e)
      as (Hraise & Hself & Htuner & _).
    { reflexivity. }
    { rewrite with_new_collection_model, Am. exact Hloss. }
    rewrite <- (init_metrics_unset frA HunsetA) in Hraise, Hself, Htuner.
    destruct (init_metrics frA) as [frB [[]|e2]] eqn:Einit; cbn [fst snd] in *;
      [discriminate|].
    rewrite (bind_raise _ _ _ _ _ Einit). cbn [fst snd].
    destruct S as (S1 & S2 & S3 & S4).
    split; [reflexivity|]. rewrite Hself, Htuner. cbn.
    split; [exact S4|]. split; [exact S2|]. intros _. rewrite S1. reflexivity.
  - destruct S as (S1 & S2 & S3 & S4).
    split; [reflexivity|]. split; [exact S4|]. split; [exact S2|].
    intros Hset. rewrite (keeps_schema_unset fr frA) in Hset by (repeat split; assumption).
    congruence.
Qed.

(** X7. A model whose [loss] is a single object (a loss function or a
    loss instance) rather than a name, a mapping or a list cannot be
    fitted: on an instance without schema every call of [fit] raises,
    line 100 being a loop over [self.model.loss] itself. *)
Theorem loss_object_is_rejected (fr : Frame) o x y epochs kw tr :
  Model.loss (Instance.model (self fr)) = Model.LossObj o ->
  instance_schema_set fr = false ->
  is_ok (snd (fit x y epochs kw tr fr)) = false.
Proof.
  intros Hloss Hunset.
  apply (fit_without_losses x y epochs kw tr fr (TypeError "object is not iterable") Hunset).
  rewrite Hloss. reflexivity.
Qed.

Lemma loss_object_is_rejected_witness :
  is_ok (snd (call_fit (Examples.first_call Scenarios.function_model)
                Scenarios.function_frame)) = false.
Proof.
  apply (loss_object_is_rejected Scenarios.function_frame Scenarios.loss_function);
    reflexivity.
Defined.

(** X8. When the first call of [fit] fails at the losses (lines 93-100)
    after the loop over the metrics has put at least one metric in the
    new collection, the collection stays the schema of the instance: no
    later call of [fit] enters the initialisation again, so that
    [metrics_config] is never assigned, the tuner never receives a
    schema and the collection is left as the failed call left it. *)
Theorem failed_initialisation_is_not_retried (fr : Frame) (first : Call)
    (later : list Call) (e : exn) :
  instance_schema_set fr = false ->
  model_losses (Model.loss (Instance.model (self fr))) = Raise e ->
  let fr1 := fst (call_fit first fr) in
  instance_schema_set fr1 = true ->
  let frn := run_fits later fr1 in
  InstanceState.agg_metrics (Instance.state (self frn)) = Some (length (heap (store fr))) /\
  heap (store frn) = heap (store fr1) /\
  Instance.metrics_config (self frn) = Instance.metrics_config (self fr) /\
  tuner_state (store frn) = tuner_state (store fr).
Proof.
  intros Hunset Hloss fr1 Hset frn.
  destruct (fit_without_losses (call_x first) (call_y first) (call_epochs first)
              (call_kwargs first) (call_training first) fr e Hunset Hloss)
    as (_ & Hc & Ht & Hn).
  fold (call_fit first fr) in Hc, Ht, Hn. fold fr1 in Hc, Ht, Hn.
  destruct (run_fits_keeps_schema later fr1 Hset) as (K1 & K2 & K3 & K4).
  fold frn in K1, K2, K3, K4.
  split; [rewrite K3; exact (Hn Hset)|]. split; [exact K1|].
  split; [rewrite K4; exact Hc|rewrite K2; exact Ht].
Qed.

Lemma failed_initialisation_is_not_retried_witness :
  let fr1 := fst (call_fit (Examples.first_call Examples.dict_model) Examples.dict_frame) in
  let frn := run_fits [Examples.second_call Examples.dict_model] fr1 in
  InstanceState.agg_metrics (Instance.state (self frn)) = Some 0%nat /\
  heap (store frn) = heap (store fr1) /\
  Instance.metrics_config (self frn) = None /\
  tuner_state (store frn) = tuner_state Examples.store0.
Proof.
  refine (failed_initialisation_is_not_retried Examples.dict_frame
            (Examples.first_call Examples.dict_model)
            [Examples.second_call Examples.dict_model] (UnboundLocalError "losses") _ _ _).
  - reflexivity.
  - reflexivity.
  - vm_compute. reflexivity.
Defined.

(** *** The names in the schema *)

Lemma on_agg_metrics_at n method f fr fr' c :
  schema_at n fr -> heap (store fr) !! n = Some c ->
  on_agg_metrics method f fr = (fr', Ok tt) ->
  exists c', f c = Ok c' /\ self fr' = self fr /\ heap (store fr') !! n = Some c'.
Proof.
  intros Hn Hc H.
  pose proof (on_agg_metrics_only_cell n method f fr Hn) as (Hself & _).
  rewrite H in Hself. cbn [fst] in Hself.
  apply on_agg_metrics_ok in H. destruct H as (l & c0 & c' & Hl & Hc0 & Hf & Hc').
  rewrite Hn in Hl. inversion Hl; subst l. rewrite Hc in Hc0. inversion Hc0; subst c0.
  exists c'. split; [exact Hf|]. split; [exact Hself|exact Hc'].
Qed.

Lemma add_metric_keys m c k :
  k ∈ schema_keys (MetricsCollection.add_metric m c)
  <-> k ∈ schema_keys c \/ k = metric_name m.
Proof. unfold schema_keys, MetricsCollection.add_metric. cbn. apply elem_of_dict_keys_set. Qed.

Lemma add_keys i c c' name :
  name_of i = Ok name -> MetricsCollection.add i c = Ok c' ->
  forall k, k ∈ schema_keys c' <-> k ∈ schema_keys c \/ k = IdName name.
Proof.
  unfold MetricsCollection.add. intros -> H. inversion H; subst c'. intros k.
  apply add_metric_keys.
Qed.

Lemma registered_key_nil twins k : ~ registered_key [] [] twins k.
Proof. intros [(m & _ & Hm & _)|(l & Hl & _)]; [inversion Hm|inversion Hl]. Qed.

Lemma registered_key_metric_cons m ms ls twins k :
  registered_key (m :: ms) ls twins k
  <-> registered_key [m] [] twins k \/ registered_key ms ls twins k.
Proof.
  unfold registered_key. split.
  - intros [(m' & nm & Hm & H)|(l & Hl & H)].
    + apply elem_of_cons in Hm. destruct Hm as [->|Hm].
      * left. left. exists m, nm. split; [left|exact H].
      * right. left. exists m', nm. split; [exact Hm|exact H].
    + right. right. exists l. split; [exact Hl|exact H].
  - intros [[(m' & nm & Hm & H)|(l & Hl & _)]|[(m' & nm & Hm & H)|(l & Hl & H)]].
    + apply list_elem_of_singleton in Hm. subst m'. left. exists m, nm. split; [left|exact H].
    + inversion Hl.
    + left. exists m', nm. split; [right; exact Hm|exact H].
    + right. exists l. split; [exact Hl|exact H].
Qed.

Lemma registered_key_loss_cons l ls ms twins k :
  registered_key ms (l :: ls) twins k
  <-> registered_key [] [l] twins k \/ registered_key ms ls twins k.
Proof.
  unfold registered_key. split.
  - intros [(m' & nm & Hm & H)|(l' & Hl & H)].
    + right. left. exists m', nm. split; [exact Hm|exact H].
    + apply elem_of_cons in Hl. destruct Hl as [->|Hl].
      * left. right. exists l. split; [left|exact H].
      * right. right. exists l'. split; [exact Hl|exact H].
  - intros [[(m' & nm & Hm & _)|(l' & Hl & H)]|[(m' & nm & Hm & H)|(l' & Hl & H)]].
    + inversion Hm.
    + apply list_elem_of_singleton in Hl. subst l'. right. exists l. split; [left|exact H].
    + left. exists m', nm. split; [exact Hm|exact H].
    + right. exists l'. split; [right; exact Hl|exact H].
Qed.

Lemma registered_key_split ms ls twins k :
  registered_key ms ls twins k
  <-> registered_key ms [] twins k \/ registered_key [] ls twins k.
Proof.
  unfold registered_key. split.
  - intros [H|H]; [left; left; exact H|right; right; exact H].
  - intros [[H|(l & Hl & _)]|[(m & nm & Hm & _)|H]];
      [left; exact H|inversion Hl|inversion Hm|right; exact H].
Qed.

Lemma twins_of_self fr fr' : self fr' = self fr -> twins_of fr' = twins_of fr.
Proof. unfold twins_of, validation_size_of. intros ->. reflexivity. Qed.

(** One turn of the loop of lines 81-90, when it does not raise. *)
Lemma register_metric_keys n metric fr fr' c :
  schema_at n fr -> heap (store fr) !! n = Some c ->
  register_metric metric fr = (fr', Ok tt) ->
  exists c',
    self fr' = self fr /\ heap (store fr') !! n = Some c' /\
    forall k, k ∈ schema_keys c' <->
              k ∈ schema_keys c \/ registered_key [metric] [] (twins_of fr) k.
Proof.
  intros Hn Hc H. unfold register_metric in H.
  apply bind_ok in H. destruct H as (fr1 & [] & H1 & H).
  destruct (on_agg_metrics_at _ _ _ _ _ _ Hn Hc H1) as (c1 & Hadd & Hself1 & Hc1).
  assert (Hname : exists name, name_of metric = Ok name).
  { unfold MetricsCollection.add in Hadd. destruct (name_of metric); [eauto|discriminate]. }
  destruct Hname as (name & Hname).
  pose proof (add_keys _ _ _ _ Hname Hadd) as K1.
  apply bind_ok in H. destruct H as (fr2 & st & H2 & H).
  unfold get_state in H2. inversion H2; subst fr2 st; clear H2.
  rewrite Hself1 in H. fold (validation_size_of fr) in H. fold (twins_of fr) in H.
  assert (Hn1 : schema_at n fr1) by (unfold schema_at; rewrite Hself1; exact Hn).
  destruct (twins_of fr) eqn:Et.
  - apply bind_ok in H. destruct H as (fr3 & name' & H3 & H).
    apply lift_ok in H3. destruct H3 as (-> & Hname'). rewrite Hname in Hname'.
    inversion Hname'; subst name'.
    destruct (on_agg_metrics_at _ _ _ _ _ _ Hn1 Hc1 H) as (c2 & Hadd2 & Hself2 & Hc2).
    pose proof (add_keys (IdName ("val_" ++ name)) c1 c2 _ eq_refl Hadd2) as K2.
    exists c2. split; [congruence|]. split; [exact Hc2|].
    intros k. rewrite K2, K1. unfold registered_key. split.
    + intros [[Hk|Hk]|Hk]; [left; exact Hk| |];
        right; left; exists metric, name; (split; [left|]); (split; [exact Hname|]); auto.
    + intros [Hk|[(m & nm & Hm & Hnm & Hk)|(l & Hl & _)]]; [auto| |inversion Hl].
      apply list_elem_of_singleton in Hm. subst m. rewrite Hname in Hnm.
      inversion Hnm; subst nm. destruct Hk as [Hk|(_ & Hk)]; auto.
  - unfold ret in H. inversion H; subst fr'.
    exists c1. split; [exact Hself1|]. split; [exact Hc1|].
    intros k. rewrite K1. unfold registered_key. split.
    + intros [Hk|Hk]; [left; exact Hk|].
      right; left; exists metric, name; (split; [left|]); (split; [exact Hname|]); auto.
    + intros [Hk|[(m & nm & Hm & Hnm & Hk)|(l & Hl & _)]]; [auto| |inversion Hl].
      apply list_elem_of_singleton in Hm. subst m. rewrite Hname in Hnm.
      inversion Hnm; subst nm. destruct Hk as [Hk|(Hk & _)]; [auto|discriminate].
Qed.

(** Lines 81-90, when they do not raise. *)
Lemma register_metrics_keys n metrics fr fr' c :
  schema_at n fr -> heap (store fr) !! n = Some c ->
  for_each_ metrics register_metric fr = (fr', Ok tt) ->
  exists c',
    self fr' = self fr /\ heap (store fr') !! n = Some c' /\
    forall k, k ∈ schema_keys c' <->
              k ∈ schema_keys c \/ registered_key metrics [] (twins_of fr) k.
Proof.
  revert fr c. induction metrics as [|m ms IH]; intros fr c Hn Hc H.
  - cbn in H. inversion H; subst. exists c. split; [reflexivity|]. split; [exact Hc|].
    intros k. split; [auto|]. intros [Hk|Hk]; [exact Hk|]. destruct (registered_key_nil _ _ Hk).
  - unfold for_each_ in H. cbn [for_each] in H.
    apply bind_ok in H. destruct H as (fr1 & [] & H1 & H).
    destruct (register_metric_keys n m fr fr1 c Hn Hc H1) as (c1 & Hself1 & Hc1 & K1).
    assert (Hn1 : schema_at n fr1) by (unfold schema_at; rewrite Hself1; exact Hn).
    destruct (IH fr1 c1 Hn1 Hc1 H) as (c' & Hself' & Hc' & K').
    exists c'. split; [congruence|]. split; [exact Hc'|].
    intros k. rewrite K', K1, (twins_of_self _ _ Hself1), (registered_key_metric_cons m ms).
    tauto.
Qed.

(** One turn of the loop of lines 100-108, when it does not raise. *)
Lemma register_loss_keys n loss fr fr' c :
  schema_at n fr -> heap (store fr) !! n = Some c ->
  register_loss loss fr = (fr', Ok tt) ->
  exists c',
    self fr' = self fr /\ heap (store fr') !! n = Some c' /\
    forall k, k ∈ schema_keys c' <->
              k ∈ schema_keys c \/ registered_key [] [loss] (twins_of fr) k.
Proof.
  intros Hn Hc H. unfold register_loss in H.
  apply bind_ok in H. destruct H as (fr1 & [] & H1 & H).
  destruct (on_agg_metrics_at _ _ _ _ _ _ Hn Hc H1) as (c1 & Hadd & Hself1 & Hc1).
  inversion Hadd; subst c1; clear Hadd.
  apply bind_ok in H. destruct H as (fr2 & st & H2 & H).
  unfold get_state in H2. inversion H2; subst fr2 st; clear H2.
  rewrite Hself1 in H. fold (validation_size_of fr) in H. fold (twins_of fr) in H.
  assert (Hn1 : schema_at n fr1) by (unfold schema_at; rewrite Hself1; exact Hn).
  destruct (twins_of fr) eqn:Et.
  - apply bind_ok in H. destruct H as (fr3 & name & H3 & H).
    apply lift_ok in H3. destruct H3 as (-> & Hname).
    destruct (on_agg_metrics_at _ _ _ _ _ _ Hn1 Hc1 H) as (c2 & Hadd2 & Hself2 & Hc2).
    inversion Hadd2; subst c2; clear Hadd2.
    eexists. split; [congruence|]. split; [exact Hc2|].
    intros k. rewrite !add_metric_keys. cbn [metric_name]. unfold registered_key. split.
    + intros [[Hk|Hk]|Hk]; [left; exact Hk| |]; right; right; exists loss;
        (split; [left|]); [left; exact Hk|].
      right. split; [reflexivity|]. exists name. split; [exact Hname|exact Hk].
    + intros [Hk|[(m & nm & Hm & _)|(l & Hl & Hk)]]; [auto|inversion Hm|].
      apply list_elem_of_singleton in Hl. subst l.
      destruct Hk as [Hk|(_ & nm & Hnm & Hk)]; [auto|].
      rewrite Hname in Hnm. inversion Hnm; subst nm. auto.
  - unfold ret in H. inversion H; subst fr'.
    eexists. split; [exact Hself1|]. split; [exact Hc1|].
    intros k. rewrite add_metric_keys. cbn [metric_name]. unfold registered_key. split.
    + intros [Hk|Hk]; [left; exact Hk|]. right; right; exists loss.
      split; [left|left; exact Hk].
    + intros [Hk|[(m & nm & Hm & _)|(l & Hl & Hk)]]; [auto|inversion Hm|].
      apply list_elem_of_singleton in Hl. subst l.
      destruct Hk as [Hk|(Hk & _)]; [auto|discriminate].
Qed.

(** Lines 100-108, when they do not raise. *)
Lemma register_losses_keys n losses fr fr' c :
  schema_at n fr -> heap (store fr) !! n = Some c ->
  for_each_ losses register_loss fr = (fr', Ok tt) ->
  exists c',
    self fr' = self fr /\ heap (store fr') !! n = Some c' /\
    forall k, k ∈ schema_keys c' <->
              k ∈ schema_keys c \/ registered_key [] losses (twins_of fr) k.
Proof.
  revert fr c. induction losses as [|l ls IH]; intros fr c Hn Hc H.
  - cbn in H. inversion H; subst. exists c. split; [reflexivity|]. split; [exact Hc|].
    intros k. split; [auto|]. intros [Hk|Hk]; [exact Hk|]. destruct (registered_key_nil _ _ Hk).
  - unfold for_each_ in H. cbn [for_each] in H.
    apply bind_ok in H. destruct H as (fr1 & [] & H1 & H).
    destruct (register_loss_keys n l fr fr1 c Hn Hc H1) as (c1 & Hself1 & Hc1 & K1).
    assert (Hn1 : schema_at n fr1) by (unfold schema_at; rewrite Hself1; exact Hn).
    destruct (IH fr1 c1 Hn1 Hc1 H) as (c' & Hself' & Hc' & K').
    exists c'. split; [congruence|]. split; [exact Hc'|].
    intros k. rewrite K', K1, (twins_of_self _ _ Hself1), (registered_key_loss_cons l ls).
    tauto.
Qed.

(** Lines 80-116, when they do not raise, starting from an empty
    collection. *)
Lemma fill_schema_keys n fr1 fr' losses :
  schema_at n fr1 ->
  heap (store fr1) !! n = Some MetricsCollection.new ->
  model_losses (Model.loss (Instance.model (self fr1))) = Ok losses ->
  fill_schema fr1 = (fr', Ok tt) ->
  exists c,
    heap (store fr') !! n = Some c /\
    forall k, k ∈ schema_keys c <->
              registered_key (Model.metrics (Instance.model (self fr1))) losses
                (twins_of fr1) k.
Proof.
  intros Hn Hnew Hlosses H. unfold fill_schema in H.
  apply bind_ok in H. destruct H as (f0 & fr0 & H0 & H).
  unfold get in H0. inversion H0; subst f0 fr0; clear H0.
  apply bind_ok in H. destruct H as (fr2 & [] & H2 & H).
  destruct (register_metrics_keys n _ fr1 fr2 _ Hn Hnew H2) as (c2 & Hself2 & Hc2 & K2).
  apply bind_ok in H. destruct H as (f3 & losses' & H3 & H).
  apply lift_ok in H3. destruct H3 as (-> & Hl'). rewrite Hlosses in Hl'.
  inversion Hl'; subst losses'; clear Hl'.
  apply bind_ok in H. destruct H as (fr3 & [] & H3 & H).
  assert (Hn2 : schema_at n fr2) by (unfold schema_at; rewrite Hself2; exact Hn).
  destruct (register_losses_keys n losses fr2 fr3 c2 Hn2 Hc2 H3) as (c3 & Hself3 & Hc3 & K3).
  apply bind_ok in H. destruct H as (f4 & fr4 & H4 & H).
  unfold get in H4. inversion H4; subst f4 fr4; clear H4.
  apply bind_ok in H. destruct H as (fr5 & [] & H5 & H).
  assert (Hn3 : schema_at n fr3) by (unfold schema_at; rewrite Hself3; exact Hn2).
  destruct (on_agg_metrics_at _ _ _ _ _ _ Hn3 Hc3 H5) as (c5 & Hset & _ & Hc5).
  exists c5. split; [apply (publish_schema_ok _ _ H), Hc5|].
  assert (Hobj : MetricsCollection.objects c5 = MetricsCollection.objects c3).
  { unfold MetricsCollection.set_objective in Hset.
    destruct (dict_mem _ _); [|discriminate]. inversion Hset. reflexivity. }
  intros k. unfold schema_keys at 1. rewrite Hobj. fold (schema_keys c3).
  rewrite K3, K2, (twins_of_self _ _ Hself2).
  pose proof (registered_key_split (Model.metrics (Instance.model (self fr1))) losses
                (twins_of fr1) k) as Hs.
  unfold schema_keys at 1. cbn. rewrite elem_of_nil. tauto.
Qed.

(** X9. After a call of [fit] that returns, on an instance that had no
    schema and whose losses are a single name or a list, the names in
    the new collection are exactly: the name of every metric of the
    model, every loss (["loss"] for a single name), and the [val_]
    twin of each of them when the validation size of the call is not
    zero; without validation no [val_] name is entered. *)
Theorem schema_holds_the_names_of_the_model x y epochs kw tr fr fr' e losses :
  fit x y epochs kw tr fr = (fr', Ok e) ->
  instance_schema_set fr = false ->
  model_losses (Model.loss (Instance.model (self fr))) = Ok losses ->
  exists c,
    heap (store fr') !! length (heap (store fr)) = Some c /\
    forall k, k ∈ schema_keys c <->
              registered_key (Model.metrics (Instance.model (self fr))) losses
                (twins_of fr') k.
Proof.
  intros H Hunset Hlosses.
  destruct (fit_ok_inv _ _ _ _ _ _ _ _ H) as (frA & frB & SA & AA & Hinit & SB & _ & ZB).
  pose proof (init_metrics_keeps_sizes frA I) as ZA. rewrite Hinit in ZA. cbn [fst] in ZA.
  rewrite init_metrics_unset in Hinit by (rewrite (keeps_schema_unset _ _ SA); exact Hunset).
  destruct SA as (SA1 & _). destruct AA as (AA1 & _).
  destruct (fill_schema_keys (length (heap (store frA))) (with_new_collection frA) frB losses)
    as (c & Hc & Hkeys).
  - reflexivity.
  - unfold with_new_collection. cbn. apply lookup_snoc_last.
  - rewrite with_new_collection_model, AA1. exact Hlosses.
  - exact Hinit.
  - rewrite with_new_collection_model, AA1, SA1 in *.
    exists c. destruct SB as (SB1 & _). rewrite SB1. split; [exact Hc|].
    assert (Et : twins_of fr' = twins_of (with_new_collection frA)).
    { unfold twins_of, validation_size_of. destruct ZA as (_ & _ & ZA3), ZB as (_ & _ & ZB3).
      rewrite ZB3, ZA3. reflexivity. }
    rewrite Et. exact Hkeys.
Qed.

Lemma schema_holds_the_names_of_the_model_witness :
  exists c,
    heap (store (fst (call_fit (Examples.first_call Examples.custom_model)
                        Examples.custom_frame))) !! 0%nat = Some c /\
    forall k, k ∈ schema_keys c <->
              registered_key [IdName "accuracy"] [IdObj Examples.custom_loss]
                (twins_of (fst (call_fit (Examples.first_call Examples.custom_model)
                                  Examples.custom_frame))) k.
Proof.
  refine (schema_holds_the_names_of_the_model
            (SizedInput 100) VNone (VInt 2) (Examples.kw_split (1 # 4))
            (Examples.trains (Examples.execution Examples.custom_model 0 (1 # 2) (3 # 4)))
            Examples.custom_frame _
            (Examples.execution Examples.custom_model 0 (1 # 2) (3 # 4))
            [IdObj Examples.custom_loss] _ _ _).
  - vm_compute. reflexivity.
  - reflexivity.
  - reflexivity.
Defined.

(** X10. A call of [fit] never modifies a metrics collection that
    exists when it starts, whether it returns or raises: the schema it
    builds and the one it gives the tuner are new objects, so that the
    schema of one instance is out of reach of the calls made on
    another. *)
Theorem fit_never_modifies_an_existing_collection (fr : Frame) x y epochs kw tr
    (l : loc) (c : MetricsCollection.t) :
  heap (store fr) !! l = Some c ->
  heap (store (fst (fit x y epochs kw tr fr))) !! l = Some c.
Proof. intros H. apply (fit_tuner_kept x y epochs kw tr fr I), H. Qed.

Lemma fit_never_modifies_an_existing_collection_witness :
  exists c,
    heap (store Examples.second_instance) !! 0%nat = Some c /\
    heap (store (fst (call_fit (Examples.first_call Examples.model)
                        Examples.second_instance))) !! 0%nat = Some c.
Proof.
  eexists. split; [vm_compute; reflexivity|].
  apply (fit_never_modifies_an_existing_collection Examples.second_instance).
  vm_compute. reflexivity.
Defined.

(** ** [fit]: announcing and training *)

Lemma on_agg_metrics_keeps_executions method f :
  respects always keeps_executions (on_agg_metrics method f).
Proof.
  intros fr _. unfold on_agg_metrics.
  destruct (InstanceState.agg_metrics _); [|reflexivity].
  destruct (heap (store fr) !! _); [|reflexivity].
  destruct (f _); cbn; repeat split.
Qed.

Lemma prepare_keeps_executions x kw : respects always keeps_executions (prepare x kw).
Proof.
  unfold prepare, derive_sizes, collect_batch_size, derive_training_size,
    derive_validation_size, init_metrics, fill_schema, publish_schema, register_metric,
    register_loss.
  repeat first [ apply on_agg_metrics_keeps_executions | respects_phase ].
Qed.

(** A call of [fit] either raises before line 119, in a frame with the
    executions and the terminal it started with, or goes on to announce
    and train from such a frame. *)
Lemma fit_call_spec x y epochs kw tr fr :
  exists frB,
    keeps_executions fr frB /\
    ((exists e, fit x y epochs kw tr fr = (frB, Raise e)) \/
     fit x y epochs kw tr fr = (announce ;; run_execution tr) frB).
Proof.
  pose proof (prepare_keeps_executions x kw fr I) as K.
  rewrite fit_after_prepare.
  destruct (prepare x kw fr) as [frB [[]|e]]; cbn [fst] in K; exists frB;
    (split; [exact K|]).
  - right. reflexivity.
  - left. exists e. reflexivity.
Qed.

(** What one call of [fit] displays. *)
Lemma fit_terminal x y epochs kw tr fr :
  let fr' := fst (fit x y epochs kw tr fr) in
  TunerState.display_model (tuner_state (store fr'))
  = TunerState.display_model (tuner_state (store fr)) /\
  ((terminal (store fr') = terminal (store fr) /\
    (Instance.executions (self fr) <> [] -> Instance.executions (self fr') <> [])) \/
   (Instance.executions (self fr) = [] /\ Instance.executions (self fr') <> [] /\
    terminal (store fr')
    = (terminal (store fr)
       ++ announcement (TunerState.display_model (tuner_state (store fr))))%list)).
Proof.
  cbv zeta.
  destruct (fit_call_spec x y epochs kw tr fr)
    as (frB & (Ke & _ & Kt & Kd) & [[e H]|H]); rewrite H.
  - cbn [fst]. split; [exact Kd|]. left. split; [exact Kt|]. rewrite Ke. auto.
  - pose proof (train_spec tr frB) as (T1 & T2 & T3). cbv zeta in T1, T2, T3.
    split; [rewrite T2; exact Kd|].
    assert (Hne : Instance.executions (self (fst ((announce;; run_execution tr) frB))) <> []).
    { destruct (Execution.fitted tr); destruct T3 as (_ & -> & _); apply dict_set_not_nil. }
    rewrite T1, Ke, Kt, Kd.
    destruct (Instance.executions (self fr)) as [|ke execs].
    + right. split; [reflexivity|]. split; [exact Hne|reflexivity].
    + left. split; [apply app_nil_r|]. intros _. exact Hne.
Qed.

(** X12. Over any sequence of calls of [fit] on an instance, whether
    they return or raise, what the class displays is nothing, or, for
    an instance that had no execution, one announcement: the section
    "Training new instance", the summary of the state and, only if
    [display_model] is set, the subsection "Model summary" and the
    summary of the model. *)
Theorem training_is_announced_at_most_once (cs : list Call) (fr : Frame) :
  let shown := announcement (TunerState.display_model (tuner_state (store fr))) in
  terminal (store (run_fits cs fr)) = terminal (store fr) \/
  (Instance.executions (self fr) = [] /\
   terminal (store (run_fits cs fr)) = (terminal (store fr) ++ shown)%list).
Proof.
  cbv zeta.
  assert (H : TunerState.display_model (tuner_state (store (run_fits cs fr)))
              = TunerState.display_model (tuner_state (store fr)) /\
              ((terminal (store (run_fits cs fr)) = terminal (store fr) /\
                (Instance.executions (self fr) <> [] ->
                 Instance.executions (self (run_fits cs fr)) <> [])) \/
               (Instance.executions (self fr) = [] /\
                Instance.executions (self (run_fits cs fr)) <> [] /\
                terminal (store (run_fits cs fr))
                = (terminal (store fr)
                   ++ announcement (TunerState.display_model (tuner_state (store fr))))%list))).
  { revert fr. induction cs as [|c cs IH]; intros fr; cbn [run_fits fold_left].
    - split; [reflexivity|]. left. split; [reflexivity|auto].
    - fold (run_fits cs (fst (call_fit c fr))).
      destruct (IH (fst (call_fit c fr))) as (D2 & T2).
      pose proof (fit_terminal (call_x c) (call_y c) (call_epochs c) (call_kwargs c)
                    (call_training c) fr) as (D1 & T1).
      cbv zeta in D1, T1. fold (call_fit c) in D1, T1.
      split; [congruence|].
      destruct T1 as [(A1 & A2)|(A1 & A2 & A3)], T2 as [(B1 & B2)|(B1 & B2 & B3)].
      + left. split; [congruence|auto].
      + right. split.
        * destruct (Instance.executions (self fr)) as [|ke l]; [reflexivity|].
          exfalso. apply A2; [discriminate|exact B1].
        * split; [exact B2|]. rewrite B3, A1, D1. reflexivity.
      + right. split; [exact A1|]. split; [auto|]. rewrite B1. exact A3.
      + contradiction. }
  destruct H as (_ & [(A & _)|(A & _ & B)]); [left; exact A|right; split; assumption].
Qed.

(** X13. The execution a call of [fit] returns is the one the training
    left, and the one the instance holds under the key of the execution
    created in the call; the executions under the other keys are as
    they were. *)
Theorem fit_returns_the_stored_execution x y epochs kw tr fr fr' e :
  fit x y epochs kw tr fr = (fr', Ok e) ->
  let key := Execution.idx (Execution.created tr) in
  Execution.fitted tr = Ok e /\
  dict_get (Instance.executions (self fr')) key = Some e /\
  (forall k, k <> key ->
     dict_get (Instance.executions (self fr')) k = dict_get (Instance.executions (self fr)) k).
Proof.
  intros H key.
  destruct (fit_call_spec x y epochs kw tr fr) as (frB & (Ke & _) & [[e' H']|H']);
    rewrite H in H'; [discriminate|].
  pose proof (train_spec tr frB) as (_ & _ & T). cbv zeta in T.
  rewrite <- H' in T. cbn [fst snd] in T.
  destruct (Execution.fitted tr) as [e1|err]; destruct T as (T1 & T2 & _); [|discriminate].
  inversion T1; subst e1. split; [reflexivity|]. rewrite T2, Ke. split.
  - apply dict_get_set_eq.
  - intros k Hk. subst key.
    rewrite !dict_get_set_ne by (intros Ek; apply Hk; symmetry; exact Ek). reflexivity.
Qed.

Lemma fit_returns_the_stored_execution_witness :
  let fr' := fst (fit (SizedInput 50) VNone (VInt 2) Scenarios.kw_none
                    (Examples.trains Scenarios.third_execution) Examples.trained) in
  Execution.fitted (Examples.trains Scenarios.third_execution) = Ok Scenarios.third_execution /\
  dict_get (Instance.executions (self fr')) 2 = Some Scenarios.third_execution /\
  (forall k, k <> 2 ->
     dict_get (Instance.executions (self fr')) k
     = dict_get (Instance.executions (self Examples.trained)) k).
Proof.
  refine (fit_returns_the_stored_execution (SizedInput 50) VNone (VInt 2) Scenarios.kw_none
            (Examples.trains Scenarios.third_execution) Examples.trained _
            Scenarios.third_execution _).
  vm_compute. reflexivity.
Defined.

(** X14. The execution is entered in [self.executions] before it is
    trained and counted after: a call of [fit] that would return if the
    training returned raises the exception of a training that fails,
    and then leaves an execution under the key of the created one
    while [execution_trained] is not incremented. *)
Theorem failed_training_is_kept_but_not_counted x y epochs kw created e0 err fr :
  is_ok (snd (fit x y epochs kw
                {| Execution.created := created; Execution.fitted := Ok e0 |} fr)) = true ->
  let r := fit x y epochs kw
             {| Execution.created := created; Execution.fitted := Raise err |} fr in
  snd r = Raise err /\
  dict_mem (Instance.executions (self (fst r))) (Execution.idx created) = true /\
  execution_trained_of (fst r) = execution_trained_of fr.
Proof.
  intros Hok r. subst r.
  rewrite fit_after_prepare in Hok. rewrite fit_after_prepare.
  pose proof (prepare_keeps_executions x kw fr I) as (_ & Kt & _).
  destruct (prepare x kw fr) as [frB [[]|e]]; [|discriminate]. cbn [fst] in Kt.
  pose proof (train_spec {| Execution.created := created; Execution.fitted := Raise err |} frB)
    as (_ & _ & T1 & T2 & T3).
  cbn [Execution.created] in T2. rewrite T1, T2, T3, Kt.
  split; [reflexivity|]. split; [|reflexivity].
  unfold dict_mem. rewrite dict_get_set_eq. reflexivity.
Qed.

Lemma failed_training_is_kept_but_not_counted_witness :
  let r := fit (SizedInput 50) VNone (VInt 2) Scenarios.kw_none
             {| Execution.created := Scenarios.third_execution;
                Execution.fitted := Raise (TrainingError "diverged") |} Examples.trained in
  snd r = Raise (TrainingError "diverged") /\
  dict_mem (Instance.executions (self (fst r))) 2 = true /\
  execution_trained_of (fst r) = execution_trained_of Examples.trained.
Proof.
  refine (failed_training_is_kept_but_not_counted (SizedInput 50) VNone (VInt 2)
            Scenarios.kw_none Scenarios.third_execution Scenarios.third_execution
            (TrainingError "diverged") Examples.trained _).
  vm_compute. reflexivity.
Defined.

Lemma fit_counts x y epochs kw tr fr :
  execution_trained_of (fst (fit x y epochs kw tr fr))
  = execution_trained_of fr + (if is_ok (snd (fit x y epochs kw tr fr)) then 1 else 0).
Proof.
  destruct (fit_call_spec x y epochs kw tr fr) as (frB & (_ & Kt & _) & [[e H]|H]);
    rewrite H.
  - cbn. rewrite Kt. lia.
  - pose proof (train_spec tr frB) as (_ & _ & T). cbv zeta in T.
    destruct (Execution.fitted tr) as [e|err]; destruct T as (T1 & _ & T3);
      rewrite T1, T3, Kt; cbn; lia.
Qed.

(** X15. [execution_trained] counts the calls of [fit] that returned:
    after any sequence of calls it has grown by the number of those
    that did not raise. *)
Theorem execution_trained_counts_returned_calls (cs : list Call) (fr : Frame) :
  execution_trained_of (run_fits cs fr) = execution_trained_of fr + returned cs fr.
Proof.
  revert fr. induction cs as [|c cs IH]; intros fr; cbn [run_fits fold_left returned].
  - lia.
  - fold (run_fits cs (fst (call_fit c fr))). rewrite IH. unfold call_fit at 1.
    rewrite fit_counts. fold (call_fit c). lia.
Qed.

(** X16. When the first call of [fit] on an instance made by
    [__init__] returns, the announcement has been displayed, once, and
    the instance holds one execution: the one returned, under the key
    of the execution created in the call. *)
Theorem first_fit_of_a_new_instance (s : Store) (idx : pyval) (model : Model.t)
    (hparams cloudservice : pyval) x y epochs kw tr fr' e :
  let fr0 := {| store := s; self := Instance_init idx model hparams cloudservice |} in
  fit x y epochs kw tr fr0 = (fr', Ok e) ->
  terminal (store fr')
  = (terminal s ++ announcement (TunerState.display_model (tuner_state s)))%list /\
  Instance.executions (self fr') = [(Execution.idx (Execution.created tr), e)].
Proof.
  intros fr0 H.
  destruct (fit_call_spec x y epochs kw tr fr0) as (frB & (Ke & _ & Kt & Kd) & [[e' H']|H']);
    rewrite H in H'; [discriminate|].
  pose proof (train_spec tr frB) as (T1 & _ & T3). cbv zeta in T1, T3.
  rewrite <- H' in T1, T3. cbn [fst snd] in T1, T3.
  rewrite Ke, Kt, Kd in *. cbn [fr0 self store Instance_init Instance.executions] in *.
  split; [exact T1|].
  destruct (Execution.fitted tr) as [e1|err]; destruct T3 as (T3 & T4 & _); [|discriminate].
  inversion T3; subst e1. rewrite T4. cbn.
  destruct (decide _); [reflexivity|congruence].
Qed.

Lemma first_fit_of_a_new_instance_witness :
  let fr' := fst (call_fit (Examples.first_call Examples.model) Examples.frame0) in
  terminal (store fr') = ([] ++ announcement false)%list /\
  Instance.executions (self fr') = [(0, Examples.execution Examples.model 0 (1 # 2) (3 # 4))].
Proof.
  refine (first_fit_of_a_new_instance Examples.store0 (VInt 0) Examples.model VNone VNone
            (SizedInput 100) VNone (VInt 2) (Examples.kw_split (1 # 4))
            (Examples.trains (Examples.execution Examples.model 0 (1 # 2) (3 # 4))) _
            (Examples.execution Examples.model 0 (1 # 2) (3 # 4)) _).
  vm_compute. reflexivity.
Defined.

(** ** [record_results], in any module and on any instance *)

(** [record_results], phase by phase. *)
Lemma record_results_steps G fr :
  record_results G fr
  = match Instance.get_instance_info (self fr) with
    | None => (fr, Raise (AttributeError "_Instance__get_instance_info"))
    | Some info =>
        match Instance.meta_data (self fr) with
        | None => (fr, Raise (AttributeError "meta_data"))
        | Some md =>
            match (server <~ subscript md "server" ;; subscript server "local_dir") with
            | Raise e => (fr, Raise e)
            | Ok dir =>
                match for_each (Instance.executions (self fr)) record_execution ([], []) fr with
                | (fr1, Raise e) => (fr1, Raise e)
                | (fr1, Ok collected) =>
                    match build_record G info md collected (Instance.key_metrics (self fr)) with
                    | Raise e => (fr1, Raise e)
                    | Ok results => store_record G md dir results fr1
                    end
                end
            end
        end
    end.
Proof.
  unfold record_results, build_record, store_record.
  unfold bind at 1. unfold get at 1. cbn beta iota.
  destruct (Instance.get_instance_info (self fr)) as [info|]; [|reflexivity].
  unfold bind at 1, ret at 1. cbn beta iota.
  destruct (Instance.meta_data (self fr)) as [md|]; [|reflexivity].
  unfold bind at 1, ret at 1. cbn beta iota.
  unfold bind at 1, lift at 1. destruct (subscript md "server") as [server|e]; [|reflexivity].
  cbn [rbind]. unfold bind at 1, lift at 1.
  destruct (subscript server "local_dir") as [dir|e]; [|reflexivity].
  unfold bind at 1.
  destruct (for_each _ record_execution _ fr) as [fr1 [collected|e]]; [|reflexivity].
  unfold bind at 1, lift at 1.
  destruct (setitem info "executions" _) as [r1|e]; [|reflexivity]. cbn [rbind].
  unfold bind at 1, lift at 1.
  destruct (setitem r1 "meta_data" md) as [r2|e]; [|reflexivity]. cbn [rbind].
  unfold bind at 1, lift at 1.
  destruct (aggregate G _ _ _) as [metrics|e]; [|reflexivity]. cbn [rbind].
  unfold bind at 1, lift at 1.
  destruct (setitem r2 "metrics" _) as [r3|e]; [|reflexivity]. cbn [rbind].
  unfold bind at 1.
  destruct (Instance.key_metrics (self fr)) as [kms|]; [|reflexivity].
  unfold ret at 1. cbn [rbind].
  unfold bind at 1, lift at 1.
  destruct (record_key_metrics metrics kms r3) as [r4|e]; reflexivity.
Qed.

(** *** What the method leaves unchanged *)

#[local] Instance keeps_instance_state_preorder : PreOrder keeps_instance_state.
Proof.
  split.
  - intros fr. repeat split.
  - intros a b c (H1 & H2 & H3 & H4 & H5 & H6 & H7) (G1 & G2 & G3 & G4 & G5 & G6 & G7).
    repeat split; congruence.
Qed.

#[local] Instance only_executions_preorder : PreOrder only_executions.
Proof.
  split.
  - intros fr. repeat split.
  - intros a b c (H1 & H2 & H3) (G1 & G2 & G3). split; [congruence|]. split; [congruence|].
    etransitivity; eassumption.
Qed.

Lemma record_execution_keeps_instance_state ke acc :
  respects (has_key (fst ke)) keeps_instance_state (record_execution ke acc).
Proof.
  intros fr Hk. unfold record_execution, bind, lift, set_self, modify, get.
  destruct (collect_metrics _ _ _); [|reflexivity].
  destruct (execution_info _); [|reflexivity]. cbn.
  destruct (Instance.clear_gpu_memory (self fr)); cbn; repeat split;
    apply dict_keys_set_old, Hk.
Qed.

Lemma record_loop_keeps_instance_state execs acc fr :
  (forall ke, ke ∈ execs -> has_key (fst ke) fr) ->
  keeps_instance_state fr (fst (for_each execs record_execution acc fr)).
Proof.
  revert acc fr. induction execs as [|ke execs IH]; intros acc fr Hkeys; cbn [for_each].
  - reflexivity.
  - pose proof (record_execution_keeps_instance_state ke acc fr (Hkeys ke ltac:(left))) as K.
    unfold bind. destruct (record_execution ke acc fr) as [fr1 [acc1|e]]; cbn [fst] in *;
      [|exact K].
    transitivity fr1; [exact K|]. apply IH. intros ke' Hin.
    unfold has_key. destruct K as (_ & _ & _ & _ & _ & _ & ->). apply Hkeys. right. exact Hin.
Qed.

Lemma record_execution_only_executions ke acc :
  respects always only_executions (record_execution ke acc).
Proof.
  intros fr _. unfold record_execution, bind, lift, set_self, modify, get.
  destruct (collect_metrics _ _ _); [|reflexivity].
  destruct (execution_info _); [|reflexivity]. cbn.
  destruct (Instance.clear_gpu_memory (self fr)); cbn; repeat split.
Qed.

Lemma record_loop_only_executions execs acc :
  respects always only_executions (for_each execs record_execution acc).
Proof.
  apply respects_for_each; [exact _|exact (always_stable _)|].
  intros ke acc'. apply record_execution_only_executions.
Qed.

(** Lines 200-212 touch the files, the backend and [self.results]
    only. *)
Lemma store_record_frame G md dir results fr :
  keeps_instance_state fr (fst (store_record G md dir results fr)) /\
  Instance.executions (self (fst (store_record G md dir results fr)))
  = Instance.executions (self fr) /\
  keeps_attributes fr (fst (store_record G md dir results fr)).
Proof.
  destruct fr as [[hp ts tm fl sn] [mo cs ex ist mc a1 a2 a3 a4 a5 a6]].
  unfold store_record, write_results, send_to_backend, file_operation, set_store, set_self,
    modify, bind, lift, get, ret, raise, keeps_attributes, keeps_instance_state.
  destruct (subscript md "project") as [project|e]; [|cbn; repeat split].
  destruct (subscript md "architecture") as [architecture|e]; [|cbn; repeat split].
  destruct (subscript md "instance") as [instance|e]; [|cbn; repeat split].
  destruct dir; try (cbn; repeat split; fail).
  destruct (file_io_bound G); [|cbn; repeat split].
  destruct (json_serializable results); cbn; [|repeat split].
  destruct a3 as [[|]|]; cbn; repeat split.
Qed.

Lemma record_results_frame G fr : keeps_instance_state fr (fst (record_results G fr)).
Proof.
  rewrite record_results_steps.
  destruct (Instance.get_instance_info (self fr)) as [info|]; [|reflexivity].
  destruct (Instance.meta_data (self fr)) as [md|]; [|reflexivity].
  destruct (rbind _ _) as [dir|]; [|reflexivity].
  assert (K : keeps_instance_state fr
                (fst (for_each (Instance.executions (self fr)) record_execution ([], []) fr))).
  { apply record_loop_keeps_instance_state. intros ke Hin. unfold has_key, dict_keys.
    apply list_elem_of_fmap. exists ke. split; [reflexivity|exact Hin]. }
  destruct (for_each _ record_execution _ fr) as [fr1 [collected|]]; cbn [fst] in K;
    [|exact K].
  destruct (build_record _ _ _ _ _) as [r|]; [|exact K].
  transitivity fr1; [exact K|]. apply store_record_frame.
Qed.

Lemma record_results_keeps_attributes G fr :
  keeps_attributes fr (fst (record_results G fr)).
Proof.
  rewrite record_results_steps.
  destruct (Instance.get_instance_info (self fr)) as [info|]; [|reflexivity].
  destruct (Instance.meta_data (self fr)) as [md|]; [|reflexivity].
  destruct (rbind _ _) as [dir|]; [|reflexivity].
  pose proof (record_loop_only_executions (Instance.executions (self fr)) ([], []) fr I)
    as (_ & _ & K).
  destruct (for_each _ record_execution _ fr) as [fr1 [collected|]]; cbn [fst] in K;
    [|exact K].
  destruct (build_record _ _ _ _ _) as [r|]; [|exact K].
  transitivity fr1; [exact K|]. apply store_record_frame.
Qed.

(** X17. Whatever the module binds and whether it returns or raises,
    [record_results] leaves the state of the instance (sizes, schema
    reference, count of executions), its model, [metrics_config], every
    metrics collection, the tuner state, the terminal and the
    attributes it reads as they were, and keeps the keys of
    [self.executions] in their order: it only changes executions in
    place, files, what is sent and [self.results]. *)
Theorem record_results_changes_only_records (G : Globals) (fr : Frame) :
  let fr' := fst (record_results G fr) in
  Instance.state (self fr') = Instance.state (self fr) /\
  Instance.model (self fr') = Instance.model (self fr) /\
  Instance.metrics_config (self fr') = Instance.metrics_config (self fr) /\
  heap (store fr') = heap (store fr) /\
  tuner_state (store fr') = tuner_state (store fr) /\
  terminal (store fr') = terminal (store fr) /\
  dict_keys (Instance.executions (self fr')) = dict_keys (Instance.executions (self fr)) /\
  keeps_attributes fr fr'.
Proof.
  cbv zeta. pose proof (record_results_frame G fr) as (H1 & H2 & H3 & H4 & H5 & H6 & H7).
  repeat (split; [assumption|]). apply record_results_keeps_attributes.
Qed.

Lemma summary_keeps_schema extended : respects always keeps_schema (summary extended).
Proof. unfold summary. respects_phase. Qed.

Lemma after_call_keeps_schema G m fr :
  schema_set fr -> keeps_schema fr (after_call G fr m).
Proof.
  intros Hset. destruct m as [extended|fixme|c|]; cbn [after_call].
  - apply summary_keeps_schema. exact I.
  - reflexivity.
  - apply fit_keeps_schema. exact Hset.
  - destruct (record_results_frame G fr) as (H1 & _ & H3 & H4 & H5 & _).
    split; [exact H4|]. split; [exact H5|]. split; [rewrite H1; reflexivity|exact H3].
Qed.

(** X18. Once an instance has a schema, no method of the class
    changes it: after any sequence of calls of [summary], [resume_fit],
    [fit] and [record_results], returning or raising, in any module,
    the schema reference, every metrics collection, [metrics_config]
    and the tuner state are as they were. *)
Theorem schema_survives_every_method (G : Globals) (ms : list AnyCall) (fr : Frame) :
  schema_set fr -> keeps_schema fr (run_calls G ms fr).
Proof.
  revert fr. induction ms as [|m ms IH]; intros fr Hset; cbn [run_calls fold_left].
  - reflexivity.
  - pose proof (after_call_keeps_schema G m fr Hset) as K.
    transitivity (after_call G fr m); [exact K|].
    apply IH. eapply schema_set_stable; eassumption.
Qed.

Lemma schema_survives_every_method_witness :
  keeps_schema Examples.trained
    (run_calls module_globals
       [CallSummary true; CallRecordResults; CallFit (Examples.third_call Examples.model);
        CallResumeFit VNone; CallFit (Examples.second_call Examples.model)]
       Examples.trained).
Proof.
  apply (schema_survives_every_method module_globals _ Examples.trained).
  vm_compute. reflexivity.
Defined.

(** *** Files, backend and [self.results] *)

(** What lines 200-212 do to the files, the backend and
    [self.results]. *)
Lemma store_record_spec G md dir results fr :
  let fr' := fst (store_record G md dir results fr) in
  match snd (store_record G md dir results fr) with
  | Ok r =>
      r = results /\ json_serializable results = true /\
      Instance.results (self fr') = Some results /\
      (exists p, files (store fr')
                 = (files (store fr) ++ [(p, Empty); (p, JsonOf results)])%list) /\
      (exists b, Instance.backend (self fr) = Some b /\
         sent (store fr') = (sent (store fr) ++ if b then [results] else [])%list)
  | Raise e =>
      Instance.results (self fr') = Instance.results (self fr) /\
      sent (store fr') = sent (store fr) /\
      (files (store fr') = files (store fr) \/
       (exists p, files (store fr') = (files (store fr) ++ [(p, Empty)])%list /\
                  json_serializable results = false) \/
       (exists p, files (store fr')
                  = (files (store fr) ++ [(p, Empty); (p, JsonOf results)])%list /\
                  Instance.backend (self fr) = None /\
                  e = AttributeError "backend"))
  end.
Proof.
  destruct fr as [[hp ts tm fl sn] [mo cs ex ist mc a1 a2 a3 a4 a5 a6]].
  unfold store_record, write_results, send_to_backend, file_operation, set_store, set_self,
    modify, bind, lift, get, ret, raise.
  destruct (subscript md "project") as [project|e]; [|cbn; auto].
  destruct (subscript md "architecture") as [architecture|e]; [|cbn; auto].
  destruct (subscript md "instance") as [instance|e]; [|cbn; auto].
  destruct dir; try (cbn; auto; fail).
  destruct (file_io_bound G); [|cbn; auto].
  destruct (json_serializable results) eqn:Ej; cbn.
  - destruct a3 as [[|]|]; cbn; rewrite <- app_assoc; cbn.
    + split; [reflexivity|]. split; [reflexivity|]. split; [reflexivity|].
      split; [eexists; reflexivity|]. exists true. split; reflexivity.
    + split; [reflexivity|]. split; [reflexivity|]. split; [reflexivity|].
      split; [eexists; reflexivity|]. exists false. split; [reflexivity|].
      symmetry. apply app_nil_r.
    + split; [reflexivity|]. split; [reflexivity|]. right. right.
      eexists. split; [reflexivity|]. split; reflexivity.
  - split; [reflexivity|]. split; [reflexivity|]. right. left.
    eexists. split; reflexivity.
Qed.

(** X19. A call of [record_results] that returns has written the JSON
    text of the record it returns, which JSON can encode, to one file,
    as its last operation on files and after at most opening that
    file; it has sent the record to the backend if and only if
    [self.backend] is true, and [self.results] is that record. *)
Theorem record_results_effects (G : Globals) (fr fr' : Frame) (results : pyval) :
  record_results G fr = (fr', Ok results) ->
  json_serializable results = true /\
  Instance.results (self fr') = Some results /\
  (exists p opened,
     files (store fr') = (files (store fr) ++ opened ++ [(p, JsonOf results)])%list /\
     Forall (fun op => op = (p, Empty)) opened) /\
  (exists b, Instance.backend (self fr) = Some b /\
     sent (store fr') = (sent (store fr) ++ if b then [results] else [])%list).
Proof.
  rewrite record_results_steps. intros H.
  destruct (Instance.get_instance_info (self fr)) as [info|]; [|discriminate].
  destruct (Instance.meta_data (self fr)) as [md|]; [|discriminate].
  destruct (rbind _ _) as [dir|]; [|discriminate].
  pose proof (record_loop_only_executions (Instance.executions (self fr)) ([], []) fr I) as K.
  destruct (for_each _ record_execution _ fr) as [fr1 [collected|]]; [|discriminate].
  cbn [fst] in K. destruct K as (K1 & K2 & _ & _ & _ & K3 & _).
  destruct (build_record _ _ _ _ _) as [r|]; [|discriminate].
  pose proof (store_record_spec G md dir r fr1) as S. cbv zeta in S.
  rewrite H in S. cbn [fst snd] in S. destruct S as (-> & S1 & S2 & (p & S3) & S4).
  rewrite K1, K3 in *. split; [exact S1|]. split; [exact S2|]. split; [|exact S4].
  exists p, [(p, Empty)]. split; [exact S3|]. repeat constructor.
Qed.

Lemma record_results_effects_witness :
  let results := Examples.record_of Examples.complete_globals Examples.completed in
  let fr' := fst (record_results Examples.complete_globals Examples.completed) in
  json_serializable results = true /\
  Instance.results (self fr') = Some results /\
  (exists p opened,
     files (store fr')
     = (files (store Examples.completed) ++ opened ++ [(p, JsonOf results)])%list /\
     Forall (fun op => op = (p, Empty)) opened) /\
  (exists b, Instance.backend (self Examples.completed) = Some b /\
     sent (store fr')
     = (sent (store Examples.completed) ++ if b then [results] else [])%list).
Proof.
  refine (record_results_effects Examples.complete_globals Examples.completed _ _ _).
  vm_compute. reflexivity.
Defined.



(** On that instance the record is in the file and nowhere else; in the
    module as it is written, the call on the same instance fails at
    line 188 and leaves the files as they were. *)
Example record_is_written_before_backend_is_read :
  let r := record_results Examples.complete_globals Scenarios.without_backend in
  snd r = Raise (AttributeError "backend") /\
  Instance.results (self (fst r)) = None /\
  sent (store (fst r)) = [] /\
  (exists p record, files (store (fst r)) = [(p, Empty); (p, JsonOf record)]) /\
  record_results module_globals Scenarios.without_backend
  = (fst (record_results module_globals Scenarios.without_backend), Raise (NameError "np")) /\
  files (store (fst (record_results module_globals Scenarios.without_backend))) = [].
Proof.
  cbv zeta. split; [vm_compute; reflexivity|]. split; [vm_compute; reflexivity|].
  split; [vm_compute; reflexivity|]. split; [do 2 eexists; vm_compute; reflexivity|].
  split; vm_compute; reflexivity.
Qed.

(** *** The models of the executions *)

(** Lines 154-158 look up the names they iterate over: they cannot
    raise. *)
Lemma collect_metrics_returns e items em :
  (forall m r, (m, r) ∈ items -> exists r', dict_get (Execution.metrics e) m = Some r') ->
  exists em', collect_metrics e items em = Ok em'.
Proof.
  revert em. induction items as [|[m r] items IH]; intros em Hall; cbn [collect_metrics].
  - eauto.
  - destruct (Hall m r ltac:(left)) as (r' & ->).
    apply IH. intros m' r0 Hin. apply (Hall m' r0). right. exact Hin.
Qed.

Lemma collect_metrics_self e em :
  exists em', collect_metrics e (Execution.metrics e) em = Ok em'.
Proof. apply collect_metrics_returns. intros m r Hin. eapply dict_get_elem, Hin. Qed.

(** One turn of the loop of lines 151-178 deletes the model of the
    execution it is at, and a deleted model stays deleted. *)
Lemma record_execution_deletes ke acc fr :
  let fr' := fst (record_execution ke acc fr) in
  (first_model_deleted fr -> first_model_deleted fr') /\
  (is_ok (snd (record_execution ke acc fr)) = true ->
   forall rest, Instance.executions (self fr) = ke :: rest -> first_model_deleted fr').
Proof.
  cbv zeta. unfold record_execution, bind, lift, set_self, modify, get.
  destruct (collect_metrics _ _ _); [|split; [auto|discriminate]].
  destruct (execution_info _); [|split; [auto|discriminate]]. cbn.
  assert (H : (first_model_deleted fr ->
               first_model_deleted
                 {| store := store fr;
                    self := Instance.set_executions
                              (dict_set (Instance.executions (self fr)) (fst ke)
                                 (Execution.del_model (snd ke))) (self fr) |}) /\
              (forall rest, Instance.executions (self fr) = ke :: rest ->
               first_model_deleted
                 {| store := store fr;
                    self := Instance.set_executions
                              (dict_set (Instance.executions (self fr)) (fst ke)
                                 (Execution.del_model (snd ke))) (self fr) |})).
  { unfold first_model_deleted. cbn. split.
    - intros (k & e & rest & -> & He). cbn.
      destruct (decide (fst ke = k)); eexists _, _, _; (split; [reflexivity|]);
        [reflexivity|exact He].
    - intros rest ->. destruct ke as [k e]. cbn.
      destruct (decide (k = k)); [|congruence].
      eexists _, _, _. split; reflexivity. }
  destruct H as (H1 & H2).
  destruct (Instance.clear_gpu_memory (self fr)); cbn; split; auto.
Qed.

Lemma record_loop_keeps_deleted execs acc fr :
  first_model_deleted fr ->
  first_model_deleted (fst (for_each execs record_execution acc fr)).
Proof.
  revert acc fr. induction execs as [|ke execs IH]; intros acc fr H; cbn [for_each].
  - exact H.
  - pose proof (record_execution_deletes ke acc fr) as (D & _). cbv zeta in D.
    unfold bind. destruct (record_execution ke acc fr) as [fr1 [acc1|e]]; cbn [fst] in *.
    + apply IH, D, H.
    + apply D, H.
Qed.

Lemma record_loop_deletes execs acc fr fr' acc' :
  for_each execs record_execution acc fr = (fr', Ok acc') ->
  execs <> [] -> Instance.executions (self fr) = execs ->
  first_model_deleted fr'.
Proof.
  destruct execs as [|ke execs]; [congruence|]. intros H _ Hex. cbn [for_each] in H.
  apply bind_ok in H. destruct H as (fr1 & acc1 & H1 & H).
  pose proof (record_execution_deletes ke acc fr) as (_ & D). cbv zeta in D.
  rewrite H1 in D. cbn [fst snd] in D. specialize (D eq_refl execs Hex).
  pose proof (record_loop_keeps_deleted execs acc1 fr1 D) as K. rewrite H in K. exact K.
Qed.

(** A call on an instance whose first execution has no model raises at
    line 171: the bare [except] of line 163 hides the first failing
    read of [execution.model], not the second. *)
Lemma record_results_model_deleted G fr info md dir :
  Instance.get_instance_info (self fr) = Some info ->
  Instance.meta_data (self fr) = Some md ->
  (server <~ subscript md "server" ;; subscript server "local_dir") = Ok dir ->
  first_model_deleted fr ->
  snd (record_results G fr) = Raise (AttributeError "model").
Proof.
  intros Hinfo Hmd Hdir (k & e & rest & Hex & He).
  rewrite record_results_steps, Hinfo, Hmd, Hdir, Hex. cbn [for_each].
  unfold bind at 1. unfold record_execution at 1. cbn [snd fst].
  destruct (collect_metrics_self e []) as (em' & Hem).
  unfold bind at 1. rewrite Hem. unfold lift at 1. cbn beta iota.
  unfold bind at 1. unfold execution_info. rewrite He. reflexivity.
Qed.

(** X21. [record_results] cannot be called twice: a call that returns
    on an instance with at least one execution has deleted the model of
    the first execution (line 177), and the next call raises
    [AttributeError] when line 171 reads [execution.model]. *)
Theorem record_results_cannot_run_twice (G : Globals) (fr fr' : Frame) (results : pyval) :
  record_results G fr = (fr', Ok results) ->
  Instance.executions (self fr) <> [] ->
  snd (record_results G fr') = Raise (AttributeError "model").
Proof.
  intros H Hne. rewrite record_results_steps in H.
  destruct (Instance.get_instance_info (self fr)) as [info|] eqn:Hinfo; [|discriminate].
  destruct (Instance.meta_data (self fr)) as [md|] eqn:Hmd; [|discriminate].
  destruct (rbind _ _) as [dir|] eqn:Hdir; [|discriminate].
  pose proof (record_loop_only_executions (Instance.executions (self fr)) ([], []) fr I)
    as (_ & _ & K).
  destruct (for_each _ record_execution _ fr) as [fr1 [collected|]] eqn:Hloop; [|discriminate].
  cbn [fst] in K.
  pose proof (record_loop_deletes _ _ _ _ _ Hloop Hne eq_refl) as D.
  destruct (build_record _ _ _ _ _) as [r|]; [|discriminate].
  destruct (store_record_frame G md dir r fr1) as (_ & S1 & S2).
  rewrite H in S1, S2. cbn [fst] in S1, S2.
  assert (A : keeps_attributes fr fr') by (etransitivity; eassumption).
  destruct A as (_ & A2 & _ & _ & A5 & _).
  apply (record_results_model_deleted G fr' info md dir).
  - rewrite A5. exact Hinfo.
  - rewrite A2. exact Hmd.
  - exact Hdir.
  - destruct D as (k & e & rest & Hex & He). exists k, e, rest. rewrite S1. split; assumption.
Qed.

Lemma record_results_cannot_run_twice_witness :
  snd (record_results Examples.complete_globals
         (fst (record_results Examples.complete_globals Examples.completed)))
  = Raise (AttributeError "model").
Proof.
  refine (record_results_cannot_run_twice Examples.complete_globals Examples.completed _
            (Examples.record_of Examples.complete_globals Examples.completed) _ _).
  - vm_compute. reflexivity.
  - vm_compute. discriminate.
Defined.

(** *** The directions of the key metrics *)

Lemma record_key_metrics_raises metrics tms results name direction directions :
  (name, direction) ∈ tms ->
  dict_get metrics name = Some directions ->
  dict_get directions direction = None ->
  is_ok (record_key_metrics metrics tms results) = false.
Proof.
  intros Hin Hm Hd. revert results.
  induction tms as [|tm tms IH]; intros results; [inversion Hin|].
  cbn [record_key_metrics]. apply elem_of_cons in Hin. destruct Hin as [<-|Hin].
  - unfold record_key_metric. cbn [fst snd]. rewrite Hm, Hd. reflexivity.
  - destruct (record_key_metric metrics tm results) as [r|e]; cbn [rbind];
      [apply IH, Hin|reflexivity].
Qed.

(** The statistics lines 184-192 compute have the directions [min] and
    [max], in this order, for every metric an execution recorded. *)
Lemma aggregated_directions G fr fr1 em infos metrics name :
  for_each (Instance.executions (self fr)) record_execution ([], []) fr
  = (fr1, Ok (em, infos)) ->
  Forall (fun ke => NoDup (dict_keys (Execution.metrics (snd ke))))
         (Instance.executions (self fr)) ->
  aggregate G em (dict_keys em) [] = Ok metrics ->
  values_of Execution.metric_min name (Instance.executions (self fr)) <> [] ->
  exists smin smax, dict_get metrics name = Some [("min", smin); ("max", smax)].
Proof.
  intros Hloop Hnd Hagg Hrec.
  destruct (record_loop_spec _ _ _ _ _ _ _ _ _ Hloop Hnd holds_values_empty)
    as ((HndK & Hem) & _).
  destruct (Hem name) as (_ & Hget). cbn [app] in Hget.
  destruct (aggregate_spec _ _ _ _ _ Hagg HndK (fun _ _ => eq_refl) name) as (Hin & _).
  destruct (values_of Execution.metric_min name _) as [|v mins]; [congruence|].
  cbn [exec_entry] in Hget.
  assert (Hk : name ∈ dict_keys em).
  { destruct (decide (name ∈ dict_keys em)) as [Hk|Hk]; [exact Hk|].
    apply dict_get_keys in Hk. congruence. }
  destruct (Hin Hk) as (inner & ds & Hinner & Hds & Hm).
  rewrite Hget in Hinner. inversion Hinner; subst inner.
  destruct (aggregate_directions_pair _ _ _ _ Hds) as (sa & sb & _ & _ & ->).
  exists sa, sb. exact Hm.
Qed.

(** X22. A key metric whose name some execution recorded must have the
    direction ["min"] or ["max"]: with any other direction line 198
    looks up a key the statistics of the metric do not have, and
    [record_results] raises instead of returning a record.  (A key
    metric whose name no execution recorded is skipped.) *)
Theorem key_metric_direction_must_be_min_or_max (G : Globals) (fr : Frame)
    (kms : list (string * string)) (name direction : string) :
  Instance.key_metrics (self fr) = Some kms ->
  (name, direction) ∈ kms ->
  values_of Execution.metric_min name (Instance.executions (self fr)) <> [] ->
  direction <> "min" -> direction <> "max" ->
  Forall (fun ke => NoDup (dict_keys (Execution.metrics (snd ke))))
         (Instance.executions (self fr)) ->
  is_ok (snd (record_results G fr)) = false.
Proof.
  intros Hkms Hin Hrec Hmin Hmax Hnd.
  destruct (record_results G fr) as [fr' [results|e]] eqn:H; [|reflexivity]. exfalso.
  destruct (record_results_ok_inv _ _ _ _ H)
    as (info & md & kms' & em & infos & metrics & r1 & r2 & r3 & fr1 &
        _ & _ & Hkms' & Hloop & _ & _ & Hagg & _ & Hr4).
  rewrite Hkms in Hkms'. inversion Hkms'; subst kms'.
  destruct (aggregated_directions G fr fr1 em infos metrics name Hloop Hnd Hagg Hrec)
    as (smin & smax & Hm).
  pose proof (record_key_metrics_raises metrics kms r3 name direction _ Hin Hm) as Hr.
  rewrite Hr4 in Hr. cbn in Hr.
  assert (Hd : dict_get [("min", smin); ("max", smax)] direction = None).
  { cbn. destruct (decide (direction = "min")); [contradiction|].
    destruct (decide (direction = "max")); [contradiction|reflexivity]. }
  specialize (Hr Hd). discriminate.
Qed.

Lemma key_metric_direction_must_be_min_or_max_witness :
  is_ok (snd (record_results Examples.complete_globals Scenarios.misconfigured)) = false.
Proof.
  apply (key_metric_direction_must_be_min_or_max Examples.complete_globals
           Scenarios.misconfigured [("loss", "median")] "loss" "median").
  - reflexivity.
  - left.
  - vm_compute. discriminate.
  - discriminate.
  - discriminate.
  - vm_compute. repeat constructor; intros H; inversion H.
Defined.

(** *** The names the module does not bind *)

Lemma store_record_needs_file_io G md dir results fr :
  file_io_bound G = false -> is_ok (snd (store_record G md dir results fr)) = false.
Proof.
  intros HG. unfold store_record, write_results, bind, lift, raise.
  destruct (subscript md "project"); [|reflexivity].
  destruct (subscript md "architecture"); [|reflexivity].
  destruct (subscript md "instance"); [|reflexivity].
  rewrite HG. destruct dir; reflexivity.
Qed.

(** X23. In a module that does not bind [file_io], which is the case
    of the module as it is written, no call of [record_results]
    returns, on any instance: giving the instance, from outside the
    class, every method and attribute it lacks does not help, line 204
    being on the only path to the [return]. *)
Theorem record_results_needs_file_io (G : Globals) (fr : Frame) :
  file_io_bound G = false -> is_ok (snd (record_results G fr)) = false.
Proof.
  intros HG. rewrite record_results_steps.
  destruct (Instance.get_instance_info (self fr)) as [info|]; [|reflexivity].
  destruct (Instance.meta_data (self fr)) as [md|]; [|reflexivity].
  destruct (rbind _ _) as [dir|]; [|reflexivity].
  destruct (for_each _ record_execution _ fr) as [fr1 [collected|]]; [|reflexivity].
  destruct (build_record _ _ _ _ _) as [r|]; [|reflexivity].
  apply store_record_needs_file_io, HG.
Qed.

Lemma record_results_needs_file_io_witness :
  is_ok (snd (record_results module_globals Examples.completed)) = false.
Proof.
  apply (record_results_needs_file_io module_globals Examples.completed). reflexivity.
Defined.

(** The statistics of the mins of a metric some execution recorded have
    been computed when lines 184-192 are over. *)
Lemma aggregated_statistics G fr fr1 em infos metrics name :
  for_each (Instance.executions (self fr)) record_execution ([], []) fr
  = (fr1, Ok (em, infos)) ->
  Forall (fun ke => NoDup (dict_keys (Execution.metrics (snd ke))))
         (Instance.executions (self fr)) ->
  aggregate G em (dict_keys em) [] = Ok metrics ->
  values_of Execution.metric_min name (Instance.executions (self fr)) <> [] ->
  exists smin,
    statistics G (values_of Execution.metric_min name (Instance.executions (self fr)))
    = Ok smin.
Proof.
  intros Hloop Hnd Hagg Hrec.
  destruct (record_loop_spec _ _ _ _ _ _ _ _ _ Hloop Hnd holds_values_empty)
    as ((HndK & Hem) & _).
  destruct (Hem name) as (_ & Hget). cbn [app] in Hget.
  destruct (aggregate_spec _ _ _ _ _ Hagg HndK (fun _ _ => eq_refl) name) as (Hin & _).
  destruct (values_of Execution.metric_min name _) as [|v mins] eqn:Ev; [congruence|].
  cbn [exec_entry] in Hget.
  assert (Hk : name ∈ dict_keys em).
  { destruct (decide (name ∈ dict_keys em)) as [Hk|Hk]; [exact Hk|].
    apply dict_get_keys in Hk. congruence. }
  destruct (Hin Hk) as (inner & ds & Hinner & Hds & Hm).
  rewrite Hget in Hinner. inversion Hinner; subst inner.
  destruct (aggregate_directions_pair _ _ _ _ Hds) as (sa & sb & Ha & _ & _).
  exists sa. exact Ha.
Qed.

(** X24. In a module that does not bind [np], which is the case of
    the module as it is written, no call of [record_results] returns on
    an instance one of whose executions recorded a metric: line 188 is
    reached for every recorded metric before anything is written. *)
Theorem record_results_needs_numpy (G : Globals) (fr : Frame) (name : string) :
  np G = None ->
  values_of Execution.metric_min name (Instance.executions (self fr)) <> [] ->
  Forall (fun ke => NoDup (dict_keys (Execution.metrics (snd ke))))
         (Instance.executions (self fr)) ->
  is_ok (snd (record_results G fr)) = false.
Proof.
  intros HG Hrec Hnd.
  destruct (record_results G fr) as [fr' [results|e]] eqn:H; [|reflexivity]. exfalso.
  destruct (record_results_ok_inv _ _ _ _ H)
    as (info & md & kms' & em & infos & metrics & r1 & r2 & r3 & fr1 &
        _ & _ & _ & Hloop & _ & _ & Hagg & _ & _).
  destruct (aggregated_statistics G fr fr1 em infos metrics name Hloop Hnd Hagg Hrec)
    as (smin & Hs).
  unfold statistics in Hs. rewrite HG in Hs. discriminate.
Qed.

Lemma record_results_needs_numpy_witness :
  is_ok (snd (record_results {| np := None; file_io_bound := true |} Examples.completed))
  = false.
Proof.
  apply (record_results_needs_numpy {| np := None; file_io_bound := true |}
           Examples.completed "loss").
  - reflexivity.
  - vm_compute. discriminate.
  - vm_compute. repeat constructor; intros H; inversion H.
Defined.
